(** * formbot: filling a web form from the rows of a CSV file

    A shallow embedding of the three scripts of the repository,

      - test.py   heuristic string scoring                (module [Test]),
      - bot.py    scored rules read from a JSON file       (module [Bot]),
      - test2.py  delegated matching, hidden fields, users (module [Test2]),

    and the properties their specification states about them.

    Python text is modelled by [string]; the model is exact on ASCII text
    (case mapping, lengths, whitespace and the regular-expression
    classes are the ASCII ones), and the properties that turn on case
    or length are stated for ASCII text.  A cell of a row of the data
    file is a text or [None].  A Python [dict] keyed by strings is an
    association list in insertion order without repeated keys, a [set]
    of strings is a [gset string].  The collaborators the scripts reach
    through libraries (the HTTP transport, the HTML parser, the language
    model, the JSON decoder, the browser's cookie store) are arguments
    of the functions that use them. *)

From Stdlib Require Import ZArith Ascii String List Bool Lia.
From stdpp Require Import base list strings gmap.

Local Open Scope string_scope.
Local Open Scope Z_scope.

(** ** Python strings *)

Module py.

Definition code (c : ascii) : N := N_of_ascii c.

Definition between (lo hi : N) (c : ascii) : bool :=
  ((lo <=? code c) && (code c <=? hi))%N.

Definition isupper (c : ascii) : bool := between 65 90 c.
Definition isdigit (c : ascii) : bool := between 48 57 c.
Definition isalpha (c : ascii) : bool := between 65 90 c || between 97 122 c.
Definition isalnum (c : ascii) : bool := isalpha c || isdigit c.

(** [str.isspace] on one character: TAB..CR, FS..US and the space. *)
Definition isspace (c : ascii) : bool := between 9 13 c || between 28 32 c.

Definition lower_char (c : ascii) : ascii :=
  if isupper c then ascii_of_N (code c + 32) else c.

(** [s.lower()], on ASCII text: the letters A to Z are folded, every
    other character is kept. *)
Fixpoint lower (s : string) : string :=
  match s with
  | EmptyString => EmptyString
  | String c s' => String (lower_char c) (lower s')
  end.

(** [len(s)], on ASCII text: one character per code point. *)
Definition len (s : string) : Z := Z.of_nat (String.length s).

(** [s.startswith(p)] *)
Fixpoint startswith (s p : string) {struct p} : bool :=
  match p, s with
  | EmptyString, _ => true
  | String _ _, EmptyString => false
  | String a p', String b s' => Ascii.eqb a b && startswith s' p'
  end.

(** [needle in hay] *)
Fixpoint contains (hay needle : string) : bool :=
  startswith hay needle ||
  match hay with
  | EmptyString => false
  | String _ hay' => contains hay' needle
  end.

Fixpoint lstrip (s : string) : string :=
  match s with
  | EmptyString => EmptyString
  | String c s' => if isspace c then lstrip s' else s
  end.

Fixpoint rstrip (s : string) : string :=
  match s with
  | EmptyString => EmptyString
  | String c s' =>
      match rstrip s' with
      | EmptyString => if isspace c then EmptyString else String c EmptyString
      | r => String c r
      end
  end.

(** [s.strip()], for the ASCII white space *)
Definition strip (s : string) : string := rstrip (lstrip s).

(** [s.replace(old, new)] for a non-empty [old]: the occurrences are
    replaced from the left and do not overlap; [skip] counts the
    characters of an occurrence still to be dropped. *)
Fixpoint replace_from (skip : nat) (s old new : string) : string :=
  match s with
  | EmptyString => EmptyString
  | String c s' =>
      match skip with
      | S k => replace_from k s' old new
      | O =>
          if startswith s old
          then new ++ replace_from (String.length old - 1) s' old new
          else String c (replace_from O s' old new)
      end
  end.

Definition replace (s old new : string) : string := replace_from O s old new.

(** ["\n".join(parts)] *)
Fixpoint join (sep : string) (parts : list string) : string :=
  match parts with
  | [] => EmptyString
  | [p] => p
  | p :: ps => p ++ sep ++ join sep ps
  end.

(** The truth value of a string: the empty string is false. *)
Definition truthy (s : string) : bool := negb (String.eqb s EmptyString).

(** *** Dictionaries keyed by strings *)

Abbreviation dict V := (list (string * V)).

Section Dict.
Context {V : Type}.

(** [d.get(k)] *)
Fixpoint get (d : dict V) (k : string) : option V :=
  match d with
  | [] => None
  | (k', v) :: d' => if String.eqb k' k then Some v else get d' k
  end.

(** [d[k] = v]: an existing key keeps its place, a new key goes last. *)
Fixpoint set (d : dict V) (k : string) (v : V) : dict V :=
  match d with
  | [] => [(k, v)]
  | (k', v') :: d' =>
      if String.eqb k' k then (k, v) :: d' else (k', v') :: set d' k v
  end.

(** [k in d] *)
Definition mem (d : dict V) (k : string) : bool :=
  match get d k with Some _ => true | None => false end.

Definition keys (d : dict V) : list string := map fst d.
Definition values (d : dict V) : list V := map snd d.

(** A dictionary built by assigning the pairs of [l] in order, as a
    dict comprehension does. *)
Definition of_items (l : list (string * V)) : dict V :=
  fold_left (fun d kv => set d (fst kv) (snd kv)) l [].
End Dict.

End py.

(** ** Regular expressions

    The fragment of Python's [re] the scripts rely on: literals,
    backslash escapes, [.], [^], [$], the quantifiers [*], [+], [?] and
    their lazy forms, alternation, capturing and [(?:...)] groups and
    character sets.  [compile] reports a pattern that [re] rejects as
    [Invalid] (it raises [re.error]) and a pattern written with syntax
    outside the fragment as [Unmodelled]. *)

Module re.

Inductive category := Digit | Space | Word.

Definition in_category (k : category) (c : ascii) : bool :=
  match k with
  | Digit => py.isdigit c
  | Space => py.isspace c
  | Word => py.isalnum c || Ascii.eqb c "_"
  end.

Inductive set_item :=
  | SChar (c : ascii)
  | SRange (lo hi : ascii)
  | SClass (negated : bool) (k : category).

Inductive regex :=
  | Empty
  | Lit (c : ascii)
  | AnyChar
  | Class (negated : bool) (k : category)
  | CharSet (negated : bool) (items : list set_item)
  | Bol
  | Eol
  | Seq (r1 r2 : regex)
  | Alt (r1 r2 : regex)
  | Opt (greedy : bool) (r : regex)
  | Star (greedy : bool) (r : regex)
  | Plus (greedy : bool) (r : regex)
  | Group (index : option nat) (r : regex).

(** *** Matching *)

(** Two characters agree, up to case under [re.IGNORECASE]; the case
    folding is that of ASCII. *)
Definition char_eq (ignorecase : bool) (a b : ascii) : bool :=
  if ignorecase then Ascii.eqb (py.lower_char a) (py.lower_char b)
  else Ascii.eqb a b.

Definition upper_char (c : ascii) : ascii :=
  if py.between 97 122 c then ascii_of_N (py.code c - 32) else c.

Definition in_span (lo hi c : ascii) : bool :=
  ((py.code lo <=? py.code c) && (py.code c <=? py.code hi))%N.

Definition item_matches (ignorecase : bool) (c : ascii) (i : set_item) : bool :=
  match i with
  | SChar a => char_eq ignorecase a c
  | SRange lo hi =>
      in_span lo hi c ||
      (ignorecase && (in_span lo hi (py.lower_char c) || in_span lo hi (upper_char c)))
  | SClass negated k => xorb negated (in_category k c)
  end.

(** The groups matched so far: group number, start and end offsets. *)
Abbreviation captures := (list (nat * (nat * nat))).

(** What remains to be matched: the text left, its offset, the groups. *)
Abbreviation cont := (string -> nat -> captures -> option captures).

Definition one_char (ok : ascii -> bool) (s : string) (p : nat)
    (g : captures) (k : cont) : option captures :=
  match s with
  | String c s' => if ok c then k s' (S p) g else None
  | EmptyString => None
  end.

Definition or_else (a : option captures) (b : unit -> option captures) :
    option captures :=
  match a with Some x => Some x | None => b tt end.

(** Zero or more rounds of [body]; a round that consumes nothing ends
    the repetition, so the length of the text bounds the rounds. *)
Fixpoint rounds (greedy : bool) (body : string -> nat -> captures -> cont -> option captures)
    (k : cont) (fuel : nat) (s : string) (p : nat) (g : captures) : option captures :=
  match fuel with
  | O => k s p g
  | S fuel' =>
      let again (_ : unit) :=
        body s p g (fun s' p' g' =>
          if (p <? p')%nat then rounds greedy body k fuel' s' p' g' else None) in
      if greedy then or_else (again tt) (fun _ => k s p g)
      else or_else (k s p g) again
  end.

(** [$]: at the end of the text, or before a newline that ends it. *)
Definition at_end (s : string) : bool :=
  match s with
  | EmptyString => true
  | String c EmptyString => Ascii.eqb c "010"
  | _ => false
  end.

Fixpoint run (ic : bool) (r : regex) (s : string) (p : nat) (g : captures)
    (k : cont) {struct r} : option captures :=
  match r with
  | Empty => k s p g
  | Lit a => one_char (char_eq ic a) s p g k
  | AnyChar => one_char (fun c => negb (Ascii.eqb c "010")) s p g k
  | Class negated c => one_char (fun x => xorb negated (in_category c x)) s p g k
  | CharSet negated items =>
      one_char (fun x => xorb negated (existsb (item_matches ic x) items)) s p g k
  | Bol => if (p =? 0)%nat then k s p g else None
  | Eol => if at_end s then k s p g else None
  | Seq r1 r2 => run ic r1 s p g (fun s' p' g' => run ic r2 s' p' g' k)
  | Alt r1 r2 => or_else (run ic r1 s p g k) (fun _ => run ic r2 s p g k)
  | Opt greedy r1 =>
      if greedy then or_else (run ic r1 s p g k) (fun _ => k s p g)
      else or_else (k s p g) (fun _ => run ic r1 s p g k)
  | Star greedy r1 => rounds greedy (run ic r1) k (String.length s) s p g
  | Plus greedy r1 =>
      run ic r1 s p g (fun s' p' g' =>
        rounds greedy (run ic r1) k (String.length s') s' p' g')
  | Group index r1 =>
      run ic r1 s p g (fun s' p' g' =>
        k s' p' match index with
                | Some i => (i, (p, p')) :: g'
                | None => g'
                end)
  end.

(** The leftmost match of [r] at or after offset [p]; group 0 is the
    whole match. *)
Fixpoint search_from (ic : bool) (r : regex) (s : string) (p : nat) :
    option captures :=
  match run ic r s p [] (fun _ p' g' => Some ((O, (p, p')) :: g')) with
  | Some g => Some g
  | None =>
      match s with
      | EmptyString => None
      | String _ s' => search_from ic r s' (S p)
      end
  end.

(** [m.group(i)] of a match [g] in [text] *)
Definition group (text : string) (g : captures) (i : nat) : option string :=
  match find (fun e => (fst e =? i)%nat) g with
  | Some (_, (a, b)) => Some (String.substring a (b - a) text)
  | None => None
  end.

(** [re.sub] of [r] by the empty text: every match is deleted, scanning from the
    left; [skip] counts the characters of a match still to be dropped. *)
Fixpoint delete_from (ic : bool) (r : regex) (skip : nat) (s : string) (p : nat) : string :=
  match s with
  | EmptyString => EmptyString
  | String c s' =>
      match skip with
      | S n => delete_from ic r n s' (S p)
      | O =>
          match run ic r s p [] (fun _ p' _ => Some [(O, (p, p'))]) with
          | Some ((_, (_, e)) :: _) =>
              if (p <? e)%nat then delete_from ic r (e - p - 1) s' (S p)
              else String c (delete_from ic r O s' (S p))
          | _ => String c (delete_from ic r O s' (S p))
          end
      end
  end.

(** *** Compiling a pattern *)

Inductive compiled :=
  | Compiled (r : regex)
  | Invalid (msg : string)
  | Unmodelled.

Inductive escape_code :=
  | EscChar (c : ascii)
  | EscClass (negated : bool) (k : category)
  | EscInvalid
  | EscUnmodelled.

(** The meaning of [\e], outside ([in_set = false]) or inside a set. *)
Definition escaped (in_set : bool) (e : ascii) : escape_code :=
  if Ascii.eqb e "d" then EscClass false Digit
  else if Ascii.eqb e "D" then EscClass true Digit
  else if Ascii.eqb e "s" then EscClass false Space
  else if Ascii.eqb e "S" then EscClass true Space
  else if Ascii.eqb e "w" then EscClass false Word
  else if Ascii.eqb e "W" then EscClass true Word
  else if Ascii.eqb e "a" then EscChar "007"
  else if Ascii.eqb e "f" then EscChar "012"
  else if Ascii.eqb e "n" then EscChar "010"
  else if Ascii.eqb e "r" then EscChar "013"
  else if Ascii.eqb e "t" then EscChar "009"
  else if Ascii.eqb e "v" then EscChar "011"
  else if Ascii.eqb e "b" then (if in_set then EscChar "008" else EscUnmodelled)
  else if Ascii.eqb e "A" || Ascii.eqb e "Z" || Ascii.eqb e "B"
       then (if in_set then EscInvalid else EscUnmodelled)
  else if Ascii.eqb e "x" || Ascii.eqb e "u" || Ascii.eqb e "U" || Ascii.eqb e "N"
       then EscUnmodelled
  else if py.isdigit e then EscUnmodelled
  else if py.isalpha e then EscInvalid
  else EscChar e.

(** The branch being read inside one pair of parentheses (or at top
    level): the finished alternatives and the items of the current one,
    both latest first. *)
Record frame := Frame {
  f_index : option nat;
  f_alts : list regex;
  f_items : list regex
}.

Definition seq_of (items : list regex) : regex := fold_right Seq Empty items.

Fixpoint alt_of (first : regex) (others : list regex) : regex :=
  match others with
  | [] => first
  | r :: rs => Alt first (alt_of r rs)
  end.

Definition close (f : frame) : regex :=
  match rev (seq_of (rev (f_items f)) :: f_alts f) with
  | [] => Empty
  | r :: rs => alt_of r rs
  end.

Definition push (r : regex) (f : frame) : frame :=
  Frame (f_index f) (f_alts f) (r :: f_items f).

Definition next_branch (f : frame) : frame :=
  Frame (f_index f) (seq_of (rev (f_items f)) :: f_alts f) [].

Definition is_at (r : regex) : bool :=
  match r with Bol | Eol => true | _ => false end.

Definition is_repeat (r : regex) : bool :=
  match r with Opt _ _ | Star _ _ | Plus _ _ => true | _ => false end.

Definition quantified (q : ascii) (greedy : bool) (r : regex) : regex :=
  if Ascii.eqb q "*" then Star greedy r
  else if Ascii.eqb q "+" then Plus greedy r
  else Opt greedy r.

Definition item_of (e : escape_code) : option set_item :=
  match e with
  | EscChar c => Some (SChar c)
  | EscClass negated k => Some (SClass negated k)
  | _ => None
  end.

Inductive range_result := Range (i : set_item) | BadRange.

Definition range_of (a b : set_item) : range_result :=
  match a, b with
  | SChar lo, SChar hi =>
      if (py.code hi <? py.code lo)%N then BadRange else Range (SRange lo hi)
  | _, _ => BadRange
  end.

(** Where the reader is: in the pattern proper, or inside [[...]] with
    the items read so far (latest first) and, after [i-], the item [i]
    that may begin a range. *)
Inductive mode :=
  | Normal
  | InSet (negated : bool) (items : list set_item) (dash : option set_item).

Fixpoint parse (s : string) (m : mode) (cur : frame) (outer : list frame)
    (n : nat) {struct s} : compiled :=
  match m with
  | InSet negated items None =>
      match s with
      | EmptyString => Invalid "unterminated character set"
      | String c rest =>
          if Ascii.eqb c "]" && negb (Nat.eqb (length items) 0) then
            parse rest Normal (push (CharSet negated (rev items)) cur) outer n
          else if Ascii.eqb c "\" then
            match rest with
            | EmptyString => Invalid "bad escape (end of pattern)"
            | String e rest' =>
                match escaped true e with
                | EscInvalid => Invalid "bad escape"
                | EscUnmodelled => Unmodelled
                | EscChar a =>
                    match rest' with
                    | String "-" rest'' => parse rest'' (InSet negated items (Some (SChar a))) cur outer n
                    | _ => parse rest' (InSet negated (SChar a :: items) None) cur outer n
                    end
                | EscClass neg k =>
                    match rest' with
                    | String "-" rest'' => parse rest'' (InSet negated items (Some (SClass neg k))) cur outer n
                    | _ => parse rest' (InSet negated (SClass neg k :: items) None) cur outer n
                    end
                end
            end
          else
            match rest with
            | String "-" rest' => parse rest' (InSet negated items (Some (SChar c))) cur outer n
            | _ => parse rest (InSet negated (SChar c :: items) None) cur outer n
            end
      end
  | InSet negated items (Some i) =>
      match s with
      | EmptyString => Invalid "unterminated character set"
      | String c rest =>
          if Ascii.eqb c "]" then
            parse rest Normal (push (CharSet negated (rev (SChar "-" :: i :: items))) cur) outer n
          else if Ascii.eqb c "\" then
            match rest with
            | EmptyString => Invalid "bad escape (end of pattern)"
            | String e rest' =>
                match escaped true e with
                | EscInvalid => Invalid "bad escape"
                | EscUnmodelled => Unmodelled
                | EscChar a =>
                    match range_of i (SChar a) with
                    | Range r => parse rest' (InSet negated (r :: items) None) cur outer n
                    | BadRange => Invalid "bad character range"
                    end
                | EscClass _ _ => Invalid "bad character range"
                end
            end
          else
            match range_of i (SChar c) with
            | Range r => parse rest (InSet negated (r :: items) None) cur outer n
            | BadRange => Invalid "bad character range"
            end
      end
  | Normal =>
      match s with
      | EmptyString =>
          match outer with
          | [] => Compiled (close cur)
          | _ :: _ => Invalid "missing ), unterminated subpattern"
          end
      | String c rest =>
          if Ascii.eqb c "\" then
            match rest with
            | EmptyString => Invalid "bad escape (end of pattern)"
            | String e rest' =>
                match escaped false e with
                | EscChar a => parse rest' Normal (push (Lit a) cur) outer n
                | EscClass neg k => parse rest' Normal (push (Class neg k) cur) outer n
                | EscInvalid => Invalid "bad escape"
                | EscUnmodelled => Unmodelled
                end
            end
          else if Ascii.eqb c "(" then
            match rest with
            | String "?" (String ":" rest') =>
                parse rest' Normal (Frame None [] []) (cur :: outer) n
            | String "?" _ => Unmodelled
            | _ => parse rest Normal (Frame (Some (S n)) [] []) (cur :: outer) (S n)
            end
          else if Ascii.eqb c ")" then
            match outer with
            | [] => Invalid "unbalanced parenthesis"
            | f :: outer' =>
                parse rest Normal (push (Group (f_index cur) (close cur)) f) outer' n
            end
          else if Ascii.eqb c "|" then parse rest Normal (next_branch cur) outer n
          else if Ascii.eqb c "*" || Ascii.eqb c "+" || Ascii.eqb c "?" then
            match f_items cur with
            | [] => Invalid "nothing to repeat"
            | item :: items =>
                if is_at item then Invalid "nothing to repeat"
                else if is_repeat item then Invalid "multiple repeat"
                else
                  match rest with
                  | String "?" rest' =>
                      parse rest' Normal
                        (Frame (f_index cur) (f_alts cur) (quantified c false item :: items))
                        outer n
                  | String "+" _ => Unmodelled
                  | _ =>
                      parse rest Normal
                        (Frame (f_index cur) (f_alts cur) (quantified c true item :: items))
                        outer n
                  end
            end
          else if Ascii.eqb c "[" then
            match rest with
            | String "^" rest' => parse rest' (InSet true [] None) cur outer n
            | _ => parse rest (InSet false [] None) cur outer n
            end
          else if Ascii.eqb c "{" then Unmodelled
          else if Ascii.eqb c "." then parse rest Normal (push AnyChar cur) outer n
          else if Ascii.eqb c "^" then parse rest Normal (push Bol cur) outer n
          else if Ascii.eqb c "$" then parse rest Normal (push Eol cur) outer n
          else parse rest Normal (push (Lit c) cur) outer n
      end
  end.

(** [re.compile(pattern)] *)
Definition compile (pattern : string) : compiled :=
  parse pattern Normal (Frame None [] []) [] O.

(** *** The functions of the module *)

Inductive result (A : Type) :=
  | Returned (a : A)
  | Raised (msg : string)      (* [re.error] *)
  | OutsideModel.
Arguments Returned {A} a.
Arguments Raised {A} msg.
Arguments OutsideModel {A}.

(** [re.search(pattern, text)], with [re.IGNORECASE] when [ic]. *)
Definition search (pattern text : string) (ic : bool) : result (option captures) :=
  match compile pattern with
  | Compiled r => Returned (search_from ic r text O)
  | Invalid msg => Raised msg
  | Unmodelled => OutsideModel
  end.

(** [re.sub] of [pattern] by the empty text in [text] *)
Definition delete (pattern text : string) : result string :=
  match compile pattern with
  | Compiled r => Returned (delete_from false r O text O)
  | Invalid msg => Raised msg
  | Unmodelled => OutsideModel
  end.

(** The characters [re.escape] protects with a backslash. *)
Definition special_chars : list ascii :=
  list_ascii_of_string "()[]{}?*+-|^$\.&~# " ++
  ["009"; "010"; "013"; "011"; "012"]%char.

Definition is_special (c : ascii) : bool := existsb (Ascii.eqb c) special_chars.

(** [re.escape(text)] *)
Fixpoint escape (text : string) : string :=
  match text with
  | EmptyString => EmptyString
  | String c text' =>
      if is_special c then String "\" (String c (escape text'))
      else String c (escape text')
  end.

End re.

(** ** The HTTP client

    A call either raises a [RequestException] before any response is
    received, or returns a response; [raise_for_status] then raises for
    the 4xx and 5xx statuses. *)

Module requests.

Inductive reply (B : Type) :=
  | Failed
  | Response (status_code : Z) (content : B).
Arguments Failed {B}.
Arguments Response {B} status_code content.

Definition raises_for_status (status_code : Z) : bool :=
  (400 <=? status_code) && (status_code <? 600).

End requests.

(** What a run prints, as far as the properties below observe it. *)
Inductive event :=
  | Success (row : nat)        (* Successfully submitted data for row ... *)
  | Failure (row : nat)        (* Error submitting data for row ... *)
  | SignInIssue                (* (Sign-in issue.) *)
  | UserNotFound (row : nat)   (* Warning: User ... not found. Skipping. *)
  | NoCookies (row : nat)      (* Warning: Could not load cookies ... *)
  | FileError                  (* Error: ... file not found / not decodable *)
  | Unexpected.                (* An unexpected error occurred ... *)

(** What a cell of a row, and so a field of a payload, holds: a text, or
    Python's [None], which [csv.DictReader] puts under the columns of
    the header for which a short data line has no value. *)
Inductive cell :=
  | Text (text : string)
  | PyNone.

(** One line of the data file, as [csv.DictReader] yields it: a cell
    under each column of the header. *)
Abbreviation row := (py.dict cell).

(** The payload of a submission, [form_data]. *)
Abbreviation payload := (py.dict cell).

(** [session.post(url, data=form_data)] for the row numbered [i]
    (rows are numbered from 1). *)
Abbreviation transport := (nat -> string -> payload -> requests.reply unit).

(** [row.get(csv_column, default)] with the empty text as default: the
    default is taken for a column the row has no cell for, and a cell
    that holds [None] is returned as it is. *)
Definition row_get (r : row) (csv_column : string) : cell :=
  match py.get r csv_column with Some c => c | None => Text EmptyString end.

(** A cell inside an f-string. *)
Definition format (c : cell) : string :=
  match c with Text text => text | PyNone => "None" end.

(** The cells of a line that has a value for every column. *)
Definition texts (line : py.dict string) : py.dict cell :=
  map (fun kv => (fst kv, Text (snd kv))) line.

(** The data file, as the scripts read it: absent, without even a
    header line, or a header and the rows [csv.DictReader] yields. *)
Inductive csv_file :=
  | NoFile
  | NoHeader
  | Table (header : list string) (rows : list row).

(** [next(csv.reader(csvfile))]: [None] when the file cannot be opened
    or has no first line. *)
Definition header_of (f : csv_file) : option (list string) :=
  match f with
  | Table header _ => Some header
  | _ => None
  end.

(** The rows [csv_to_google_form] iterates over, [None] for a file that
    cannot be opened. *)
Definition rows_of (f : csv_file) : option (list row) :=
  match f with
  | NoFile => None
  | NoHeader => Some []
  | Table _ rows => Some rows
  end.

(** How a run of [main] ends. *)
Inductive report :=
  | NoApiKey                                (* GEMINI_API_KEY ... not set. *)
  | ExtractionFailed                        (* Automatic extraction failed.  Exiting. *)
  | HeaderUnreadable                        (* Error: CSV file not found / Error opening CSV file *)
  | NoMappings                              (* No mappings could be determined.  Exiting. *)
  | Ran (success : bool) (log : list event) (* All data submitted / Some submissions failed *)
  | NotModelled.                            (* the mapping holds a value that is no text *)

(** ** test.py *)

Module Test.

(** A [div role=listitem] of the form page, as far as the script looks
    at it: the text of its first [span], and the [data-params]
    attribute of its first [div] that carries one. *)
Record listitem := {
  question_span : option string;
  parent_div : option string
}.

Fixpoint scan_items (list_items : list listitem) (entry_ids : py.dict string) :
    option (py.dict string) :=
  match list_items with
  | [] => Some entry_ids
  | item :: rest =>
      match question_span item with
      | None => scan_items rest entry_ids
      | Some span =>
          let question_text := py.strip span in
          match parent_div item with
          | None => scan_items rest entry_ids
          | Some data_params =>
              if negb (py.truthy data_params) then scan_items rest entry_ids
              else
                match re.search "\[\[(\d+)" data_params false with
                | re.Returned (Some m) =>
                    match re.group data_params m 1 with
                    | Some digits =>
                        scan_items rest (py.set entry_ids question_text ("entry." ++ digits))
                    | None => None
                    end
                | re.Returned None => scan_items rest entry_ids
                | _ => None
                end
          end
      end
  end.

(** [get_form_entry_ids(form_url)]; [page] is what [requests.get] and
    the HTML parser give for the URL.  [None] is Python's [None]. *)
Definition get_form_entry_ids (page : requests.reply (list listitem)) :
    option (py.dict string) :=
  match page with
  | requests.Failed => None
  | requests.Response status_code list_items =>
      if requests.raises_for_status status_code then None
      else
        match scan_items list_items [] with
        | Some [] => None
        | Some entry_ids => Some entry_ids
        | None => None
        end
  end.

(** The score of one label for one column (lines 129-134). *)
Definition score_of (csv_col form_label : string) : Z :=
  (if py.contains (py.lower form_label) (py.lower csv_col) then 50 else 0)
  + (if py.contains (py.lower csv_col) (py.lower form_label) then 40 else 0)
  + Z.max 0 (10 - Z.abs (py.len csv_col - py.len form_label)).

(** The inner loop: the labels still to visit, the best so far. *)
Fixpoint best_of (used_entry_ids : gset string) (csv_col : string)
    (items : py.dict string) (best_match : option string) (best_match_score : Z) :
    option string * Z :=
  match items with
  | [] => (best_match, best_match_score)
  | (form_label, entry_id) :: rest =>
      if bool_decide (entry_id ∈ used_entry_ids) then
        best_of used_entry_ids csv_col rest best_match best_match_score
      else if String.eqb (py.lower csv_col) (py.lower form_label) then
        (Some entry_id, 100)
      else
        let score := score_of csv_col form_label in
        if best_match_score <? score then
          best_of used_entry_ids csv_col rest (Some entry_id) score
        else best_of used_entry_ids csv_col rest best_match best_match_score
  end.

(** One round of the outer loop, on the pair [(mappings, used_entry_ids)]. *)
Definition match_column (entry_id_dict : py.dict string)
    (st : py.dict string * gset string) (csv_col : string) :
    py.dict string * gset string :=
  match fst (best_of (snd st) csv_col entry_id_dict None 0) with
  | Some best_match =>
      if py.truthy best_match
      then (py.set (fst st) csv_col best_match, {[ best_match ]} ∪ snd st)
      else st
  | None => st
  end.

Definition match_columns (entry_id_dict : py.dict string) (csv_header : list string)
    (st : py.dict string * gset string) : py.dict string * gset string :=
  fold_left (match_column entry_id_dict) csv_header st.

(** [find_matching_keys(entry_id_dict, csv_header)] *)
Definition find_matching_keys (entry_id_dict : py.dict string)
    (csv_header : list string) : py.dict string :=
  fst (match_columns entry_id_dict csv_header ([], ∅)).

(** The payload of one row (lines 28-30). *)
Definition form_data_of (field_mappings : py.dict string) (r : row) : payload :=
  fold_left
    (fun form_data '(csv_column, form_entry_id) =>
       py.set form_data form_entry_id (row_get r csv_column))
    field_mappings [].

(** The loop over the rows; [i] numbers the row at the head of [rows]. *)
Fixpoint submit_rows (post : transport) (form_response_url : string)
    (field_mappings : py.dict string) (rows : list row) (i : nat)
    (all_submissions_successful : bool) (log : list event) : bool * list event :=
  match rows with
  | [] => (all_submissions_successful, log)
  | r :: rest =>
      let form_data := form_data_of field_mappings r in
      match post i form_response_url form_data with
      | requests.Response status_code _ =>
          if requests.raises_for_status status_code then
            submit_rows post form_response_url field_mappings rest (S i)
              false (log ++ [Failure i])
          else
            submit_rows post form_response_url field_mappings rest (S i)
              all_submissions_successful (log ++ [Success i])
      | requests.Failed =>
          submit_rows post form_response_url field_mappings rest (S i)
            false (log ++ [Failure i])
      end
  end.

(** [csv_to_google_form(csv_filepath, form_url, field_mappings)];
    [csvfile] is the content of the file, [None] when it does not exist. *)
Definition csv_to_google_form (post : transport) (csvfile : option (list row))
    (form_url : string) (field_mappings : py.dict string) : bool * list event :=
  let form_response_url := py.replace form_url "/viewform" "/formResponse" in
  match csvfile with
  | None => (false, [FileError])
  | Some rows => submit_rows post form_response_url field_mappings rows 1 true []
  end.

(** The form the script is written for (line 152). *)
Definition form_url : string :=
  "https://docs.google.com/forms/d/e/1FAIpQLSe-1isITQZCOh1hWQTlJ2dEDzRuqlxT9mU3kLiXAW4Z-EGziQ/viewform".

(** [main()]; [page] is what the form's URL gives, [csvfile] the
    content of test2.csv. *)
Definition main (page : requests.reply (list listitem)) (post : transport)
    (csvfile : csv_file) : report :=
  match get_form_entry_ids page with
  | Some (e :: es) =>
      let entry_ids := e :: es in
      match header_of csvfile with
      | None => HeaderUnreadable
      | Some csv_header =>
          match find_matching_keys entry_ids csv_header with
          | [] => NoMappings
          | field_mappings =>
              let '(success, log) :=
                csv_to_google_form post (rows_of csvfile) form_url field_mappings in
              Ran success log
          end
      end
  | _ => ExtractionFailed
  end.

End Test.

(** ** bot.py *)

Module Bot.

(** [sanitize_for_regex(text)] *)
Definition sanitize_for_regex (text : string) : string := re.escape text.

(** The page is read exactly as in test.py (lines 70-115). *)
Definition get_form_entry_ids (page : requests.reply (list Test.listitem)) :
    option (py.dict string) :=
  match page with
  | requests.Failed => None
  | requests.Response status_code list_items =>
      if requests.raises_for_status status_code then None
      else
        match Test.scan_items list_items [] with
        | Some [] => None
        | Some entry_ids => Some entry_ids
        | None => None
        end
  end.

(** One rule of the rule file; [match_type] is optional there, and the
    scores are taken to be integers.  A rule that lacks [pattern] or
    [score] makes line 142 or 143 raise a [KeyError] that nothing
    catches: rule files with such a rule are not values of this type. *)
Record pattern_data := {
  pattern : string;
  score : Z;
  match_type : option string
}.

(** What reading the rule file gives. *)
Inductive patterns_file :=
  | MissingFile
  | InvalidJSON
  | Patterns (regex_patterns : py.dict (list pattern_data)).

Inductive warning :=
  | InvalidRegex (pattern csv_col msg : string)  (* Warning: Invalid regex pattern ... *)
  | OutsideModel (pattern : string).             (* the pattern leaves the fragment of [re] *)

(** The search one rule asks for, if its match type is a known one. *)
Definition rule_search (pd : pattern_data) (form_label : string) :
    option (re.result (option re.captures)) :=
  let match_type := match match_type pd with Some t => t | None => "contains" end in
  if String.eqb match_type "exact" then
    Some (re.search ("^" ++ sanitize_for_regex (pattern pd) ++ "$") form_label true)
  else if String.eqb match_type "contains" then
    Some (re.search (sanitize_for_regex (pattern pd)) form_label true)
  else if String.eqb match_type "reverse_contains" then
    Some (re.search (sanitize_for_regex form_label) (pattern pd) true)
  else None.

(** The state of the search for one column: the best identifier, its
    score, and the warnings printed so far. *)
Abbreviation best := (option string * Z * list warning)%type.

(** The body of the loop over the rules of a column (lines 142-165). *)
Definition try_rule (csv_col form_label entry_id : string) (st : best)
    (pd : pattern_data) : best :=
  let '(best_match, best_score, log) := st in
  match rule_search pd form_label with
  | Some (re.Returned (Some _)) =>
      if best_score <? score pd then (Some entry_id, score pd, log) else st
  | Some (re.Returned None) => st
  | Some (re.Raised msg) =>
      (best_match, best_score, (log ++ [InvalidRegex (pattern pd) csv_col msg])%list)
  | Some re.OutsideModel =>
      (best_match, best_score, (log ++ [OutsideModel (pattern pd)])%list)
  | None => st
  end.

(** The loop over the labels (lines 137-165). *)
Fixpoint best_of (used_entry_ids : gset string) (rules : list pattern_data)
    (csv_col : string) (items : py.dict string) (st : best) : best :=
  match items with
  | [] => st
  | (form_label, entry_id) :: rest =>
      if bool_decide (entry_id ∈ used_entry_ids) then
        best_of used_entry_ids rules csv_col rest st
      else
        best_of used_entry_ids rules csv_col rest
          (fold_left (try_rule csv_col form_label entry_id) rules st)
  end.

(** [regex_patterns.get(csv_col, [])] *)
Definition rules_for (regex_patterns : py.dict (list pattern_data)) (csv_col : string) :
    list pattern_data :=
  match py.get regex_patterns csv_col with Some l => l | None => [] end.

(** One round of the outer loop, on [(mappings, used_entry_ids, log)]. *)
Definition match_column (regex_patterns : py.dict (list pattern_data))
    (entry_id_dict : py.dict string)
    (st : py.dict string * gset string * list warning) (csv_col : string) :
    py.dict string * gset string * list warning :=
  let '(mappings, used_entry_ids, log) := st in
  let '(best_match, _, log') :=
    best_of used_entry_ids (rules_for regex_patterns csv_col) csv_col
      entry_id_dict (None, 0, log) in
  match best_match with
  | Some id =>
      if py.truthy id
      then (py.set mappings csv_col id, {[ id ]} ∪ used_entry_ids, log')
      else (mappings, used_entry_ids, log')
  | None => (mappings, used_entry_ids, log')
  end.

Definition match_columns (regex_patterns : py.dict (list pattern_data))
    (entry_id_dict : py.dict string) (csv_header : list string)
    (st : py.dict string * gset string * list warning) :
    py.dict string * gset string * list warning :=
  fold_left (match_column regex_patterns entry_id_dict) csv_header st.

(** [find_matching_keys_with_regex(entry_id_dict, csv_header,
    regex_patterns_file)]: the mapping and the warnings printed. *)
Definition find_matching_keys_with_regex (entry_id_dict : py.dict string)
    (csv_header : list string) (regex_patterns_file : patterns_file) :
    py.dict string * list warning :=
  match regex_patterns_file with
  | MissingFile => ([], [])
  | InvalidJSON => ([], [])
  | Patterns regex_patterns =>
      let '(mappings, _, log) :=
        match_columns regex_patterns entry_id_dict csv_header ([], ∅, []) in
      (mappings, log)
  end.

(** The module-level names [entry_ids] and [mappings] that [main] binds
    and [csv_to_google_form] reads; [None] is a name not bound. *)
Record globals := {
  entry_ids : option (py.dict string);
  mappings : option (py.dict string)
}.

(** Lines 29-33: the identifier [firstname] is mapped to, if it is one
    of the form's. *)
Fixpoint single_name_field (mappings : py.dict string) (items : py.dict string) :
    option string :=
  match items with
  | [] => None
  | (form_label, entry_id) :: rest =>
      match py.get mappings "firstname" with
      | Some id => if String.eqb id entry_id then Some entry_id
                   else single_name_field mappings rest
      | None => single_name_field mappings rest
      end
  end.

Definition fill_all (field_mappings : py.dict string) (r : row)
    (form_data : payload) : payload :=
  fold_left
    (fun form_data '(csv_column, form_entry_id) =>
       py.set form_data form_entry_id (row_get r csv_column))
    field_mappings form_data.

Definition fill_other (field_mappings : py.dict string) (r : row)
    (form_data : payload) : payload :=
  fold_left
    (fun form_data '(csv_column, form_entry_id) =>
       if String.eqb csv_column "firstname" || String.eqb csv_column "lastname"
       then form_data
       else py.set form_data form_entry_id (row_get r csv_column))
    field_mappings form_data.

(** The payload of one row (lines 20-50); [None] when a module-level
    name is read that is not bound (a [NameError]). *)
Definition form_data_of (g : globals) (field_mappings : py.dict string) (r : row) :
    option payload :=
  if py.mem field_mappings "firstname" && py.mem field_mappings "lastname" then
    Some (fill_all field_mappings r [])
  else
    match entry_ids g with
    | None => None
    | Some [] => Some (fill_all field_mappings r [])
    | Some ids =>
        match mappings g with
        | None => None
        | Some maps =>
            match single_name_field maps ids with
            | Some field =>
                if py.truthy field then
                  let firstname := row_get r "firstname" in
                  let lastname := row_get r "lastname" in
                  let combined_name :=
                    py.strip (format firstname ++ " " ++ format lastname) in
                  Some (fill_other field_mappings r (py.set [] field (Text combined_name)))
                else Some (fill_all field_mappings r [])
            | None => Some (fill_all field_mappings r [])
            end
        end
    end.

Fixpoint submit_rows (g : globals) (post : transport) (form_response_url : string)
    (field_mappings : py.dict string) (rows : list row) (i : nat)
    (all_submissions_successful : bool) (log : list event) : bool * list event :=
  match rows with
  | [] => (all_submissions_successful, log)
  | r :: rest =>
      match form_data_of g field_mappings r with
      | None => (false, (log ++ [Unexpected])%list)
      | Some form_data =>
          match post i form_response_url form_data with
          | requests.Response status_code _ =>
              if requests.raises_for_status status_code then
                submit_rows g post form_response_url field_mappings rest (S i)
                  false (log ++ [Failure i])
              else
                submit_rows g post form_response_url field_mappings rest (S i)
                  all_submissions_successful (log ++ [Success i])
          | requests.Failed =>
              submit_rows g post form_response_url field_mappings rest (S i)
                false (log ++ [Failure i])
          end
      end
  end.

(** [csv_to_google_form(csv_filepath, form_url, field_mappings)] *)
Definition csv_to_google_form (g : globals) (post : transport)
    (csvfile : option (list row)) (form_url : string)
    (field_mappings : py.dict string) : bool * list event :=
  let form_response_url := py.replace form_url "/viewform" "/formResponse" in
  match csvfile with
  | None => (false, [FileError])
  | Some rows => submit_rows g post form_response_url field_mappings rows 1 true []
  end.

(** The placeholder the script carries for the form's URL (line 176). *)
Definition form_url : string := "FORM_PLACEHOLDER".

(** [main()]; it binds the module-level names [entry_ids] and
    [mappings] before it submits. *)
Definition main (page : requests.reply (list Test.listitem)) (post : transport)
    (csvfile : csv_file) (regex_patterns_file : patterns_file) : report :=
  match get_form_entry_ids page with
  | Some (e :: es) =>
      let ids := e :: es in
      match header_of csvfile with
      | None => HeaderUnreadable
      | Some csv_header =>
          match fst (find_matching_keys_with_regex ids csv_header regex_patterns_file) with
          | [] => NoMappings
          | maps =>
              let '(success, log) :=
                csv_to_google_form {| entry_ids := Some ids; mappings := Some maps |}
                  post (rows_of csvfile) form_url maps in
              Ran success log
          end
      end
  | _ => ExtractionFailed
  end.

End Bot.

(** ** test2.py *)

Module Test2.

(** A field identifier: the name of a visible field, or the
    [(name, value)] pair of a hidden one. *)
Inductive entry_id :=
  | Plain (name : string)
  | Hidden (name value : string).

(** *** Reading the form page (lines 121-190) *)

Record input_tag := {
  input_name : option string;
  aria_labelledby : option string
}.

(** A [div] with a [data-params] attribute, as far as the script looks
    at it: its first [input], the [name] of its first [textarea], the
    text of the element with a given [id], of its first [span], and of
    its first [div role=heading]. *)
Record container := {
  input_field : option input_tag;
  textarea_field : option (option string);
  element_by_id : string -> option string;
  first_span : option string;
  heading : option string
}.

Record hidden_input := {
  hidden_name : option string;
  hidden_value : option string
}.

Record soup := {
  containers : list container;
  hidden_inputs : list hidden_input
}.

(** [_extract_label(container)] *)
Definition _extract_label (c : container) : option string :=
  let from_span :=
    match first_span c with
    | Some text => Some (py.strip text)
    | None =>
        match heading c with
        | Some text => Some (py.strip text)
        | None => None
        end
    end in
  match input_field c with
  | Some input =>
      match aria_labelledby input with
      | Some id =>
          if py.truthy id then
            match element_by_id c id with
            | Some text => Some (py.strip text)
            | None => from_span
            end
          else from_span
      | None => from_span
      end
  | None => from_span
  end.

(** [entry_ids[label] = field_name] when the control is named [entry.*]. *)
Definition record_field (c : container) (name : option string)
    (entry_ids : py.dict entry_id) : py.dict entry_id :=
  match name with
  | Some field_name =>
      if py.truthy field_name && py.startswith field_name "entry." then
        let label :=
          match _extract_label c with
          | Some l => if py.truthy l then l else field_name
          | None => field_name
          end in
        py.set entry_ids label (Plain field_name)
      else entry_ids
  | None => entry_ids
  end.

Definition scan_container (entry_ids : py.dict entry_id) (c : container) :
    py.dict entry_id :=
  let entry_ids :=
    match input_field c with
    | Some input => record_field c (input_name input) entry_ids
    | None => entry_ids
    end in
  match textarea_field c with
  | Some name => record_field c name entry_ids
  | None => entry_ids
  end.

Definition scan_hidden (entry_ids : py.dict entry_id) (h : hidden_input) :
    py.dict entry_id :=
  match hidden_name h with
  | Some name =>
      if py.truthy name then
        let value := match hidden_value h with Some v => v | None => EmptyString end in
        py.set entry_ids name (Hidden name value)
      else entry_ids
  | None => entry_ids
  end.

(** [get_form_entry_ids(form_url)] *)
Definition get_form_entry_ids (page : requests.reply soup) : option (py.dict entry_id) :=
  match page with
  | requests.Failed => None
  | requests.Response status_code doc =>
      if requests.raises_for_status status_code then None
      else
        Some (fold_left scan_hidden (hidden_inputs doc)
                (fold_left scan_container (containers doc) []))
  end.

(** *** Delegated matching (lines 54-58 and 192-269) *)

(** A decoded JSON value; a number keeps its text. *)
#[local] Set Warnings "-register-all".
Inductive json :=
  | JNull
  | JBool (b : bool)
  | JNumber (literal : string)
  | JString (s : string)
  | JArray (elements : list json)
  | JObject (members : list (string * json)).

(** A value of the mapping: an identifier, or a value of the model's
    reply that is not even a string. *)
Inductive value :=
  | Id (e : entry_id)
  | Other (j : json).

Definition of_json (j : json) : value :=
  match j with
  | JString s => Id (Plain s)
  | _ => Other j
  end.

Inductive warning :=
  | InvalidEntry (csv_col : string)     (* Warning: Invalid entry ID ... *)
  | AlreadyUsed (entry_id : string).    (* Warning: entry ID ... already used. Skipping. *)

Definition dquote : string := String "034" EmptyString.
Definition newline : string := String "010" EmptyString.
Definition tab : string := String "009" EmptyString.

(** The pattern of line 57.  It compiles, so the last branch of
    [sanitize_for_prompt] is never taken. *)
Definition unwanted : string := "[^\w\s.,;:\-!?" ++ dquote ++ "]".

(** [sanitize_for_prompt(text)] *)
Definition sanitize_for_prompt (text : string) : string :=
  let text := py.replace (py.replace text newline " ") tab " " in
  match re.delete unwanted text with
  | re.Returned text => text
  | _ => text
  end.

Definition prompt_head : string :=
"You are a helpful assistant that maps CSV column names to Google Form entry IDs.
I will give you a list of CSV column names and a list of Google Form field labels with their corresponding entry IDs.
Your task is to determine the best mapping between the CSV columns and the *visible* form fields.
Return the mappings in a JSON format, where the keys are the CSV column names and the values are the corresponding entry IDs.
If no suitable mapping can be found for a CSV column, do NOT include it in the JSON output. Do not make up an entry ID.  Do *NOT* map any hidden fields.

CSV Columns:
".

(** [prompt_template.format(csv_columns=..., form_fields=...)] *)
Definition prompt_template (csv_columns form_fields : string) : string :=
  prompt_head ++ csv_columns ++ newline ++ newline ++ "Form Fields:" ++ newline
  ++ form_fields ++ newline ++ newline ++ "JSON Mapping:" ++ newline.

(** Lines 215-219: the visible fields, with the plain identifier. *)
Definition filtered_entry_ids (entry_id_dict : py.dict entry_id) : py.dict string :=
  py.of_items
    (omap (fun '(label, e) =>
             match e with
             | Plain name =>
                 if py.startswith name "entry." then Some (label, name) else None
             | Hidden _ _ => None
             end)
          entry_id_dict).

(** Lines 222-227: the prompt sent to the model. *)
Definition prompt_of (entry_id_dict : py.dict entry_id) (csv_header : list string) : string :=
  let sanitized_csv_columns := map sanitize_for_prompt csv_header in
  let sanitized_form_fields :=
    py.of_items
      (map (fun '(label, name) => (sanitize_for_prompt label, name))
           (filtered_entry_ids entry_id_dict)) in
  let csv_columns_str :=
    py.join newline (map (fun col => "- " ++ col) sanitized_csv_columns) in
  let form_fields_str :=
    py.join newline
      (map (fun '(label, name) => "- " ++ label ++ ": " ++ name) sanitized_form_fields) in
  prompt_template csv_columns_str form_fields_str.

(** The pattern of line 237. *)
Definition json_block : string := "`(?:json)?\s*(\{[\s\S]*?\})\s*`".

(** Lines 250-257: the entries of the reply are checked one by one. *)
Definition check_entry (st : gset string * list warning) (kv : string * value) :
    gset string * list warning :=
  let '(used_entry_ids, log) := st in
  let '(csv_col, v) := kv in
  match v with
  | Id (Plain name) =>
      if negb (py.startswith name "entry.") then
        (used_entry_ids, (log ++ [InvalidEntry csv_col])%list)
      else if bool_decide (name ∈ used_entry_ids) then
        (used_entry_ids, (log ++ [AlreadyUsed name])%list)
      else ({[ name ]} ∪ used_entry_ids, log)
  | _ => (used_entry_ids, (log ++ [InvalidEntry csv_col])%list)
  end.

(** Lines 264-266: the hidden fields go into the mapping under their name. *)
Definition add_hidden (entry_id_dict : py.dict entry_id) (mappings : py.dict value) :
    py.dict value :=
  fold_left
    (fun mappings '(label, e) =>
       match e with
       | Hidden name value => py.set mappings name (Id (Hidden name value))
       | Plain _ => mappings
       end)
    entry_id_dict mappings.

Section Gemini.
(** [model.generate_content(prompt).text], [None] when the call or
    the access to the text raises. *)
Variable generate_content : string -> option string.
(** [json.loads], [None] for a [JSONDecodeError]. *)
Variable json_loads : string -> option json.

(** [find_matching_keys_with_gemini(entry_id_dict, csv_header,
    api_key)]: the mapping and the warnings printed. *)
Definition find_matching_keys_with_gemini (entry_id_dict : py.dict entry_id)
    (csv_header : list string) : py.dict value * list warning :=
  match generate_content (prompt_of entry_id_dict csv_header) with
  | None => ([], [])
  | Some text =>
      match re.search json_block text true with
      | re.Returned (Some m) =>
          match re.group text m 1 with
          | Some block =>
              let json_string := py.strip block in
              match json_loads json_string with
              | Some (JObject members) =>
                  let mappings := map (fun '(k, j) => (k, of_json j)) members in
                  let '(_, log) := fold_left check_entry mappings (∅, []) in
                  (add_hidden entry_id_dict mappings, log)
              | Some _ => ([], [])
              | None => ([], [])
              end
          | None => ([], [])
          end
      | _ => ([], [])
      end
  end.
End Gemini.

(** *** Cookies (lines 14-52) *)

(** One cookie record of the credential file. *)
Record cookie_data := {
  cookie_name : string;
  cookie_value : string;
  domain : option string;
  path : option string;
  expirationDate : option Z;
  secure : option bool;
  httpOnly : option bool
}.

Record cookie := {
  c_domain : string;
  c_name : string;
  c_value : string;
  c_expires : option Z;
  c_path : string;
  c_secure : bool;
  c_http_only : bool
}.

(** [requests.cookies.create_cookie(...)] with the fields lines 19-34
    give it; the value is kept as the credential file has it. *)
Definition create_cookie (d : cookie_data) : cookie :=
  {| c_domain := match domain d with Some x => x | None => EmptyString end;
     c_name := cookie_name d;
     c_value := cookie_value d;
     c_expires := expirationDate d;
     c_path := match path d with Some x => x | None => "/" end;
     c_secure := match secure d with Some b => b | None => false end;
     c_http_only := match httpOnly d with Some b => b | None => false end |}.

Definition same_cookie (a b : cookie) : bool :=
  String.eqb (c_domain a) (c_domain b) && String.eqb (c_path a) (c_path b)
  && String.eqb (c_name a) (c_name b).

(** [cj.set_cookie(cookie)]: a cookie of the same domain, path and name
    is replaced.  The jar is kept as a list of its cookies; the order of
    the list is not the order in which a jar yields them. *)
Definition set_cookie (cj : list cookie) (c : cookie) : list cookie :=
  (List.filter (fun x => negb (same_cookie x c)) cj ++ [c])%list.

(** [get_google_cookies(browser_name, cookies)]; [browser_cookie3] gives
    the cookies a local browser holds for google.com, [None] when it
    cannot. *)
Definition get_google_cookies (browser_cookie3 : string -> option (list cookie))
    (browser_name : string) (cookies : option (list cookie_data)) : option (list cookie) :=
  match cookies with
  | Some (d :: ds) =>
      Some (fold_left (fun cj d => set_cookie cj (create_cookie d)) (d :: ds) [])
  | _ =>
      match browser_cookie3 browser_name with
      | Some cj =>
          if existsb (fun c => py.startswith (c_name c) "S" && py.contains (c_name c) "SID") cj
          then Some cj else None
      | None => None
      end
  end.

(** *** Submitting the rows (lines 60-119) *)

Record user_info := {
  browser : option string;
  cookies : option (list cookie_data)
}.

(** [session.post] with the cookies of the session. *)
Abbreviation session_transport :=
  (nat -> list cookie -> string -> payload -> requests.reply unit).

(** The payload of one row (lines 90-96). *)
Definition form_data_of (field_mappings : py.dict entry_id) (r : row) : payload :=
  fold_left
    (fun form_data '(csv_column, form_entry_id) =>
       if negb (String.eqb csv_column "User") then
         match form_entry_id with
         | Hidden name value => py.set form_data name (Text value)
         | Plain name => py.set form_data name (row_get r csv_column)
         end
       else form_data)
    field_mappings [].

(** [user_credentials[user_id]] for the [user_id] of a row, [None] when
    [user_id not in user_credentials]: the keys of the credential file
    are texts, so [None] is not one of them. *)
Definition credentials_of (user_credentials : py.dict user_info) (user_id : cell) :
    option user_info :=
  match user_id with
  | Text user => py.get user_credentials user
  | PyNone => None
  end.

Section Submit.
Variable browser_cookie3 : string -> option (list cookie).
Variable post : session_transport.
Variable user_credentials : py.dict user_info.
Variable form_response_url : string.
Variable field_mappings : py.dict entry_id.

(** The loop over the rows.  [response] is the local variable of that
    name: [None] while no call of [session.post] has returned, then
    the status of the last response received. *)
Fixpoint submit_rows (rows : list row) (i : nat) (all_submissions_successful : bool)
    (response : option Z) (log : list event) : bool * list event :=
  match rows with
  | [] => (all_submissions_successful, log)
  | r :: rest =>
      let user_id := match py.get r "User" with Some c => c | None => Text "default" end in
      match credentials_of user_credentials user_id with
      | None => submit_rows rest (S i) false response (log ++ [UserNotFound i])
      | Some info =>
          let browser_name := match browser info with Some b => b | None => "chrome" end in
          match get_google_cookies browser_cookie3 browser_name (cookies info) with
          | None | Some [] => submit_rows rest (S i) false response (log ++ [NoCookies i])
          | Some cj =>
              let form_data := form_data_of field_mappings r in
              match post i cj form_response_url form_data with
              | requests.Response status_code _ =>
                  if requests.raises_for_status status_code then
                    submit_rows rest (S i) false (Some status_code)
                      (log ++ Failure i ::
                         if status_code =? 302 then [SignInIssue] else [])
                  else
                    submit_rows rest (S i) all_submissions_successful
                      (Some status_code) (log ++ [Success i])
              | requests.Failed =>
                  match response with
                  | None => (false, (log ++ [Failure i; Unexpected])%list)
                  | Some status_code =>
                      submit_rows rest (S i) false response
                        (log ++ Failure i ::
                           if status_code =? 302 then [SignInIssue] else [])
                  end
              end
          end
      end
  end.
End Submit.

(** [csv_to_google_form(csv_filepath, form_url, field_mappings,
    user_credentials_file)]; the two files are given by their content,
    [None] for a file that is missing or, for the credentials, not JSON. *)
Definition csv_to_google_form (browser_cookie3 : string -> option (list cookie))
    (post : session_transport) (csvfile : option (list row)) (form_url : string)
    (field_mappings : py.dict entry_id)
    (user_credentials_file : option (py.dict user_info)) : bool * list event :=
  let form_response_url := py.replace form_url "/viewform" "/formResponse" in
  match user_credentials_file, csvfile with
  | Some user_credentials, Some rows =>
      submit_rows browser_cookie3 post user_credentials form_response_url
        field_mappings rows 1 true None []
  | _, _ => (false, [FileError])
  end.

(** The form the script is written for (line 275). *)
Definition form_url : string :=
  "https://docs.google.com/forms/d/e/1FAIpQLSe-1isITQZCOh1hWQTlJ2dEDzRuqlxT9mU3kLiXAW4Z-EGziQ/viewform".

(** The mapping as [csv_to_google_form] takes it, when all its values
    are texts or pairs. *)
Fixpoint as_entries (mappings : py.dict value) : option (py.dict entry_id) :=
  match mappings with
  | [] => Some []
  | (k, Id e) :: rest =>
      match as_entries rest with
      | Some entries => Some ((k, e) :: entries)
      | None => None
      end
  | (_, Other _) :: _ => None
  end.

(** [main()]; [gemini_api_key] is the variable of the environment,
    [None] when it is not set. *)
Definition main (gemini_api_key : option string)
    (generate_content : string -> option string) (json_loads : string -> option json)
    (browser_cookie3 : string -> option (list cookie))
    (page : requests.reply soup) (post : session_transport) (csvfile : csv_file)
    (user_credentials_file : option (py.dict user_info)) : report :=
  match gemini_api_key with
  | None => NoApiKey
  | Some _ =>
      match get_form_entry_ids page with
      | Some (e :: es) =>
          let entry_ids := e :: es in
          match header_of csvfile with
          | None => HeaderUnreadable
          | Some csv_header =>
              let filtered_header :=
                List.filter (fun col => negb (String.eqb col "User")) csv_header in
              match fst (find_matching_keys_with_gemini generate_content json_loads
                           entry_ids filtered_header) with
              | [] => NoMappings
              | field_mappings =>
                  match as_entries field_mappings with
                  | None => NotModelled
                  | Some entries =>
                      let '(success, log) :=
                        csv_to_google_form browser_cookie3 post (rows_of csvfile)
                          form_url entries user_credentials_file in
                      Ran success log
                  end
              end
          end
      | _ => ExtractionFailed
      end
  end.

End Test2.

(** ** A decoder for flat JSON objects

    An instance of [json.loads] to run the matcher on concrete replies:
    it decodes the objects whose members are strings (with the simple
    backslash escapes), integers, [true], [false] or [null], and reports
    every other text as undecodable. *)

Module flat_json.

Import Test2.

Inductive state :=
  | Start                                   (* before the opening brace *)
  | Opened                                  (* after the brace: a key or the closing brace *)
  | WantKey                                 (* after a comma *)
  | InKey (key : string) (esc : bool)
  | WantColon (key : string)
  | WantValue (key : string)
  | InString (key : string) (acc : string) (esc : bool)
  | InWord (key : string) (acc : string)    (* a number, true, false or null *)
  | AfterValue
  | Closed.

Definition unescape (c : ascii) : option ascii :=
  if Ascii.eqb c "034" then Some "034"%char
  else if Ascii.eqb c "\" then Some "\"%char
  else if Ascii.eqb c "/" then Some "/"%char
  else if Ascii.eqb c "n" then Some "010"%char
  else if Ascii.eqb c "t" then Some "009"%char
  else if Ascii.eqb c "r" then Some "013"%char
  else if Ascii.eqb c "b" then Some "008"%char
  else if Ascii.eqb c "f" then Some "012"%char
  else None.

Definition is_ws (c : ascii) : bool :=
  Ascii.eqb c " " || Ascii.eqb c "009" || Ascii.eqb c "010" || Ascii.eqb c "013".

Definition all_digits (s : string) : bool :=
  negb (String.eqb s EmptyString) && forallb py.isdigit (list_ascii_of_string s).

Definition word (w : string) : option json :=
  if String.eqb w "true" then Some (JBool true)
  else if String.eqb w "false" then Some (JBool false)
  else if String.eqb w "null" then Some JNull
  else if all_digits w then Some (JNumber w)
  else match w with
       | String "-" d => if all_digits d then Some (JNumber w) else None
       | _ => None
       end.

Definition snoc (s : string) (c : ascii) : string := s ++ String c EmptyString.

Fixpoint decode (s : string) (st : state) (members : py.dict json) :
    option (py.dict json) :=
  match s with
  | EmptyString => match st with Closed => Some members | _ => None end
  | String c rest =>
      match st with
      | Start =>
          if is_ws c then decode rest Start members
          else if Ascii.eqb c "{" then decode rest Opened members
          else None
      | Opened =>
          if is_ws c then decode rest Opened members
          else if Ascii.eqb c "}" then decode rest Closed members
          else if Ascii.eqb c "034" then decode rest (InKey EmptyString false) members
          else None
      | WantKey =>
          if is_ws c then decode rest WantKey members
          else if Ascii.eqb c "034" then decode rest (InKey EmptyString false) members
          else None
      | InKey key true =>
          match unescape c with
          | Some a => decode rest (InKey (snoc key a) false) members
          | None => None
          end
      | InKey key false =>
          if Ascii.eqb c "034" then decode rest (WantColon key) members
          else if Ascii.eqb c "\" then decode rest (InKey key true) members
          else if py.between 0 31 c then None
          else decode rest (InKey (snoc key c) false) members
      | WantColon key =>
          if is_ws c then decode rest (WantColon key) members
          else if Ascii.eqb c ":" then decode rest (WantValue key) members
          else None
      | WantValue key =>
          if is_ws c then decode rest (WantValue key) members
          else if Ascii.eqb c "034" then decode rest (InString key EmptyString false) members
          else if Ascii.eqb c "," || Ascii.eqb c "}" then None
          else decode rest (InWord key (String c EmptyString)) members
      | InString key acc true =>
          match unescape c with
          | Some a => decode rest (InString key (snoc acc a) false) members
          | None => None
          end
      | InString key acc false =>
          if Ascii.eqb c "034" then decode rest AfterValue (py.set members key (JString acc))
          else if Ascii.eqb c "\" then decode rest (InString key acc true) members
          else if py.between 0 31 c then None
          else decode rest (InString key (snoc acc c) false) members
      | InWord key acc =>
          if is_ws c || Ascii.eqb c "," || Ascii.eqb c "}" then
            match word acc with
            | Some j =>
                decode rest
                  (if Ascii.eqb c "," then WantKey
                   else if Ascii.eqb c "}" then Closed else AfterValue)
                  (py.set members key j)
            | None => None
            end
          else decode rest (InWord key (snoc acc c)) members
      | AfterValue =>
          if is_ws c then decode rest AfterValue members
          else if Ascii.eqb c "," then decode rest WantKey members
          else if Ascii.eqb c "}" then decode rest Closed members
          else None
      | Closed => if is_ws c then decode rest Closed members else None
      end
  end.

Definition loads (s : string) : option json :=
  match decode s Start [] with
  | Some members => Some (JObject members)
  | None => None
  end.

End flat_json.

(** * The vocabulary of the properties *)

(** The first label that is still free and equals the column up to case. *)
Definition exact_label (used : gset string) (csv_col : string) (e : string * string) : bool :=
  negb (bool_decide (snd e ∈ used)) && String.eqb (py.lower csv_col) (py.lower (fst e)).

(** The invariant of the outer loop: the identifiers of the mapping
    are marked used, and no two columns share one. *)
Definition injective (mappings : py.dict string) : Prop :=
  forall c1 c2 id, In (c1, id) mappings -> In (c2, id) mappings -> c1 = c2.

Definition consistent (st : py.dict string * gset string) : Prop :=
  (forall c id, In (c, id) (fst st) -> id ∈ snd st) /\ injective (fst st).

(** The identifiers already given out when the columns [pre] have been
    processed. *)
Definition used_after (entry_id_dict : py.dict string) (pre : list string) : gset string :=
  snd (Test.match_columns entry_id_dict pre ([], ∅)).

(** The literals of a text, one per character. *)
Definition lits (text : string) : list re.regex :=
  map re.Lit (list_ascii_of_string text).

(** What is left of [s] after the prefix [p], compared up to case. *)
Fixpoint after_ci (s p : string) {struct p} : option string :=
  match p with
  | EmptyString => Some s
  | String a p' =>
      match s with
      | String b s' => if re.char_eq true a b then after_ci s' p' else None
      | EmptyString => None
      end
  end.

(** [p] occurs in [s], up to case. *)
Fixpoint contains_ci (s p : string) : bool :=
  match after_ci s p with
  | Some _ => true
  | None =>
      match s with
      | String _ s' => contains_ci s' p
      | EmptyString => false
      end
  end.

(** [s] is [p] up to case, possibly followed by one newline. *)
Definition equals_ci (s p : string) : bool :=
  match after_ci s p with
  | Some rest => re.at_end rest
  | None => false
  end.

Definition found (m : option re.captures) : bool :=
  match m with Some _ => true | None => false end.

(** The rule matches the label, as the script decides it. *)
Definition fires (pd : Bot.pattern_data) (form_label : string) : bool :=
  match Bot.rule_search pd form_label with
  | Some (re.Returned (Some _)) => true
  | _ => false
  end.

(** The rule matches the label when the pattern is read as plain text:
    [exact] compares the whole label, [contains] looks for the pattern
    in the label, [reverse_contains] for the label in the pattern, all
    up to case. *)
Definition literal_match (pd : Bot.pattern_data) (form_label : string) : bool :=
  let match_type := match Bot.match_type pd with Some t => t | None => "contains" end in
  if String.eqb match_type "exact" then equals_ci form_label (Bot.pattern pd)
  else if String.eqb match_type "contains" then contains_ci form_label (Bot.pattern pd)
  else if String.eqb match_type "reverse_contains" then contains_ci (Bot.pattern pd) form_label
  else false.

Definition rules_of (file : Bot.patterns_file) : py.dict (list Bot.pattern_data) :=
  match file with
  | Bot.Patterns regex_patterns => regex_patterns
  | _ => []
  end.

(** The identifiers already given out when the columns [pre] have been
    processed. *)
Definition used_after_rules (file : Bot.patterns_file) (entry_id_dict : py.dict string)
    (pre : list string) : gset string :=
  snd (fst (Bot.match_columns (rules_of file) entry_id_dict pre ([], ∅, []))).

Definition sample_rules : Bot.patterns_file :=
  Bot.Patterns [("Email", [Bot.Build_pattern_data "e-?mail" 80 (Some "contains")])].

Definition plain_rules : Bot.patterns_file :=
  Bot.Patterns [("Email", [Bot.Build_pattern_data "email" 80 (Some "contains")])].

(** A rule whose pattern is no regular expression. *)
Definition unbalanced_rules : Bot.patterns_file :=
  Bot.Patterns [("Phone", [Bot.Build_pattern_data "(" 80 (Some "contains")])].

Ltac run_rule :=
  match goal with
  | |- context [Bot.rule_search ?pd ?l] =>
      let v := eval vm_compute in (Bot.rule_search pd l) in
      change (Bot.rule_search pd l) with v
  end.

(** Each pair of the mapping with the row's own value. *)
Definition raw_payload (field_mappings : py.dict string) (r : row) : payload :=
  map (fun '(csv_column, form_entry_id) => (form_entry_id, row_get r csv_column))
      field_mappings.

Definition payload_key (e : Test2.entry_id) : string :=
  match e with Test2.Plain name => name | Test2.Hidden name _ => name end.

Definition payload_value (r : row) (csv_column : string) (e : Test2.entry_id) : cell :=
  match e with
  | Test2.Plain _ => row_get r csv_column
  | Test2.Hidden _ value => Text value
  end.

Definition not_user (kv : string * Test2.entry_id) : bool :=
  negb (String.eqb (fst kv) "User").

(** Each pair of the mapping but that of the User column, with the
    row's value or the default of the hidden field. *)
Definition session_payload (field_mappings : py.dict Test2.entry_id) (r : row) :
    payload :=
  map (fun '(csv_column, e) => (payload_key e, payload_value r csv_column e))
      (List.filter not_user field_mappings).

Definition not_name (kv : string * string) : bool :=
  negb (String.eqb (fst kv) "firstname" || String.eqb (fst kv) "lastname").

(** The submission of row [i] succeeds: a response came back and its
    status is not an error status. *)
Definition accepted (reply : requests.reply unit) : bool :=
  match reply with
  | requests.Response status_code _ => negb (requests.raises_for_status status_code)
  | requests.Failed => false
  end.

Definition verdict (ok : bool) (i : nat) : event := if ok then Success i else Failure i.

(** What test.py prints for the rows and whether all were accepted,
    row by row: the verdict of a row depends on its own reply only. *)
Fixpoint verdicts (sent : nat -> row -> bool) (rows : list row) (i : nat) : list event :=
  match rows with
  | [] => []
  | r :: rest => verdict (sent i r) i :: verdicts sent rest (S i)
  end.

Fixpoint all_sent (sent : nat -> row -> bool) (rows : list row) (i : nat) : bool :=
  match rows with
  | [] => true
  | r :: rest => sent i r && all_sent sent rest (S i)
  end.

(** The transport of the example: the second call raises, the others
    are answered with status 200. *)
Definition second_fails (i : nat) : requests.reply unit :=
  if (i =? 2)%nat then requests.Failed else requests.Response 200 tt.

Definition three_rows : list row :=
  [texts [("Email", "a@example.org")]; texts [("Email", "b@example.org")];
   texts [("Email", "c@example.org")]].

Definition one_user : py.dict Test2.user_info :=
  [("default",
    {| Test2.browser := None;
       Test2.cookies :=
         Some [{| Test2.cookie_name := "SID"; Test2.cookie_value := "s";
                  Test2.domain := Some ".google.com"; Test2.path := None;
                  Test2.expirationDate := None; Test2.secure := None;
                  Test2.httpOnly := None |}] |})].

(** The reply of the model to the prompt carries a fenced block that
    decodes to the object [members]. *)
Definition reply_decodes_to (generate_content : string -> option string)
    (json_loads : string -> option Test2.json) (entry_id_dict : py.dict Test2.entry_id)
    (csv_header : list string) (members : py.dict Test2.json) : Prop :=
  exists text m block,
    generate_content (Test2.prompt_of entry_id_dict csv_header) = Some text
    /\ re.search Test2.json_block text true = re.Returned (Some m)
    /\ re.group text m 1 = Some block
    /\ json_loads (py.strip block) = Some (Test2.JObject members).

(** A field map as [get_form_entry_ids] builds it: no label twice, and
    a hidden field under its own name. *)
Definition field_map (entry_id_dict : py.dict Test2.entry_id) : Prop :=
  List.NoDup (py.keys entry_id_dict)
  /\ forall label name value,
       In (label, Test2.Hidden name value) entry_id_dict -> label = name.

Definition visible (kv : string * Test2.entry_id) : bool :=
  match snd kv with Test2.Plain _ => true | Test2.Hidden _ _ => false end.

(** A fenced block with the members given, one per line. *)
Definition fenced (lines : list string) : string :=
  "```json" ++ Test2.newline ++ "{" ++ py.join ("," ++ Test2.newline) lines ++ "}"
  ++ Test2.newline ++ "```".

Definition member (key value : string) : string :=
  Test2.dquote ++ key ++ Test2.dquote ++ ": " ++ Test2.dquote ++ value ++ Test2.dquote.

(** The reply that maps Email to entry.2. *)
Definition email_reply : string := "Here is the mapping:" ++ Test2.newline
  ++ fenced [member "Email" "entry.2"].

(** The value is an identifier as line 251 recognises one. *)
Definition is_identifier (j : Test2.json) : bool :=
  match j with
  | Test2.JString name => py.startswith name "entry."
  | _ => false
  end.

Definition stray_reply : string :=
  fenced [member "Email" "entry.2"; member "Phone" "n/a"].

Definition double_reply : string :=
  fenced [member "Email" "entry.2"; member "Phone" "entry.2"].

(** The column is processed once: it occurs in the header between
    [pre] and [post] and nowhere else. *)
Definition occurs_once (csv_col : string) (pre post : list string) : Prop :=
  ~ In csv_col pre /\ ~ In csv_col post.

(** The user a row is submitted for (line 72). *)
Definition user_of (r : row) : cell :=
  match py.get r "User" with Some c => c | None => Text "default" end.

(** The cookies a row is submitted with, [None] when the row is skipped:
    its user is not in the credentials, or no cookie can be had. *)
Definition session_of (browser_cookie3 : string -> option (list Test2.cookie))
    (user_credentials : py.dict Test2.user_info) (r : row) : option (list Test2.cookie) :=
  match Test2.credentials_of user_credentials (user_of r) with
  | None => None
  | Some info =>
      match Test2.get_google_cookies browser_cookie3
              (match Test2.browser info with Some b => b | None => "chrome" end)
              (Test2.cookies info) with
      | Some (c :: cj) => Some (c :: cj)
      | _ => None
      end
  end.

(** The transport that answers a post to [address] with status 200 and
    lets a post to any other address raise. *)
Definition only_at (address : string) : transport :=
  fun _ url _ => if String.eqb url address then requests.Response 200 tt else requests.Failed.

(** The same for a session, whatever its cookies. *)
Definition session_only_at (address : string) : Test2.session_transport :=
  fun i _ url form_data => only_at address i url form_data.

(** The rows of a form at [form_url] are posted to [address] and nowhere
    else.  Every row that is submitted is accepted by the transport
    that serves that address alone: every row in test.py, every row in
    bot.py when the names it reads are bound, every row in test2.py
    when each row has a session.  And in each of the three scripts two
    transports that agree at that address give the same run. *)
Definition posted_to (form_url address : string) (rows : list row) : Prop :=
  (forall field_mappings,
     Test.csv_to_google_form (only_at address) (Some rows) form_url field_mappings
     = (true, map Success (seq 1 (length rows))))
  /\ (forall g field_mappings,
        (forall r, In r rows -> Bot.form_data_of g field_mappings r <> None) ->
        Bot.csv_to_google_form g (only_at address) (Some rows) form_url field_mappings
        = (true, map Success (seq 1 (length rows))))
  /\ (forall browser_cookie3 field_mappings user_credentials,
        (forall r, In r rows -> session_of browser_cookie3 user_credentials r <> None) ->
        Test2.csv_to_google_form browser_cookie3 (session_only_at address) (Some rows)
          form_url field_mappings (Some user_credentials)
        = (true, map Success (seq 1 (length rows))))
  /\ (forall post post' field_mappings,
        (forall i form_data, post i address form_data = post' i address form_data) ->
        Test.csv_to_google_form post (Some rows) form_url field_mappings
        = Test.csv_to_google_form post' (Some rows) form_url field_mappings)
  /\ (forall g post post' field_mappings,
        (forall i form_data, post i address form_data = post' i address form_data) ->
        Bot.csv_to_google_form g post (Some rows) form_url field_mappings
        = Bot.csv_to_google_form g post' (Some rows) form_url field_mappings)
  /\ (forall browser_cookie3 (post post' : Test2.session_transport) field_mappings
             user_credentials,
        (forall i cj form_data, post i cj address form_data = post' i cj address form_data) ->
        Test2.csv_to_google_form browser_cookie3 post (Some rows) form_url field_mappings
          (Some user_credentials)
        = Test2.csv_to_google_form browser_cookie3 post' (Some rows) form_url field_mappings
            (Some user_credentials)).

(** The row a line of the report is about. *)
Definition row_of_event (e : event) : option nat :=
  match e with
  | Success i | Failure i | UserNotFound i | NoCookies i => Some i
  | SignInIssue | FileError | Unexpected => None
  end.

Definition is_skip (e : event) : bool :=
  match e with UserNotFound _ | NoCookies _ => true | _ => false end.

(** The rows a report has a line about, in the order of the report. *)
Fixpoint reported_rows (log : list event) : list nat :=
  match log with
  | [] => []
  | e :: rest =>
      match row_of_event e with
      | Some i => i :: reported_rows rest
      | None => reported_rows rest
      end
  end.

(** The warning printed for a row that is skipped. *)
Definition warning_of (user_credentials : py.dict Test2.user_info) (i : nat) (r : row) :
    event :=
  match Test2.credentials_of user_credentials (user_of r) with
  | None => UserNotFound i
  | Some _ => NoCookies i
  end.

Fixpoint warnings (user_credentials : py.dict Test2.user_info) (rows : list row) (i : nat) :
    list event :=
  match rows with
  | [] => []
  | r :: rest => warning_of user_credentials i r :: warnings user_credentials rest (S i)
  end.

(** The characters [sanitize_for_prompt] lets through: letters, digits,
    the underscore, white space and some punctuation. *)
Definition allowed (c : ascii) : bool :=
  py.isalnum c || Ascii.eqb c "_" || py.isspace c
  || existsb (fun a => Ascii.eqb a c) (list_ascii_of_string (".,;:-!?" ++ Test2.dquote)).

(** A line feed or a tabulator becomes a space. *)
Definition blank (c : ascii) : ascii :=
  if Ascii.eqb "010" c || Ascii.eqb "009" c then " "%char else c.

Fixpoint map_chars (f : ascii -> ascii) (s : string) : string :=
  match s with
  | EmptyString => EmptyString
  | String c s' => String (f c) (map_chars f s')
  end.

Fixpoint keep (ok : ascii -> bool) (s : string) : string :=
  match s with
  | EmptyString => EmptyString
  | String c s' => if ok c then String c (keep ok s') else keep ok s'
  end.

(** A text of ASCII characters, on which the model of Python's text
    functions is exact. *)
Definition ascii_text (s : string) : Prop :=
  List.Forall (fun c => (py.code c < 128)%N) (list_ascii_of_string s).

(** A header whose columns are ASCII texts, a field map whose labels
    are, and a rule file whose patterns are: on these the case folding
    and the lengths of the model are those of Python. *)
Definition ascii_header (csv_header : list string) : Prop :=
  List.Forall ascii_text csv_header.

Definition ascii_labels (entry_id_dict : py.dict string) : Prop :=
  List.Forall (fun e => ascii_text (fst e)) entry_id_dict.

Definition ascii_rules (regex_patterns : py.dict (list Bot.pattern_data)) : Prop :=
  List.Forall
    (fun rules => List.Forall (fun pd => ascii_text (Bot.pattern pd)) (snd rules))
    regex_patterns.

(** The digits a text begins with. *)
Fixpoint leading_digits (s : string) : string :=
  match s with
  | String c s' => if py.isdigit c then String c (leading_digits s') else EmptyString
  | EmptyString => EmptyString
  end.

(** The number that follows two opening brackets at the start of [s]. *)
Definition number_at (s : string) : option string :=
  if py.startswith s "[[" then
    match s with
    | String _ (String _ rest) =>
        match leading_digits rest with
        | EmptyString => None
        | digits => Some digits
        end
    | _ => None
    end
  else None.

(** The first number in [s] that follows two opening brackets. *)
Fixpoint entry_number (s : string) : option string :=
  match number_at s with
  | Some digits => Some digits
  | None =>
      match s with
      | String _ s' => entry_number s'
      | EmptyString => None
      end
  end.

(** What is left of a text after the digits it begins with. *)
Fixpoint skip_digits (s : string) : string :=
  match s with
  | String c s' => if py.isdigit c then skip_digits s' else s
  | EmptyString => EmptyString
  end.

(** The pattern of line 88 of test.py, compiled: two opening brackets
    and a group of one or more digits. *)
Definition entry_pattern : re.regex :=
  re.Seq (re.Lit "[") (re.Seq (re.Lit "[")
    (re.Seq (re.Group (Some 1%nat)
               (re.Seq (re.Plus true (re.Class false re.Digit)) re.Empty))
            re.Empty)).

(** What test.py and bot.py read from one list item of the page: the
    stripped text of its first span, and [entry.] with the first number
    that follows two opening brackets in its [data-params]. *)
Definition field_of (item : Test.listitem) : option (string * string) :=
  match Test.question_span item, Test.parent_div item with
  | Some span, Some data_params =>
      match entry_number data_params with
      | Some digits => Some (py.strip span, "entry." ++ digits)
      | None => None
      end
  | _, _ => None
  end.

Fixpoint fields_of (list_items : list Test.listitem) : list (string * string) :=
  match list_items with
  | [] => []
  | item :: rest =>
      match field_of item with
      | Some field => field :: fields_of rest
      | None => fields_of rest
      end
  end.

Definition only_digits (s : string) : Prop :=
  List.Forall (fun c => py.isdigit c = true) (list_ascii_of_string s).

(** The entries of the field map of test2.py: a label that is not
    empty, with a name that begins with [entry.] or, for a hidden
    field, with the label as its name. *)
Definition well_named (entry_ids : py.dict Test2.entry_id) : Prop :=
  forall label e, In (label, e) entry_ids ->
    label <> EmptyString
    /\ match e with
       | Test2.Plain name => py.startswith name "entry." = true
       | Test2.Hidden name _ => label = name
       end.

(** The text of a JSON string, the empty text for another value. *)
Definition text_of (j : Test2.json) : string :=
  match j with Test2.JString s => s | _ => EmptyString end.

Definition is_success (e : event) : bool :=
  match e with Success _ => true | _ => false end.

(** A page of one list item, asking for the e-mail address. *)
Definition email_page : requests.reply (list Test.listitem) :=
  requests.Response 200
    [{| Test.question_span := Some "Email ";
        Test.parent_div := Some "%.@.[[1234567,null,1]]" |}].

(** * Properties *)


(** ** Dictionaries *)

Section DictFacts.
Context {V : Type}.
Implicit Types (d : py.dict V) (k : string) (v : V).

Lemma get_set_eq d k v : py.get (py.set d k v) k = Some v.
Proof.
  induction d as [|[k' v'] d IH]; simpl.
  - now rewrite String.eqb_refl.
  - destruct (String.eqb k' k) eqn:E; simpl.
    + now rewrite String.eqb_refl.
    + now rewrite E.
Qed.

Lemma get_set_ne d k k' v : k <> k' -> py.get (py.set d k v) k' = py.get d k'.
Proof.
  intros Hne. induction d as [|[k0 v0] d IH]; simpl.
  - destruct (String.eqb k k') eqn:E; [apply String.eqb_eq in E; contradiction | reflexivity].
  - destruct (String.eqb k0 k) eqn:E; simpl.
    + apply String.eqb_eq in E. subst k0.
      destruct (String.eqb k k') eqn:E'; [apply String.eqb_eq in E'; contradiction | reflexivity].
    + now rewrite IH.
Qed.

Lemma in_set d k v k' v' :
  In (k', v') (py.set d k v) -> (k' = k /\ v' = v) \/ In (k', v') d.
Proof.
  induction d as [|[k0 v0] d IH]; simpl.
  - intros [H | []]. injection H as <- <-. now left.
  - destruct (String.eqb k0 k) eqn:E; simpl.
    + intros [H | H]; [injection H as <- <-; now left | right; now right].
    + intros [H | H]; [right; now left |].
      destruct (IH H) as [? | ?]; [now left | right; now right].
Qed.

Lemma in_set_new d k v : In (k, v) (py.set d k v).
Proof.
  induction d as [|[k0 v0] d IH]; simpl; [now left |].
  destruct (String.eqb k0 k); simpl; [now left | now right].
Qed.

Lemma in_keys_set d k v k' :
  In k' (py.keys (py.set d k v)) -> k' = k \/ In k' (py.keys d).
Proof.
  unfold py.keys. rewrite !in_map_iff. intros [[k0 v0] [<- H]]. simpl.
  destruct (in_set _ _ _ _ _ H) as [[-> _] | H']; [now left |].
  right. now exists (k0, v0).
Qed.

Lemma get_none_iff d k : py.get d k = None <-> ~ In k (py.keys d).
Proof.
  induction d as [|[k0 v0] d IH]; simpl; [tauto |].
  destruct (String.eqb k0 k) eqn:E.
  - apply String.eqb_eq in E. split; [discriminate | intros H; exfalso; apply H; now left].
  - apply String.eqb_neq in E. rewrite IH. tauto.
Qed.

Lemma get_some_in d k v : py.get d k = Some v -> In (k, v) d.
Proof.
  induction d as [|[k0 v0] d IH]; simpl; [discriminate |].
  destruct (String.eqb k0 k) eqn:E.
  - apply String.eqb_eq in E. intros [= ->]. subst. now left.
  - intros H. right. now apply IH.
Qed.

Lemma in_get d k v : List.NoDup (py.keys d) -> In (k, v) d -> py.get d k = Some v.
Proof.
  induction d as [|[k0 v0] d IH]; simpl; [tauto |].
  intros Hnd [H | H].
  - injection H as -> ->. now rewrite String.eqb_refl.
  - apply List.NoDup_cons_iff in Hnd as [Hnotin Hnd].
    destruct (String.eqb k0 k) eqn:E.
    + apply String.eqb_eq in E. subst k0. exfalso. apply Hnotin.
      unfold py.keys. apply in_map_iff. now exists (k, v).
    + now apply IH.
Qed.

Lemma keys_set_nodup d k v : List.NoDup (py.keys d) -> List.NoDup (py.keys (py.set d k v)).
Proof.
  induction d as [|[k0 v0] d IH]; simpl; intros Hnd.
  - constructor; [intros [] | constructor].
  - apply List.NoDup_cons_iff in Hnd as [Hnotin Hnd].
    destruct (String.eqb k0 k) eqn:E; simpl.
    + apply String.eqb_eq in E. subst k0. now constructor.
    + apply String.eqb_neq in E. constructor; [| now apply IH].
      intros H. apply in_keys_set in H as [-> | H]; [now apply E | now apply Hnotin].
Qed.

(** Assigning a key that is not there yet appends the pair. *)
Lemma set_fresh d k v : ~ In k (py.keys d) -> py.set d k v = (d ++ [(k, v)])%list.
Proof.
  induction d as [|[k0 v0] d IH]; simpl; [reflexivity |].
  intros H. destruct (String.eqb k0 k) eqn:E.
  - apply String.eqb_eq in E. exfalso. apply H. now left.
  - f_equal. apply IH. intros H'. apply H. now right.
Qed.
End DictFacts.

(** ** Strategy A: heuristic scoring (test.py) *)

Section StrategyA.
Variable entry_id_dict : py.dict string.

Lemma best_of_exact used csv_col items label id best_match best_score :
  find (exact_label used csv_col) items = Some (label, id) ->
  Test.best_of used csv_col items best_match best_score = (Some id, 100).
Proof.
  revert best_match best_score.
  induction items as [|[l i] items IH]; intros bm bs; simpl; [discriminate |].
  unfold exact_label at 1. simpl.
  destruct (bool_decide (i ∈ used)) eqn:Hu; simpl.
  - intros H. now apply IH.
  - destruct (String.eqb (py.lower csv_col) (py.lower l)) eqn:He.
    + now intros [= -> ->].
    + intros H. destruct (bs <? Test.score_of csv_col l); now apply IH.
Qed.

(** Whatever the inner loop returns was free, unless it was the
    identifier it started from. *)
Lemma best_of_free used csv_col items best_match best_score id :
  fst (Test.best_of used csv_col items best_match best_score) = Some id ->
  best_match = Some id \/ ((id ∉ used) /\ exists label, In (label, id) items).
Proof.
  revert best_match best_score.
  induction items as [|[l i] items IH]; intros bm bs; simpl; [now left |].
  destruct (bool_decide (i ∈ used)) eqn:Hu.
  - intros H. destruct (IH _ _ H) as [? | [? [l' ?]]]; [now left | right].
    split; [assumption | exists l'; now right].
  - apply bool_decide_eq_false in Hu.
    destruct (String.eqb (py.lower csv_col) (py.lower l)).
    + simpl. intros [= ->]. right. split; [assumption | exists l; now left].
    + destruct (bs <? Test.score_of csv_col l); intros H;
        destruct (IH _ _ H) as [E | [? [l' ?]]].
      * injection E as ->. right. split; [assumption | exists l; now left].
      * right. split; [assumption | exists l'; now right].
      * now left.
      * right. split; [assumption | exists l'; now right].
Qed.

(** Without a free label that equals the column or scores above zero,
    the inner loop returns nothing. *)
Lemma best_of_none used csv_col items :
  (forall label id, In (label, id) items -> id ∉ used ->
     py.lower csv_col <> py.lower label /\ Test.score_of csv_col label <= 0) ->
  Test.best_of used csv_col items None 0 = (None, 0).
Proof.
  induction items as [|[l i] items IH]; intros H; simpl; [reflexivity |].
  destruct (bool_decide (i ∈ used)) eqn:Hu.
  - apply IH. intros l' i' Hin. apply H. now right.
  - apply bool_decide_eq_false in Hu.
    destruct (H l i (or_introl eq_refl) Hu) as [Hne Hs].
    apply String.eqb_neq in Hne. rewrite Hne.
    replace (0 <? Test.score_of csv_col l) with false by (symmetry; apply Z.ltb_ge; lia).
    apply IH. intros l' i' Hin. apply H. now right.
Qed.

(** A round leaves the entries of the other columns alone. *)
Lemma match_column_other st csv_col c :
  c <> csv_col ->
  py.get (fst (Test.match_column entry_id_dict st csv_col)) c = py.get (fst st) c.
Proof.
  intros Hne. unfold Test.match_column.
  destruct (fst (Test.best_of _ _ _ _ _)) as [b|]; [| reflexivity].
  destruct (py.truthy b); [| reflexivity]. simpl.
  apply get_set_ne. congruence.
Qed.

Lemma match_columns_other csv_header st c :
  ~ In c csv_header ->
  py.get (fst (Test.match_columns entry_id_dict csv_header st)) c = py.get (fst st) c.
Proof.
  revert st. induction csv_header as [|col cols IH]; intros st Hnotin; [reflexivity |].
  unfold Test.match_columns in *. simpl. rewrite IH by (intros H; apply Hnotin; now right).
  apply match_column_other. intros ->. apply Hnotin. now left.
Qed.

Lemma match_columns_app pre post st :
  Test.match_columns entry_id_dict (pre ++ post) st =
  Test.match_columns entry_id_dict post (Test.match_columns entry_id_dict pre st).
Proof. unfold Test.match_columns. apply fold_left_app. Qed.

Lemma set_free_consistent mappings (used : gset string) csv_col id :
  consistent (mappings, used) -> id ∉ used ->
  consistent (py.set mappings csv_col id, {[ id ]} ∪ used).
Proof.
  intros [Hused Hinj] Hfree. split; simpl in *.
  - intros c i H. apply in_set in H as [[_ ->] | H]; [set_solver |].
    specialize (Hused _ _ H). set_solver.
  - intros c1 c2 i H1 H2.
    apply in_set in H1 as [[-> ->] | H1]; apply in_set in H2 as [[-> E] | H2];
      try reflexivity.
    + exfalso. apply Hfree. eapply Hused. eassumption.
    + subst i. exfalso. apply Hfree. eapply Hused. eassumption.
    + eapply Hinj; eassumption.
Qed.

Lemma match_column_consistent st csv_col :
  consistent st -> consistent (Test.match_column entry_id_dict st csv_col).
Proof.
  intros Hc. unfold Test.match_column.
  destruct (fst (Test.best_of _ _ _ _ _)) as [b|] eqn:Hb; [| assumption].
  destruct (py.truthy b); [| assumption].
  apply best_of_free in Hb as [? | [Hfree _]]; [discriminate |].
  destruct st as [m u]. now apply set_free_consistent.
Qed.

Lemma match_columns_consistent csv_header st :
  consistent st -> consistent (Test.match_columns entry_id_dict csv_header st).
Proof.
  revert st. induction csv_header as [|c cs IH]; intros st H; [assumption |].
  apply IH. now apply match_column_consistent.
Qed.

(** Strategy A never gives one identifier to two columns. *)
Lemma find_matching_keys_injective csv_header :
  injective (Test.find_matching_keys entry_id_dict csv_header).
Proof.
  apply (match_columns_consistent csv_header ([], ∅)).
  split; [intros ? ? [] | intros ? ? ? []].
Qed.

(** An identifier, once given to a column, is not given again. *)
Lemma match_column_keeps st csv_col c id :
  consistent st -> In (c, id) (fst st) ->
  forall c', In (c', id) (fst (Test.match_column entry_id_dict st csv_col)) -> c' = c.
Proof.
  intros Hc Hin c' Hin'.
  pose proof (match_column_consistent st csv_col Hc) as [Hused' Hinj'].
  unfold Test.match_column in *.
  destruct (fst (Test.best_of _ _ _ _ _)) as [b|] eqn:Hb; [| now apply (proj2 Hc c' c id)].
  destruct (py.truthy b); [| now apply (proj2 Hc c' c id)].
  simpl in *. apply best_of_free in Hb as [? | [Hfree _]]; [discriminate |].
  apply in_set in Hin' as [[-> ->] | Hin'].
  - exfalso. apply Hfree. now apply (proj1 Hc c).
  - now apply (proj2 Hc c' c id).
Qed.
End StrategyA.

(** The identifiers test.py and bot.py read off the page are not empty. *)
Lemma scan_items_identifiers list_items entry_ids result :
  List.Forall (fun e => snd e <> EmptyString) entry_ids ->
  Test.scan_items list_items entry_ids = Some result ->
  List.Forall (fun e => snd e <> EmptyString) result.
Proof.
  revert entry_ids. induction list_items as [|item rest IH]; intros d Hd; cbn [Test.scan_items].
  - now intros [= <-].
  - destruct (Test.question_span item) as [span|]; [| now apply IH].
    destruct (Test.parent_div item) as [data_params|]; [| now apply IH].
    destruct (negb (py.truthy data_params)); [now apply IH |].
    destruct (re.search "\[\[(\d+)" data_params false) as [[m|] | msg |];
      try discriminate; [| now apply IH].
    destruct (re.group data_params m 1) as [digits|]; [| discriminate].
    apply IH. apply List.Forall_forall. intros [k v] H.
    apply in_set in H as [[_ ->] | H]; [discriminate |].
    rewrite List.Forall_forall in Hd. now apply (Hd (k, v)).
Qed.

Lemma get_form_entry_ids_identifiers page entry_ids :
  Test.get_form_entry_ids page = Some entry_ids ->
  List.Forall (fun e => snd e <> EmptyString) entry_ids.
Proof.
  unfold Test.get_form_entry_ids. destruct page as [|status_code list_items]; [discriminate |].
  destruct (requests.raises_for_status status_code); [discriminate |].
  destruct (Test.scan_items list_items []) as [d|] eqn:E; [| discriminate].
  intros H. assert (d = entry_ids) as <- by (destruct d; [discriminate | now injection H]).
  now apply (scan_items_identifiers list_items []); [constructor |].
Qed.

(** C7, as stated: a free label that equals the column up to case does
    not always give the column its identifier.  An empty identifier is
    not recorded at all; when the header names the column twice, the
    second round takes the next label that equals it and the entry of
    the first round is replaced; and of two free labels that equal the
    column only the first in the order of the field map is taken. *)
Lemma exact_label_not_always_mapped :
  py.get (Test.find_matching_keys [("Email", EmptyString)] ["Email"]) "Email" = None
  /\ py.get (Test.find_matching_keys [("Email", "entry.1"); ("email", "entry.2")]
               ["Email"; "Email"]) "Email" = Some "entry.2"
  /\ py.get (Test.find_matching_keys [("EMAIL", "entry.1"); ("Email", "entry.2")]
               ["Email"]) "Email" = Some "entry.1".
Proof. repeat split. Qed.

(** C7, amended.  Strategy A on ASCII text, for a field map without
    empty identifiers (test.py builds them as [entry.] followed by
    digits) and a column taken at its last occurrence in the header:
    when the column is processed and a label that is still free equals
    it up to case, the column is mapped to the identifier of the first
    such label in the order of the field map, whatever the other labels
    score; so it is mapped to the identifier of that label when no
    other free label equals the column up to case. *)
Theorem exact_label_wins (entry_id_dict : py.dict string) (pre : list string)
    (csv_col : string) (post : list string) (label id : string) :
  ascii_header (pre ++ csv_col :: post) ->
  ascii_labels entry_id_dict ->
  List.Forall (fun e => snd e <> EmptyString) entry_id_dict ->
  In (label, id) entry_id_dict ->
  id ∉ used_after entry_id_dict pre ->
  py.lower csv_col = py.lower label ->
  ~ In csv_col post ->
  (exists label' id',
     find (exact_label (used_after entry_id_dict pre) csv_col) entry_id_dict
       = Some (label', id')
     /\ py.lower csv_col = py.lower label'
     /\ py.get (Test.find_matching_keys entry_id_dict (pre ++ csv_col :: post)) csv_col
          = Some id')
  /\ ((forall l i, In (l, i) entry_id_dict -> i ∉ used_after entry_id_dict pre ->
         py.lower csv_col = py.lower l -> i = id) ->
      py.get (Test.find_matching_keys entry_id_dict (pre ++ csv_col :: post)) csv_col
        = Some id).
Proof.
  intros _ _ Hwf Hin Hfree Hexact Hlast.
  assert (Hfirst : exists label' id',
             find (exact_label (used_after entry_id_dict pre) csv_col) entry_id_dict
               = Some (label', id')).
  { destruct (find _ entry_id_dict) as [[l i]|] eqn:Hf; [now exists l, i |].
    exfalso. pose proof (find_none _ _ Hf _ Hin) as Hn.
    unfold exact_label in Hn. simpl in Hn.
    rewrite Hexact, String.eqb_refl, andb_true_r in Hn.
    apply negb_false_iff, bool_decide_eq_true in Hn. contradiction. }
  destruct Hfirst as (label' & id' & Hf).
  pose proof (find_some _ _ Hf) as [Hin' Hp].
  unfold exact_label in Hp. simpl in Hp. apply andb_true_iff in Hp as [Hfree' Hexact'].
  apply negb_true_iff, bool_decide_eq_false in Hfree'. apply String.eqb_eq in Hexact'.
  assert (Hget : py.get (Test.find_matching_keys entry_id_dict (pre ++ csv_col :: post))
                   csv_col = Some id').
  { unfold Test.find_matching_keys.
    rewrite match_columns_app.
    change (Test.match_columns entry_id_dict (csv_col :: post) ?st)
      with (Test.match_columns entry_id_dict post (Test.match_column entry_id_dict st csv_col)).
    rewrite match_columns_other by assumption.
    unfold Test.match_column.
    fold (used_after entry_id_dict pre).
    rewrite (best_of_exact _ _ _ _ _ _ _ Hf). simpl.
    assert (Ht : py.truthy id' = true).
    { rewrite List.Forall_forall in Hwf. specialize (Hwf _ Hin'). simpl in Hwf.
      unfold py.truthy. apply negb_true_iff. now apply String.eqb_neq. }
    rewrite Ht. simpl. apply get_set_eq. }
  split.
  - exists label', id'. auto.
  - intros Honly. rewrite Hget. f_equal. eauto.
Qed.

(** The example of the specification, and a column written in small
    letters against a label in capitals that comes after a label
    containing the column. *)
Lemma exact_label_wins_email :
  py.get (Test.find_matching_keys
            [("Email", "entry.1"); ("Email Address", "entry.2")] ["Email"])
         "Email" = Some "entry.1"
  /\ py.get (Test.find_matching_keys
               [("Email Address", "entry.2"); ("EMAIL", "entry.1")] ["email"])
            "email" = Some "entry.1".
Proof.
  split.
  - refine (proj2 (exact_label_wins
                     [("Email", "entry.1"); ("Email Address", "entry.2")]
                     [] "Email" [] "Email" "entry.1" _ _ _ _ _ _ _) _).
    + repeat constructor.
    + repeat constructor.
    + repeat constructor; discriminate.
    + now left.
    + vm_compute. intros H. inversion H.
    + reflexivity.
    + intros [].
    + intros l i [H | [H | []]] _ Hl; injection H as <- <-; [reflexivity | discriminate Hl].
  - refine (proj2 (exact_label_wins
                     [("Email Address", "entry.2"); ("EMAIL", "entry.1")]
                     [] "email" [] "EMAIL" "entry.1" _ _ _ _ _ _ _) _).
    + repeat constructor.
    + repeat constructor.
    + repeat constructor; discriminate.
    + right. now left.
    + vm_compute. intros H. inversion H.
    + reflexivity.
    + intros [].
    + intros l i [H | [H | []]] _ Hl; injection H as <- <-; [discriminate Hl | reflexivity].
Defined.

(** ** Escaped patterns *)

Section Escape.
Import re.

Lemma append_cons c s t : String c s ++ t = String c (s ++ t).
Proof. reflexivity. Qed.

Lemma append_empty s : s ++ EmptyString = s.
Proof. induction s as [|c s IH]; [reflexivity |]. rewrite append_cons. now f_equal. Qed.

(** A character [re.escape] leaves alone is none of those the reader
    of patterns treats specially. *)
Lemma plain_char c :
  is_special c = false ->
  Ascii.eqb c "\" = false /\ Ascii.eqb c "(" = false /\ Ascii.eqb c ")" = false
  /\ Ascii.eqb c "|" = false /\ Ascii.eqb c "*" = false /\ Ascii.eqb c "+" = false
  /\ Ascii.eqb c "?" = false /\ Ascii.eqb c "[" = false /\ Ascii.eqb c "{" = false
  /\ Ascii.eqb c "." = false /\ Ascii.eqb c "^" = false /\ Ascii.eqb c "$" = false.
Proof.
  destruct c as [[] [] [] [] [] [] [] []]; vm_compute; intros H;
    first [discriminate H | repeat split].
Qed.

(** A backslash before a character [re.escape] protects gives that
    character. *)
Lemma special_char c : is_special c = true -> escaped false c = EscChar c.
Proof.
  destruct c as [[] [] [] [] [] [] [] []]; vm_compute; intros H;
    first [discriminate H | reflexivity].
Qed.

Lemma parse_escape text suffix cur outer n :
  parse (escape text ++ suffix) Normal cur outer n =
  parse suffix Normal
    (Frame (f_index cur) (f_alts cur) (rev (lits text) ++ f_items cur)%list) outer n.
Proof.
  revert cur. induction text as [|c text IH]; intros cur.
  - destruct cur; reflexivity.
  - cbn [escape]. destruct (is_special c) eqn:Hs.
    + rewrite !append_cons. cbn [parse].
      change (Ascii.eqb "\" "\") with true. cbv iota.
      rewrite (special_char c Hs). rewrite IH. unfold push, lits. simpl.
      now rewrite <- app_assoc.
    + destruct (plain_char c Hs) as (H1 & H2 & H3 & H4 & H5 & H6 & H7 & H8 & H9 & H10 & H11 & H12).
      rewrite append_cons. cbn [parse].
      rewrite H1, H2, H3, H4, H5, H6, H7, H8, H9, H10, H11, H12. cbn [orb]. cbv iota.
      rewrite IH. unfold push, lits. simpl. now rewrite <- app_assoc.
Qed.

Lemma parse_bol rest cur outer n :
  parse (String "^" rest) Normal cur outer n = parse rest Normal (push Bol cur) outer n.
Proof. reflexivity. Qed.

(** An escaped text always compiles, to the sequence of its literals. *)
Lemma compile_escape text : compile (escape text) = Compiled (seq_of (lits text)).
Proof.
  unfold compile. rewrite <- (append_empty (escape text)).
  rewrite parse_escape. simpl. unfold close. simpl.
    now rewrite app_nil_r, rev_involutive.
Qed.

Lemma compile_anchored text :
  compile ("^" ++ escape text ++ "$") = Compiled (seq_of (Bol :: lits text ++ [Eol])%list).
Proof.
  unfold compile.
  change ("^" ++ escape text ++ "$") with (String "^" (escape text ++ "$")).
  rewrite parse_bol, parse_escape. simpl. unfold close. simpl.
  now rewrite rev_app_distr, rev_involutive.
Qed.
End Escape.

(** ** Matching a literal text *)

Section Literal.
Import re.

Lemma run_lits p tail s pos g k :
  run true (seq_of (lits p ++ tail)%list) s pos g k =
  match after_ci s p with
  | Some rest => run true (seq_of tail) rest (pos + String.length p) g k
  | None => None
  end.
Proof.
  revert s pos. induction p as [|a p IH]; intros s pos.
  - simpl. now rewrite Nat.add_0_r.
  - change (lits (String a p)) with (Lit a :: lits p). simpl.
    destruct s as [|b s]; [reflexivity |]. simpl.
    destruct (Ascii.eqb (py.lower_char a) (py.lower_char b)); [| reflexivity].
    rewrite IH. now rewrite Nat.add_succ_r.
Qed.

Lemma run_lits_only p s pos g k :
  run true (seq_of (lits p)) s pos g k =
  match after_ci s p with
  | Some rest => k rest (pos + String.length p)%nat g
  | None => None
  end.
Proof. rewrite <- (app_nil_r (lits p)). apply run_lits. Qed.

Lemma search_lits p s pos :
  found (search_from true (seq_of (lits p)) s pos) = contains_ci s p.
Proof.
  revert pos. induction s as [|c s IH]; intros pos;
    cbn [search_from contains_ci]; rewrite run_lits_only.
  - destruct (after_ci EmptyString p); reflexivity.
  - destruct (after_ci (String c s) p); [reflexivity | apply IH].
Qed.

Lemma search_bol_later r s pos :
  (0 < pos)%nat -> search_from true (Seq Bol r) s pos = None.
Proof.
  revert pos. induction s as [|c s IH]; intros pos Hpos; cbn [search_from run];
    destruct pos; try lia; simpl; [reflexivity |].
  apply IH. lia.
Qed.

Lemma search_anchored p s :
  found (search_from true (seq_of (Bol :: lits p ++ [Eol])%list) s 0) = equals_ci s p.
Proof.
  unfold equals_ci.
  change (seq_of (Bol :: lits p ++ [Eol])%list) with (Seq Bol (seq_of (lits p ++ [Eol])%list)).
  destruct s as [|c s]; cbn [search_from run Nat.eqb]; rewrite run_lits.
  - destruct (after_ci EmptyString p) as [rest|]; [| reflexivity]. simpl.
    destruct (at_end rest); reflexivity.
  - destruct (after_ci (String c s) p) as [rest|].
    + simpl. destruct (at_end rest); [reflexivity |]. now rewrite search_bol_later by lia.
    + now rewrite search_bol_later by lia.
Qed.

(** [re.search] of an escaped text looks for the text itself. *)
Lemma search_escape p s :
  exists m, search (escape p) s true = Returned m /\ found m = contains_ci s p.
Proof.
  unfold search. rewrite compile_escape. eexists. split; [reflexivity |]. apply search_lits.
Qed.

Lemma search_escape_anchored p s :
  exists m, search ("^" ++ escape p ++ "$") s true = Returned m /\ found m = equals_ci s p.
Proof.
  unfold search. rewrite compile_anchored. eexists. split; [reflexivity |].
  apply search_anchored.
Qed.

(** The same notion in terms of [lower] and [in]. *)
Lemma after_ci_startswith s p :
  match after_ci s p with Some _ => true | None => false end
  = py.startswith (py.lower s) (py.lower p).
Proof.
  revert s. induction p as [|a p IH]; intros s; [reflexivity |].
  destruct s as [|b s]; [reflexivity |]. simpl. unfold char_eq.
  destruct (Ascii.eqb (py.lower_char a) (py.lower_char b)); [apply IH | reflexivity].
Qed.

Lemma contains_ci_lower s p : contains_ci s p = py.contains (py.lower s) (py.lower p).
Proof.
  induction s as [|c s IH].
  - pose proof (after_ci_startswith EmptyString p) as H. cbn [py.lower] in H.
    cbn [contains_ci py.contains py.lower]. rewrite <- H.
    destruct (after_ci EmptyString p); reflexivity.
  - pose proof (after_ci_startswith (String c s) p) as H. cbn [py.lower] in H.
    cbn [contains_ci py.contains py.lower]. rewrite <- H, <- IH.
    destruct (after_ci (String c s) p); reflexivity.
Qed.
End Literal.

(** ** Strategy B: scored rules (bot.py) *)

Section StrategyB.
Variable regex_patterns : py.dict (list Bot.pattern_data).
Variable entry_id_dict : py.dict string.

(** No search of the matcher raises, and none leaves the fragment. *)
Lemma rule_search_returns pd form_label :
  Bot.rule_search pd form_label = None
  \/ exists m, Bot.rule_search pd form_label = Some (re.Returned m)
               /\ found m = literal_match pd form_label.
Proof.
  unfold Bot.rule_search, literal_match, Bot.sanitize_for_regex.
  destruct (String.eqb _ "exact").
  { right. destruct (search_escape_anchored (Bot.pattern pd) form_label) as (m & -> & H).
    now exists m. }
  destruct (String.eqb _ "contains").
  { right. destruct (search_escape (Bot.pattern pd) form_label) as (m & -> & H).
    now exists m. }
  destruct (String.eqb _ "reverse_contains").
  { right. destruct (search_escape form_label (Bot.pattern pd)) as (m & -> & H).
    now exists m. }
  now left.
Qed.

Lemma fires_literal pd form_label : fires pd form_label = literal_match pd form_label.
Proof.
  unfold fires. destruct (rule_search_returns pd form_label) as [E | (m & E & H)].
  - rewrite E. unfold literal_match. unfold Bot.rule_search in E.
    destruct (String.eqb _ "exact"); [discriminate |].
    destruct (String.eqb _ "contains"); [discriminate |].
    destruct (String.eqb _ "reverse_contains"); [discriminate | reflexivity].
  - rewrite E, <- H. now destruct m.
Qed.

Lemma try_rule_log csv_col form_label entry_id st pd :
  snd (Bot.try_rule csv_col form_label entry_id st pd) = snd st.
Proof.
  destruct st as [[bm bs] log]. unfold Bot.try_rule.
  destruct (rule_search_returns pd form_label) as [-> | (m & -> & _)]; [reflexivity |].
  destruct m; [| reflexivity]. now destruct (bs <? Bot.score pd).
Qed.

Lemma try_rule_best csv_col form_label entry_id st pd id :
  fst (fst (Bot.try_rule csv_col form_label entry_id st pd)) = Some id ->
  fst (fst st) = Some id \/ (id = entry_id /\ fires pd form_label = true).
Proof.
  destruct st as [[bm bs] log]. unfold Bot.try_rule, fires.
  destruct (Bot.rule_search pd form_label) as [[[m|] | msg |]|]; simpl; auto.
  destruct (bs <? Bot.score pd); simpl; [intros [= ->]; now right | auto].
Qed.

Lemma try_rules_log csv_col form_label entry_id rules st :
  snd (fold_left (Bot.try_rule csv_col form_label entry_id) rules st) = snd st.
Proof.
  revert st. induction rules as [|pd rules IH]; intros st; [reflexivity |].
  simpl. now rewrite IH, try_rule_log.
Qed.

Lemma try_rules_best csv_col form_label entry_id rules st id :
  fst (fst (fold_left (Bot.try_rule csv_col form_label entry_id) rules st)) = Some id ->
  fst (fst st) = Some id
  \/ (id = entry_id /\ exists pd, In pd rules /\ fires pd form_label = true).
Proof.
  revert st. induction rules as [|pd rules IH]; intros st; simpl; [now left |].
  intros H. destruct (IH _ H) as [H' | [-> (pd' & Hin & Hf)]].
  - destruct (try_rule_best _ _ _ _ _ _ H') as [? | [-> Hf]]; [now left | right].
    split; [reflexivity | exists pd; auto].
  - right. split; [reflexivity | exists pd'; auto].
Qed.

Lemma best_of_log used rules csv_col items st :
  snd (Bot.best_of used rules csv_col items st) = snd st.
Proof.
  revert st. induction items as [|[l i] items IH]; intros st; [reflexivity |]. simpl.
  destruct (bool_decide (i ∈ used)); rewrite IH; [reflexivity | apply try_rules_log].
Qed.

(** What the loop over the labels returns was free and matched by a
    rule, unless it was the identifier the loop started from. *)
Lemma best_of_rule used rules csv_col items st id :
  fst (fst (Bot.best_of used rules csv_col items st)) = Some id ->
  fst (fst st) = Some id
  \/ ((id ∉ used) /\ exists label pd,
        In (label, id) items /\ In pd rules /\ fires pd label = true).
Proof.
  revert st. induction items as [|[l i] items IH]; intros st; simpl; [now left |].
  destruct (bool_decide (i ∈ used)) eqn:Hu; intros H.
  - destruct (IH _ H) as [? | (? & l' & pd & ? & ? & ?)]; [now left | right].
    split; [assumption | exists l', pd; auto].
  - apply bool_decide_eq_false in Hu.
    destruct (IH _ H) as [H' | (? & l' & pd & ? & ? & ?)].
    + destruct (try_rules_best _ _ _ _ _ _ H') as [? | [-> (pd & ? & ?)]]; [now left | right].
      split; [assumption | exists l, pd; auto].
    + right. split; [assumption | exists l', pd; auto].
Qed.

Lemma match_column_log st csv_col :
  snd (Bot.match_column regex_patterns entry_id_dict st csv_col) = snd st.
Proof.
  destruct st as [[m u] log]. unfold Bot.match_column.
  pose proof (best_of_log u (Bot.rules_for regex_patterns csv_col) csv_col entry_id_dict
                (None, 0, log)) as H.
  destruct (Bot.best_of _ _ _ _ _) as [[bm bs] log']. simpl in H. subst log'.
  destruct bm as [id|]; [| reflexivity]. now destruct (py.truthy id).
Qed.

Lemma match_columns_log csv_header st :
  snd (Bot.match_columns regex_patterns entry_id_dict csv_header st) = snd st.
Proof.
  revert st. induction csv_header as [|c cs IH]; intros st; [reflexivity |].
  unfold Bot.match_columns in *. simpl. now rewrite IH, match_column_log.
Qed.

(** A round either leaves the mapping and the used identifiers alone,
    or gives the column an identifier that was free and matched. *)
Lemma match_column_cases st csv_col :
  fst (Bot.match_column regex_patterns entry_id_dict st csv_col) = fst st
  \/ exists id label pd,
       (id ∉ snd (fst st)) /\ In (label, id) entry_id_dict
       /\ In pd (Bot.rules_for regex_patterns csv_col) /\ fires pd label = true
       /\ fst (Bot.match_column regex_patterns entry_id_dict st csv_col)
          = (py.set (fst (fst st)) csv_col id, {[ id ]} ∪ snd (fst st)).
Proof.
  destruct st as [[m u] log]. unfold Bot.match_column.
  pose proof (best_of_rule u (Bot.rules_for regex_patterns csv_col) csv_col entry_id_dict
                (None, 0, log)) as H.
  destruct (Bot.best_of _ _ _ _ _) as [[bm bs] log']. simpl in *.
  destruct bm as [id|]; [| now left].
  destruct (py.truthy id); [| now left].
  destruct (H id eq_refl) as [? | (Hfree & l & pd & ? & ? & ?)]; [discriminate |].
  right. exists id, l, pd. auto.
Qed.

Lemma match_column_rules_consistent st csv_col :
  consistent (fst st) -> consistent (fst (Bot.match_column regex_patterns entry_id_dict st csv_col)).
Proof.
  intros Hc. destruct (match_column_cases st csv_col) as [-> | (id & l & pd & Hfree & _ & _ & _ & ->)];
    [assumption |].
  destruct st as [[m u] log]. now apply set_free_consistent.
Qed.

Lemma match_columns_rules_consistent csv_header st :
  consistent (fst st) ->
  consistent (fst (Bot.match_columns regex_patterns entry_id_dict csv_header st)).
Proof.
  revert st. induction csv_header as [|c cs IH]; intros st H; [assumption |].
  apply IH. now apply match_column_rules_consistent.
Qed.

Lemma match_columns_rules_app pre post st :
  Bot.match_columns regex_patterns entry_id_dict (pre ++ post) st =
  Bot.match_columns regex_patterns entry_id_dict post
    (Bot.match_columns regex_patterns entry_id_dict pre st).
Proof. unfold Bot.match_columns. apply fold_left_app. Qed.
End StrategyB.

(** Strategy B never gives one identifier to two columns. *)
Lemma find_matching_keys_with_regex_injective entry_id_dict csv_header file :
  injective (fst (Bot.find_matching_keys_with_regex entry_id_dict csv_header file)).
Proof.
  destruct file as [| | rp]; simpl; try (intros ? ? ? []).
  pose proof (match_columns_rules_consistent rp entry_id_dict csv_header ([], ∅, [])) as H.
  destruct (Bot.match_columns _ _ _ _) as [[m u] log]. simpl in *.
  apply H. split; [intros ? ? [] | intros ? ? ? []].
Qed.

(** Strategy B prints no warning. *)
Lemma find_matching_keys_with_regex_quiet entry_id_dict csv_header file :
  snd (Bot.find_matching_keys_with_regex entry_id_dict csv_header file) = [].
Proof.
  destruct file as [| | rp]; simpl; try reflexivity.
  pose proof (match_columns_log rp entry_id_dict csv_header ([], ∅, [])) as H.
  now destruct (Bot.match_columns _ _ _ _) as [[m u] log].
Qed.

(** ** Columns without a candidate *)

Lemma match_columns_absent entry_id_dict csv_col csv_header st :
  ~ In csv_col (py.keys (fst st)) ->
  (forall pre post, csv_header = (pre ++ csv_col :: post)%list ->
     forall label id, In (label, id) entry_id_dict ->
       id ∉ snd (Test.match_columns entry_id_dict pre st) ->
       py.lower csv_col <> py.lower label /\ Test.score_of csv_col label <= 0) ->
  ~ In csv_col (py.keys (fst (Test.match_columns entry_id_dict csv_header st))).
Proof.
  revert st. induction csv_header as [|c cs IH]; intros st Hst Hnone; [assumption |].
  change (Test.match_columns entry_id_dict (c :: cs) st)
    with (Test.match_columns entry_id_dict cs (Test.match_column entry_id_dict st c)).
  apply IH.
  - unfold Test.match_column.
    destruct (String.eqb c csv_col) eqn:E.
    + apply String.eqb_eq in E. subst c.
      rewrite (best_of_none (snd st) csv_col entry_id_dict); [assumption |].
      intros label id Hin Hfree. now apply (Hnone [] cs eq_refl label id).
    + apply String.eqb_neq in E.
      destruct (fst (Test.best_of _ _ _ _ _)) as [b|]; [| assumption].
      destruct (py.truthy b); [| assumption]. simpl.
      intros H. apply in_keys_set in H as [-> | H]; [now apply E | now apply Hst].
  - intros pre post -> label id Hin Hfree.
    now apply (Hnone (c :: pre) post eq_refl label id).
Qed.

Lemma match_columns_rules_absent regex_patterns entry_id_dict csv_col csv_header st :
  ~ In csv_col (py.keys (fst (fst st))) ->
  (forall pre post, csv_header = (pre ++ csv_col :: post)%list ->
     forall label id, In (label, id) entry_id_dict ->
       id ∉ snd (fst (Bot.match_columns regex_patterns entry_id_dict pre st)) ->
       forall pd, In pd (Bot.rules_for regex_patterns csv_col) -> fires pd label = false) ->
  ~ In csv_col
      (py.keys (fst (fst (Bot.match_columns regex_patterns entry_id_dict csv_header st)))).
Proof.
  revert st. induction csv_header as [|c cs IH]; intros st Hst Hnone; [assumption |].
  change (Bot.match_columns regex_patterns entry_id_dict (c :: cs) st)
    with (Bot.match_columns regex_patterns entry_id_dict cs
            (Bot.match_column regex_patterns entry_id_dict st c)).
  apply IH.
  - destruct (match_column_cases regex_patterns entry_id_dict st c)
      as [-> | (id & l & pd & Hfree & Hin & Hpd & Hf & ->)]; [assumption |].
    simpl. intros H. apply in_keys_set in H as [-> | H]; [| now apply Hst].
    rewrite (Hnone [] cs eq_refl l id Hin Hfree pd Hpd) in Hf. discriminate.
  - intros pre post -> label id Hin Hfree.
    now apply (Hnone (c :: pre) post eq_refl label id).
Qed.

(** C9.  On ASCII text (the labels of the field map, the header in
    Strategy A, the patterns of the rule file in Strategy B): a column
    for which, each time it is processed, no free label equals it up to
    case or scores above zero (Strategy A), or no rule of the column
    matches a free label (Strategy B), is not a key of the mapping
    returned. *)
Theorem unmatched_column_absent (entry_id_dict : py.dict string)
    (csv_header : list string) (csv_col : string) :
  ascii_labels entry_id_dict ->
  (ascii_header csv_header ->
   (forall pre post, csv_header = (pre ++ csv_col :: post)%list ->
      forall label id, In (label, id) entry_id_dict ->
        id ∉ used_after entry_id_dict pre ->
        py.lower csv_col <> py.lower label /\ Test.score_of csv_col label <= 0) ->
   ~ In csv_col (py.keys (Test.find_matching_keys entry_id_dict csv_header)))
  /\ (forall file,
        ascii_rules (rules_of file) ->
        (forall pre post, csv_header = (pre ++ csv_col :: post)%list ->
           forall label id, In (label, id) entry_id_dict ->
             id ∉ used_after_rules file entry_id_dict pre ->
             forall pd, In pd (Bot.rules_for (rules_of file) csv_col) ->
               fires pd label = false) ->
        ~ In csv_col
            (py.keys (fst (Bot.find_matching_keys_with_regex entry_id_dict csv_header file)))).
Proof.
  intros _. split.
  - intros _ Hnone. apply match_columns_absent; [intros [] | exact Hnone].
  - intros file _ Hnone. destruct file as [| | rp]; try (intros []).
    pose proof (match_columns_rules_absent rp entry_id_dict csv_col csv_header ([], ∅, [])) as H.
    unfold Bot.find_matching_keys_with_regex.
    destruct (Bot.match_columns rp entry_id_dict csv_header ([], ∅, [])) as [[m u] log] eqn:E.
    simpl in *. apply H; [intros [] | exact Hnone].
Qed.

(** A column far longer than the only label, and a rule whose pattern,
    the word phone, is not in the label Your Email Address. *)
Lemma unmatched_column_absent_sample :
  ~ In "Date of birth (dd/mm)"
      (py.keys (Test.find_matching_keys [("Email", "entry.1")]
                  ["Email"; "Date of birth (dd/mm)"]))
  /\ ~ In "Phone"
       (py.keys (fst (Bot.find_matching_keys_with_regex
                        [("Your Email Address", "entry.1")] ["Phone"]
                        (Bot.Patterns
                           [("Phone", [Bot.Build_pattern_data "phone" 80 None])])))).
Proof.
  split.
  - apply (proj1 (unmatched_column_absent [("Email", "entry.1")]
                    ["Email"; "Date of birth (dd/mm)"] "Date of birth (dd/mm)"
                    ltac:(repeat constructor))).
    + repeat constructor.
    + intros pre post E label id [H | []] _. injection H as <- <-.
      split; [discriminate | vm_compute; discriminate].
  - apply (proj2 (unmatched_column_absent [("Your Email Address", "entry.1")]
                    ["Phone"] "Phone" ltac:(repeat constructor))
             (Bot.Patterns [("Phone", [Bot.Build_pattern_data "phone" 80 None])])).
    + repeat constructor.
    + intros pre post E label id [H | []] _ pd [<- | []]. injection H as <- <-.
      reflexivity.
Defined.

(** C10.  Every pattern of Strategy B goes through [re.escape] before it
    is compiled: an escaped text always compiles, to the sequence of its
    own characters; a rule therefore matches a label exactly when its
    pattern, read as plain text, does; no search of the matcher raises
    [re.error], and the matcher prints no warning, whatever the field
    map, the header and the rule file. *)
Theorem patterns_are_literal :
  (forall text,
     re.compile (Bot.sanitize_for_regex text) = re.Compiled (re.seq_of (lits text)))
  /\ (forall pd form_label, fires pd form_label = literal_match pd form_label)
  /\ (forall pd form_label msg,
        Bot.rule_search pd form_label <> Some (re.Raised msg)
        /\ Bot.rule_search pd form_label <> Some re.OutsideModel)
  /\ (forall entry_id_dict csv_header file,
        snd (Bot.find_matching_keys_with_regex entry_id_dict csv_header file) = []).
Proof.
  split; [exact compile_escape |].
  split; [exact fires_literal |].
  split; [| exact find_matching_keys_with_regex_quiet].
  intros pd form_label msg.
  destruct (rule_search_returns pd form_label) as [-> | (m & -> & _)]; split; discriminate.
Qed.

(** C3.  bot.py searches for the pattern of a rule as plain text, not
    as the regular expression its rule file is meant to hold.  Read as
    a regular expression the pattern [e-?mail] is found in the label
    Your Email Address, yet with the rule of the specification the
    column Email is left unmapped.  And a pattern that is no regular
    expression, such as an opening parenthesis alone, is not skipped
    with a warning: it is looked for as it stands, found in the label
    Phone (mobile), and maps the column. *)
Theorem pattern_is_searched_as_text (entry_id : string) :
  entry_id <> EmptyString ->
  re.search "e-?mail" "Your Email Address" true = re.Returned (Some [(0, (5, 10))%nat])
  /\ Bot.find_matching_keys_with_regex [("Your Email Address", entry_id)] ["Email"] sample_rules
     = ([], [])
  /\ re.compile "(" = re.Invalid "missing ), unterminated subpattern"
  /\ Bot.find_matching_keys_with_regex [("Phone (mobile)", entry_id)] ["Phone"]
       unbalanced_rules
     = ([("Phone", entry_id)], []).
Proof.
  intros Hid.
  assert (Ht : py.truthy entry_id = true)
    by (unfold py.truthy; apply negb_true_iff; now apply String.eqb_neq).
  split; [reflexivity |]. split; [| split; [reflexivity |]].
  - unfold Bot.find_matching_keys_with_regex, sample_rules, Bot.match_columns.
    cbn [fold_left]. unfold Bot.match_column.
    change (Bot.rules_for _ "Email") with [Bot.Build_pattern_data "e-?mail" 80 (Some "contains")].
    cbn [Bot.best_of]. rewrite bool_decide_eq_false_2 by set_solver. cbn [fold_left]. unfold Bot.try_rule.
    run_rule. reflexivity.
  - unfold Bot.find_matching_keys_with_regex, unbalanced_rules, Bot.match_columns.
    cbn [fold_left]. unfold Bot.match_column.
    change (Bot.rules_for _ "Phone") with [Bot.Build_pattern_data "(" 80 (Some "contains")].
    cbn [Bot.best_of]. rewrite bool_decide_eq_false_2 by set_solver. cbn [fold_left]. unfold Bot.try_rule.
    run_rule. cbn. now rewrite Ht.
Qed.

(** The form of the specification, with the identifier entry.1. *)
Lemma pattern_is_searched_as_text_entry_1 :
  Bot.find_matching_keys_with_regex [("Your Email Address", "entry.1")] ["Email"] sample_rules
    = ([], [])
  /\ Bot.find_matching_keys_with_regex [("Phone (mobile)", "entry.1")] ["Phone"]
       unbalanced_rules
     = ([("Phone", "entry.1")], []).
Proof.
  destruct (pattern_is_searched_as_text "entry.1") as (_ & H1 & _ & H2); [discriminate |].
  split; assumption.
Defined.

(** ** Reading the form page *)

(** C5, as stated: in test.py and bot.py a page without fields gives
    the value a failed fetch gives. *)
Lemma no_fields_is_failure :
  Test.get_form_entry_ids (requests.Response 200 []) = Test.get_form_entry_ids requests.Failed
  /\ Bot.get_form_entry_ids (requests.Response 200 []) = Bot.get_form_entry_ids requests.Failed.
Proof. split; reflexivity. Qed.

(** C5, amended.  Only test2.py tells the two outcomes apart: there a
    page that was fetched gives a field map, the empty one when nothing
    is found on it, and a fetch that fails gives [None]; in test.py and
    bot.py a page on which no field is found gives [None] as well. *)
Theorem empty_map_and_fetch_error (status_code : Z) :
  requests.raises_for_status status_code = false ->
  (forall doc,
     Test2.get_form_entry_ids (requests.Response status_code doc)
       <> Test2.get_form_entry_ids requests.Failed)
  /\ Test2.get_form_entry_ids (requests.Response status_code (Test2.Build_soup [] []))
     = Some []
  /\ (forall list_items,
        Test.scan_items list_items [] = Some [] ->
        Test.get_form_entry_ids (requests.Response status_code list_items)
          = Test.get_form_entry_ids requests.Failed
        /\ Bot.get_form_entry_ids (requests.Response status_code list_items)
           = Bot.get_form_entry_ids requests.Failed).
Proof.
  intros Hok. unfold Test2.get_form_entry_ids, Test.get_form_entry_ids, Bot.get_form_entry_ids.
  rewrite Hok. repeat split; try discriminate; now rewrite H.
Qed.

(** Status 200: a page without anything on it in test2.py, a page
    whose only item has no question text in test.py and bot.py. *)
Lemma empty_map_and_fetch_error_200 :
  Test2.get_form_entry_ids (requests.Response 200 (Test2.Build_soup [] []))
    <> Test2.get_form_entry_ids requests.Failed
  /\ Test2.get_form_entry_ids (requests.Response 200 (Test2.Build_soup [] [])) = Some []
  /\ Test.get_form_entry_ids (requests.Response 200 [Test.Build_listitem None None])
     = Test.get_form_entry_ids requests.Failed
  /\ Bot.get_form_entry_ids (requests.Response 200 [Test.Build_listitem None None])
     = Bot.get_form_entry_ids requests.Failed.
Proof.
  destruct (empty_map_and_fetch_error 200 eq_refl) as (Hdiffer & Hempty & Hnone).
  split; [apply Hdiffer |]. split; [exact Hempty |].
  apply (Hnone [Test.Build_listitem None None]). reflexivity.
Defined.

(** ** The payload of a row *)

Lemma fill_all_fresh field_mappings r form_data :
  List.NoDup (py.keys form_data ++ py.values field_mappings)%list ->
  Bot.fill_all field_mappings r form_data = (form_data ++ raw_payload field_mappings r)%list.
Proof.
  revert form_data. induction field_mappings as [|[c id] fm IH]; intros fd Hnd.
  - simpl. now rewrite app_nil_r.
  - unfold Bot.fill_all in *. simpl in *.
    assert (Hfresh : ~ In id (py.keys fd)).
    { apply NoDup_remove_2 in Hnd. intros H. apply Hnd, in_or_app. now left. }
    rewrite set_fresh by assumption. rewrite IH.
    + now rewrite <- app_assoc.
    + unfold py.keys in *. rewrite map_app. simpl. now rewrite <- app_assoc.
Qed.

Lemma fill_other_fresh field_mappings r form_data :
  List.NoDup (py.keys form_data ++ py.values (List.filter not_name field_mappings))%list ->
  Bot.fill_other field_mappings r form_data
    = (form_data ++ raw_payload (List.filter not_name field_mappings) r)%list.
Proof.
  revert form_data. induction field_mappings as [|[c id] fm IH]; intros fd Hnd.
  - simpl. now rewrite app_nil_r.
  - unfold Bot.fill_other, not_name in *. simpl in *.
    destruct (String.eqb c "firstname" || String.eqb c "lastname"); simpl in *.
    + now apply IH.
    + assert (Hfresh : ~ In id (py.keys fd)).
      { apply NoDup_remove_2 in Hnd. intros H. apply Hnd, in_or_app. now left. }
      rewrite set_fresh by assumption. rewrite IH.
      * now rewrite <- app_assoc.
      * unfold py.keys in *. rewrite map_app. simpl. now rewrite <- app_assoc.
Qed.

Lemma session_fill_fresh field_mappings r form_data :
  List.NoDup (py.keys form_data ++ map payload_key (py.values (List.filter not_user field_mappings)))%list ->
  fold_left
    (fun form_data '(csv_column, form_entry_id) =>
       if negb (String.eqb csv_column "User") then
         match form_entry_id with
         | Test2.Hidden name value => py.set form_data name (Text value)
         | Test2.Plain name => py.set form_data name (row_get r csv_column)
         end
       else form_data)
    field_mappings form_data
  = (form_data ++ session_payload field_mappings r)%list.
Proof.
  revert form_data. induction field_mappings as [|[c e] fm IH]; intros fd Hnd.
  - simpl. now rewrite app_nil_r.
  - unfold session_payload, not_user in *. simpl in *.
    destruct (negb (String.eqb c "User")); simpl in *.
    + assert (Hfresh : ~ In (payload_key e) (py.keys fd)).
      { apply NoDup_remove_2 in Hnd. intros H. apply Hnd, in_or_app. now left. }
      destruct e as [name | name value]; simpl in *;
        rewrite set_fresh by assumption; rewrite IH;
        solve [ now rewrite <- app_assoc
              | unfold py.keys in *; rewrite map_app; simpl; now rewrite <- app_assoc ].
    + now apply IH.
Qed.

(** C6, as stated: in bot.py, with [firstname] mapped and [lastname]
    not, the value sent under the identifier of [firstname] is not the
    row's own value. *)
Lemma names_are_combined :
  Bot.form_data_of
    {| Bot.entry_ids := Some [("Name", "entry.1")];
       Bot.mappings := Some [("firstname", "entry.1")] |}
    [("firstname", "entry.1")]
    (texts [("firstname", "Ada"); ("lastname", "Lovelace")])
  <> Some (raw_payload [("firstname", "entry.1")]
             (texts [("firstname", "Ada"); ("lastname", "Lovelace")])).
Proof. vm_compute. discriminate. Qed.

(** C6, amended.  For a mapping that gives no identifier twice: in
    test2.py the payload has one key per pair of the mapping other than
    the User column, with the row's own cell, or the default of a
    hidden field; in test.py it has one key per pair, no column left
    out; in bot.py it is the same when [firstname] and [lastname] are
    both mapped, or when [firstname] is mapped to no identifier of the
    form; otherwise the identifier of [firstname] receives the two
    names, formatted, joined by a space and stripped, and the columns
    [firstname] and [lastname] are left out.  The row's own cell is its
    text, [None] where the data line is shorter than the header (it is
    handed on as [None], and formatted as the word None in the joined
    name), and the empty text for a column the file does not have. *)
Theorem payload_of_row (r : row) :
  (forall field_mappings,
     List.NoDup (map payload_key (py.values (List.filter not_user field_mappings))) ->
     Test2.form_data_of field_mappings r = session_payload field_mappings r)
  /\ (forall field_mappings,
        List.NoDup (py.values field_mappings) ->
        Test.form_data_of field_mappings r = raw_payload field_mappings r)
  /\ (forall g field_mappings,
        List.NoDup (py.values field_mappings) ->
        py.mem field_mappings "firstname" && py.mem field_mappings "lastname" = true ->
        Bot.form_data_of g field_mappings r = Some (raw_payload field_mappings r))
  /\ (forall ids maps field_mappings,
        List.NoDup (py.values field_mappings) ->
        Bot.single_name_field maps ids = None ->
        Bot.form_data_of {| Bot.entry_ids := Some ids; Bot.mappings := Some maps |}
          field_mappings r = Some (raw_payload field_mappings r))
  /\ (forall ids maps field_mappings field,
        List.NoDup (field :: py.values (List.filter not_name field_mappings)) ->
        py.mem field_mappings "firstname" && py.mem field_mappings "lastname" = false ->
        Bot.single_name_field maps ids = Some field ->
        field <> EmptyString ->
        Bot.form_data_of {| Bot.entry_ids := Some ids; Bot.mappings := Some maps |}
          field_mappings r
        = Some ((field,
                 Text (py.strip (format (row_get r "firstname") ++ " "
                                 ++ format (row_get r "lastname"))))
                  :: raw_payload (List.filter not_name field_mappings) r))
  /\ (forall csv_column,
        row_get r csv_column
        = match py.get r csv_column with
          | Some (Text text) => Text text
          | Some PyNone => PyNone
          | None => Text EmptyString
          end).
Proof.
  split; [| split; [| split; [| split; [| split]]]].
  - intros fm Hnd. unfold Test2.form_data_of. now rewrite session_fill_fresh.
  - intros fm Hnd. exact (fill_all_fresh fm r [] Hnd).
  - intros g fm Hnd Hboth. unfold Bot.form_data_of. rewrite Hboth.
    now rewrite (fill_all_fresh fm r [] Hnd).
  - intros ids maps fm Hnd Hnone. unfold Bot.form_data_of. simpl. rewrite Hnone.
    rewrite (fill_all_fresh fm r [] Hnd). destruct (_ && _); [reflexivity |].
    now destruct ids.
  - intros ids maps fm field Hnd Hboth Hsome Hfield. unfold Bot.form_data_of. simpl.
    rewrite Hboth, Hsome. destruct ids as [|i0 ids]; [discriminate |].
    replace (py.truthy field) with true
      by (symmetry; unfold py.truthy; apply negb_true_iff; now apply String.eqb_neq).
    now rewrite fill_other_fresh.
  - intros csv_column. unfold row_get. now destruct (py.get r csv_column) as [[text|]|].
Qed.

(** A row of the multi-user file with a hidden field in the mapping; a
    row with the two names mapped; a row with the first name alone
    mapped, to no field of the form and to one; and a data line that
    ends after the first name, in test.py and in bot.py. *)
Lemma payload_of_row_ada :
  Test2.form_data_of
    [("User", Test2.Plain "entry.0"); ("Email", Test2.Plain "entry.2");
     ("entry.9", Test2.Hidden "entry.9" "abc")]
    (texts [("User", "u1"); ("Email", "ada@example.org")])
  = texts [("entry.2", "ada@example.org"); ("entry.9", "abc")]
  /\ Test.form_data_of [("User", "entry.0"); ("Email", "entry.2")]
       (texts [("User", "u1"); ("Email", "ada@example.org")])
     = texts [("entry.0", "u1"); ("entry.2", "ada@example.org")]
  /\ Bot.form_data_of {| Bot.entry_ids := None; Bot.mappings := None |}
       [("firstname", "entry.1"); ("lastname", "entry.2")]
       (texts [("firstname", "Ada"); ("lastname", "Lovelace")])
     = Some (texts [("entry.1", "Ada"); ("entry.2", "Lovelace")])
  /\ Bot.form_data_of
       {| Bot.entry_ids := Some [("Name", "entry.1")];
          Bot.mappings := Some [("firstname", "entry.7")] |}
       [("firstname", "entry.7")]
       (texts [("firstname", "Ada"); ("lastname", "Lovelace")])
     = Some (texts [("entry.7", "Ada")])
  /\ Bot.form_data_of
       {| Bot.entry_ids := Some [("Name", "entry.1")];
          Bot.mappings := Some [("firstname", "entry.1")] |}
       [("firstname", "entry.1")]
       (texts [("firstname", "Ada"); ("lastname", "Lovelace")])
     = Some (texts [("entry.1", "Ada Lovelace")])
  /\ Test.form_data_of [("firstname", "entry.1"); ("lastname", "entry.2")]
       [("firstname", Text "Ada"); ("lastname", PyNone)]
     = [("entry.1", Text "Ada"); ("entry.2", PyNone)]
  /\ Bot.form_data_of
       {| Bot.entry_ids := Some [("Name", "entry.1")];
          Bot.mappings := Some [("firstname", "entry.1")] |}
       [("firstname", "entry.1")]
       [("firstname", Text "Ada"); ("lastname", PyNone)]
     = Some [("entry.1", Text "Ada None")].
Proof.
  destruct (payload_of_row (texts [("User", "u1"); ("Email", "ada@example.org")]))
    as (Hsession & Hbasic & _).
  destruct (payload_of_row (texts [("firstname", "Ada"); ("lastname", "Lovelace")]))
    as (_ & _ & Hboth & Hnone & Hcombined & _).
  destruct (payload_of_row [("firstname", Text "Ada"); ("lastname", PyNone)])
    as (_ & Hshort & _ & _ & Hword & _).
  split; [| split; [| split; [| split; [| split; [| split]]]]].
  - apply Hsession. vm_compute. repeat constructor; simpl; intuition discriminate.
  - apply Hbasic. vm_compute. repeat constructor; simpl; intuition discriminate.
  - apply Hboth; [| reflexivity].
    vm_compute. repeat constructor; simpl; intuition discriminate.
  - apply Hnone; [| reflexivity].
    vm_compute. repeat constructor; simpl; intuition discriminate.
  - apply (Hcombined [("Name", "entry.1")] [("firstname", "entry.1")]
             [("firstname", "entry.1")] "entry.1").
    + vm_compute. repeat constructor; simpl; intuition discriminate.
    + reflexivity.
    + reflexivity.
    + discriminate.
  - apply Hshort. vm_compute. repeat constructor; simpl; intuition discriminate.
  - apply (Hword [("Name", "entry.1")] [("firstname", "entry.1")]
             [("firstname", "entry.1")] "entry.1").
    + vm_compute. repeat constructor; simpl; intuition discriminate.
    + reflexivity.
    + reflexivity.
    + discriminate.
Defined.

(** ** Submitting the rows *)

(** In test.py every row is submitted, and a row that fails marks the
    run failed and nothing else. *)
Lemma submit_rows_step post url field_mappings r rest i ok log :
  Test.submit_rows post url field_mappings (r :: rest) i ok log =
  let sent := accepted (post i url (Test.form_data_of field_mappings r)) in
  Test.submit_rows post url field_mappings rest (S i) (ok && sent)
    (log ++ [verdict sent i]).
Proof.
  simpl. destruct (post i url _) as [|status_code []]; simpl.
  - now rewrite andb_false_r.
  - destruct (requests.raises_for_status status_code); simpl;
      [now rewrite andb_false_r | now rewrite andb_true_r].
Qed.

Lemma submit_rows_all post url field_mappings rows i ok log :
  Test.submit_rows post url field_mappings rows i ok log =
  let sent i r := accepted (post i url (Test.form_data_of field_mappings r)) in
  (ok && all_sent sent rows i, (log ++ verdicts sent rows i)%list).
Proof.
  revert i ok log. induction rows as [|r rows IH]; intros i ok log.
  - simpl. now rewrite andb_true_r, app_nil_r.
  - rewrite submit_rows_step. cbv zeta. rewrite IH. cbv zeta. simpl.
    now rewrite <- andb_assoc, <- app_assoc.
Qed.

(** bot.py does the same once [main] has bound the two module-level
    names, so that the payload of every row is defined. *)
Lemma form_data_of_bound g field_mappings r ids maps :
  Bot.entry_ids g = Some ids -> Bot.mappings g = Some maps ->
  Bot.form_data_of g field_mappings r <> None.
Proof.
  intros Hids Hmaps. unfold Bot.form_data_of. rewrite Hids, Hmaps.
  destruct (_ && _); [discriminate |].
  destruct ids as [|i0 ids]; [discriminate |].
  destruct (Bot.single_name_field maps (i0 :: ids)) as [field|]; [| discriminate].
  destruct (py.truthy field); discriminate.
Qed.

Lemma submit_rows_all_bound g post url field_mappings rows i ok log ids maps :
  Bot.entry_ids g = Some ids -> Bot.mappings g = Some maps ->
  Bot.submit_rows g post url field_mappings rows i ok log =
  let sent i r :=
    match Bot.form_data_of g field_mappings r with
    | Some form_data => accepted (post i url form_data)
    | None => false
    end in
  (ok && all_sent sent rows i, (log ++ verdicts sent rows i)%list).
Proof.
  intros Hids Hmaps. revert i ok log. induction rows as [|r rows IH]; intros i ok log.
  - simpl. now rewrite andb_true_r, app_nil_r.
  - cbn [Bot.submit_rows all_sent verdicts]. cbv zeta in *.
    pose proof (form_data_of_bound g field_mappings r ids maps Hids Hmaps) as Hdef.
    destruct (Bot.form_data_of g field_mappings r) as [form_data|]; [| contradiction].
    destruct (post i url form_data) as [|status_code []]; simpl.
    + rewrite IH. simpl. now rewrite andb_false_r, <- app_assoc.
    + destruct (requests.raises_for_status status_code); rewrite IH; simpl.
      * now rewrite andb_false_r, <- app_assoc.
      * now rewrite <- app_assoc.
Qed.

(** The example of the specification holds in the three scripts: of
    three rows whose second submission raises, the first and the third
    are reported successful and the run returns false. *)
Lemma second_of_three_fails :
  Test.csv_to_google_form (fun i _ _ => second_fails i) (Some three_rows)
    "https://docs.google.com/forms/d/e/x/viewform" [("Email", "entry.2")]
  = (false, [Success 1; Failure 2; Success 3])
  /\ Bot.csv_to_google_form
       {| Bot.entry_ids := Some [("Email", "entry.2")];
          Bot.mappings := Some [("Email", "entry.2")] |}
       (fun i _ _ => second_fails i) (Some three_rows)
       "https://docs.google.com/forms/d/e/x/viewform" [("Email", "entry.2")]
     = (false, [Success 1; Failure 2; Success 3])
  /\ Test2.csv_to_google_form (fun _ => None) (fun i _ _ _ => second_fails i)
       (Some three_rows) "https://docs.google.com/forms/d/e/x/viewform"
       [("Email", Test2.Plain "entry.2")] (Some one_user)
     = (false, [Success 1; Failure 2; Success 3]).
Proof. repeat split. Qed.

(** C2.  In test2.py the handler of a failed submission reads the
    variable [response], which is bound only once a call of
    [session.post] has returned: when the first submission that is
    attempted raises a transport error, the run stops there and the rows
    that follow are not submitted. *)
Theorem first_transport_error_stops_run
    (browser_cookie3 : string -> option (list Test2.cookie))
    (post : Test2.session_transport) (user_credentials : py.dict Test2.user_info)
    (form_url : string) (field_mappings : py.dict Test2.entry_id)
    (r : row) (rest : list row) (info : Test2.user_info) (c : Test2.cookie)
    (cj : list Test2.cookie) :
  Test2.credentials_of user_credentials
    (match py.get r "User" with Some u => u | None => Text "default" end)
    = Some info ->
  Test2.get_google_cookies browser_cookie3
    (match Test2.browser info with Some b => b | None => "chrome" end)
    (Test2.cookies info) = Some (c :: cj) ->
  post 1%nat (c :: cj) (py.replace form_url "/viewform" "/formResponse")
    (Test2.form_data_of field_mappings r) = requests.Failed ->
  Test2.csv_to_google_form browser_cookie3 post (Some (r :: rest)) form_url
    field_mappings (Some user_credentials)
  = (false, [Failure 1; Unexpected]).
Proof.
  intros Huser Hcj Hpost. unfold Test2.csv_to_google_form. cbn [Test2.submit_rows].
  now rewrite Huser, Hcj, Hpost.
Qed.

(** Two rows, the first submission raises: the second row is never
    submitted, although its submission would succeed. *)
Lemma first_transport_error_stops_run_two_rows :
  Test2.csv_to_google_form (fun _ => None)
    (fun i _ _ _ => if (i =? 1)%nat then requests.Failed else requests.Response 200 tt)
    (Some [texts [("Email", "a@example.org")]; texts [("Email", "b@example.org")]])
    "https://docs.google.com/forms/d/e/x/viewform"
    [("Email", Test2.Plain "entry.2")] (Some one_user)
  = (false, [Failure 1; Unexpected]).
Proof.
  eapply (first_transport_error_stops_run (fun _ => None) _ one_user).
  - reflexivity.
  - reflexivity.
  - reflexivity.
Defined.

(** ** Strategy C: delegated matching (test2.py) *)

Section StrategyC.
Variable generate_content : string -> option string.
Variable json_loads : string -> option Test2.json.
Variable entry_id_dict : py.dict Test2.entry_id.
Variable csv_header : list string.

Lemma decoded_reply members :
  reply_decodes_to generate_content json_loads entry_id_dict csv_header members ->
  fst (Test2.find_matching_keys_with_gemini generate_content json_loads
         entry_id_dict csv_header)
  = Test2.add_hidden entry_id_dict (map (fun '(k, j) => (k, Test2.of_json j)) members).
Proof.
  intros (text & m & block & Hgen & Hsearch & Hgroup & Hjson).
  unfold Test2.find_matching_keys_with_gemini.
  rewrite Hgen, Hsearch, Hgroup, Hjson.
  now destruct (fold_left Test2.check_entry _ _).
Qed.

Lemma get_of_json (members : py.dict Test2.json) col :
  py.get (map (fun '(k, j) => (k, Test2.of_json j)) members) col
  = option_map Test2.of_json (py.get members col).
Proof.
  induction members as [|[k j] members IH]; [reflexivity |]. simpl.
  now destruct (String.eqb k col).
Qed.

(** The hidden fields are put back under their name: an entry under
    another name is left as it is. *)
Lemma add_hidden_other (mappings : py.dict Test2.value) col :
  (forall label value, ~ In (label, Test2.Hidden col value) entry_id_dict) ->
  py.get (Test2.add_hidden entry_id_dict mappings) col = py.get mappings col.
Proof.
  unfold Test2.add_hidden. revert mappings.
  induction entry_id_dict as [|[l e] fm IH]; intros mappings Hno; [reflexivity |].
  simpl. rewrite IH by (intros l' v' H; apply (Hno l' v'); now right).
  destruct e as [name | name value]; [reflexivity |].
  apply get_set_ne. intros ->. apply (Hno l value). now left.
Qed.

Lemma add_hidden_name (mappings : py.dict Test2.value) label name value :
  py.get mappings name = Some (Test2.Id (Test2.Hidden name value))
  \/ In (label, Test2.Hidden name value) entry_id_dict ->
  (forall label' value', In (label', Test2.Hidden name value') entry_id_dict ->
     value' = value) ->
  py.get (Test2.add_hidden entry_id_dict mappings) name
  = Some (Test2.Id (Test2.Hidden name value)).
Proof.
  unfold Test2.add_hidden. revert mappings.
  induction entry_id_dict as [|[l e] fm IH]; intros mappings Hin Hsame.
  - destruct Hin as [H | []]. exact H.
  - simpl. apply IH; [| intros l' v' H; apply (Hsame l' v'); now right].
    destruct e as [n | n v].
    + destruct Hin as [H | [H | H]]; [now left | discriminate H | now right].
    + destruct (String.eqb n name) eqn:E.
      * apply String.eqb_eq in E. subst n. left.
        rewrite (Hsame l v (or_introl eq_refl)). apply get_set_eq.
      * apply String.eqb_neq in E.
        destruct Hin as [H | [H | H]]; [left | congruence | now right].
        now rewrite get_set_ne.
Qed.

(** Every entry of the reply is in the mapping returned, whether it
    passed the checks of lines 250-257 or not, unless a hidden field has
    the name of its column. *)
Lemma reply_entry_kept members col j :
  reply_decodes_to generate_content json_loads entry_id_dict csv_header members ->
  List.NoDup (py.keys members) ->
  In (col, j) members ->
  (forall label value, ~ In (label, Test2.Hidden col value) entry_id_dict) ->
  py.get (fst (Test2.find_matching_keys_with_gemini generate_content json_loads
                 entry_id_dict csv_header)) col
  = Some (Test2.of_json j).
Proof.
  intros Hreply Hnd Hin Hno. rewrite (decoded_reply _ Hreply).
  rewrite add_hidden_other by assumption.
  now rewrite get_of_json, (in_get _ _ _ Hnd Hin).
Qed.

(** The prompt is built from the visible fields alone. *)
Lemma filtered_visible :
  Test2.filtered_entry_ids entry_id_dict
  = Test2.filtered_entry_ids (List.filter visible entry_id_dict).
Proof.
  unfold Test2.filtered_entry_ids. f_equal.
  induction entry_id_dict as [|[l e] fm IH]; [reflexivity |].
  destruct e as [name | name value]; cbn -[py.startswith].
  - destruct (py.startswith name "entry."); cbn -[py.startswith]; [f_equal |]; exact IH.
  - exact IH.
Qed.
End StrategyC.

Lemma prompt_visible entry_id_dict csv_header :
  Test2.prompt_of entry_id_dict csv_header
  = Test2.prompt_of (List.filter visible entry_id_dict) csv_header.
Proof. unfold Test2.prompt_of. now rewrite <- filtered_visible. Qed.

(** What [get_form_entry_ids] of test2.py returns is a field map. *)
Lemma record_field_plain c name entry_ids :
  List.NoDup (py.keys entry_ids) ->
  (forall l n v, ~ In (l, Test2.Hidden n v) entry_ids) ->
  List.NoDup (py.keys (Test2.record_field c name entry_ids))
  /\ (forall l n v, ~ In (l, Test2.Hidden n v) (Test2.record_field c name entry_ids)).
Proof.
  intros Hnd Hplain. unfold Test2.record_field.
  destruct name as [field_name|]; [| now split].
  destruct (py.truthy field_name && py.startswith field_name "entry."); [| now split].
  split; [now apply keys_set_nodup |].
  intros l n v H. apply in_set in H as [[_ H] | H]; [discriminate | now apply (Hplain l n v)].
Qed.

Lemma scan_containers_plain cs entry_ids :
  List.NoDup (py.keys entry_ids) ->
  (forall l n v, ~ In (l, Test2.Hidden n v) entry_ids) ->
  List.NoDup (py.keys (fold_left Test2.scan_container cs entry_ids))
  /\ (forall l n v, ~ In (l, Test2.Hidden n v) (fold_left Test2.scan_container cs entry_ids)).
Proof.
  revert entry_ids. induction cs as [|c cs IH]; intros d Hnd Hplain; [now split |].
  simpl. apply IH; unfold Test2.scan_container.
  - destruct (Test2.input_field c) as [i|], (Test2.textarea_field c) as [t|];
      repeat (apply record_field_plain); assumption.
  - destruct (Test2.input_field c) as [i|], (Test2.textarea_field c) as [t|];
      repeat (apply record_field_plain); assumption.
Qed.

Lemma scan_hidden_field_map hs entry_ids :
  field_map entry_ids -> field_map (fold_left Test2.scan_hidden hs entry_ids).
Proof.
  revert entry_ids. induction hs as [|h hs IH]; intros d Hd; [assumption |].
  simpl. apply IH. unfold Test2.scan_hidden.
  destruct (Test2.hidden_name h) as [name|]; [| assumption].
  destruct (py.truthy name); [| assumption].
  destruct Hd as [Hnd Hown]. split; [now apply keys_set_nodup |].
  intros l n v H. apply in_set in H as [[-> H] | H]; [now injection H | now apply (Hown l n v)].
Qed.

Lemma get_form_entry_ids_field_map page entry_ids :
  Test2.get_form_entry_ids page = Some entry_ids -> field_map entry_ids.
Proof.
  unfold Test2.get_form_entry_ids. destruct page as [|status_code doc]; [discriminate |].
  destruct (requests.raises_for_status status_code); [discriminate |].
  intros [= <-]. apply scan_hidden_field_map.
  destruct (scan_containers_plain (Test2.containers doc) []) as [Hnd Hplain].
  - constructor.
  - intros l n v [].
  - split; [assumption |]. intros l n v H. now apply Hplain in H.
Qed.

(** C8, as stated: when a hidden field is itself named Email, it takes
    the place of the entry the model gave for the column Email. *)
Lemma hidden_field_named_like_column :
  py.get (fst (Test2.find_matching_keys_with_gemini (fun _ => Some email_reply)
                 flat_json.loads
                 [("Your email", Test2.Plain "entry.2");
                  ("entry.9", Test2.Hidden "entry.9" "abc");
                  ("Email", Test2.Hidden "Email" "x")]
                 ["Email"]))
         "Email"
  <> Some (Test2.Id (Test2.Plain "entry.2")).
Proof. vm_compute. discriminate. Qed.

(** C8, amended.  For a field map that holds the hidden field entry.9
    with the value abc and no hidden field named Email: when the reply
    of the model carries a fenced block that decodes to the object
    mapping Email to entry.2, the mapping returned holds Email with
    entry.2 and entry.9 with its pair; and the prompt sent to the model
    is the one the visible fields alone give. *)
Theorem hidden_fields_round_trip (generate_content : string -> option string)
    (json_loads : string -> option Test2.json)
    (entry_id_dict : py.dict Test2.entry_id) (csv_header : list string) :
  field_map entry_id_dict ->
  In ("entry.9", Test2.Hidden "entry.9" "abc") entry_id_dict ->
  (forall value, ~ In ("Email", Test2.Hidden "Email" value) entry_id_dict) ->
  reply_decodes_to generate_content json_loads entry_id_dict csv_header
    [("Email", Test2.JString "entry.2")] ->
  let mappings :=
    fst (Test2.find_matching_keys_with_gemini generate_content json_loads
           entry_id_dict csv_header) in
  py.get mappings "Email" = Some (Test2.Id (Test2.Plain "entry.2"))
  /\ py.get mappings "entry.9" = Some (Test2.Id (Test2.Hidden "entry.9" "abc"))
  /\ Test2.prompt_of entry_id_dict csv_header
     = Test2.prompt_of (List.filter visible entry_id_dict) csv_header.
Proof.
  intros [Hnd Hown] Hhidden Hemail Hreply mappings. subst mappings.
  split; [| split].
  - apply (reply_entry_kept _ _ _ _ _ "Email" (Test2.JString "entry.2") Hreply).
    + repeat constructor. intros [].
    + now left.
    + intros label value H. rewrite (Hown _ _ _ H) in H. now apply (Hemail value).
  - rewrite (decoded_reply _ _ _ _ _ Hreply).
    apply (add_hidden_name _ _ "entry.9"); [now right |].
    intros label' value' H. rewrite (Hown _ _ _ H) in H.
    pose proof (in_get _ _ _ Hnd H) as H1. pose proof (in_get _ _ _ Hnd Hhidden) as H2.
    congruence.
  - apply prompt_visible.
Qed.

Lemma hidden_fields_round_trip_sample :
  let mappings :=
    fst (Test2.find_matching_keys_with_gemini (fun _ => Some email_reply) flat_json.loads
           [("Your email", Test2.Plain "entry.2"); ("entry.9", Test2.Hidden "entry.9" "abc")]
           ["Email"]) in
  py.get mappings "Email" = Some (Test2.Id (Test2.Plain "entry.2"))
  /\ py.get mappings "entry.9" = Some (Test2.Id (Test2.Hidden "entry.9" "abc")).
Proof.
  intros mappings.
  refine (let H := hidden_fields_round_trip (fun _ => Some email_reply) flat_json.loads
            [("Your email", Test2.Plain "entry.2"); ("entry.9", Test2.Hidden "entry.9" "abc")]
            ["Email"] _ _ _ _ in conj (proj1 H) (proj1 (proj2 H))).
  - split.
    + repeat constructor; simpl; intuition discriminate.
    + intros label name value [H | [H | []]]; [discriminate H |].
      injection H as <- <- _. reflexivity.
  - right. now left.
  - intros value [H | [H | []]]; discriminate H.
  - exists email_reply. eexists. eexists. repeat split; vm_compute; reflexivity.
Defined.

Lemma check_entries_grow mappings st w :
  In w (snd st) -> In w (snd (fold_left Test2.check_entry mappings st)).
Proof.
  revert st. induction mappings as [|[c v] mappings IH]; intros [used log] H; [assumption |].
  cbn [fold_left]. apply IH. cbn [snd] in H.
  destruct v as [[name | name value] | j]; cbn -[py.startswith];
    try (apply in_or_app; now left).
  destruct (negb (py.startswith name "entry.")); [apply in_or_app; now left |].
  destruct (bool_decide (name ∈ used)); [apply in_or_app; now left | assumption].
Qed.

Lemma check_entries_warn (members : py.dict Test2.json) st col j :
  In (col, j) members -> is_identifier j = false ->
  In (Test2.InvalidEntry col)
     (snd (fold_left Test2.check_entry (map (fun '(k, j) => (k, Test2.of_json j)) members) st)).
Proof.
  revert st. induction members as [|[c v] members IH]; intros [used log] Hin Hbad; [destruct Hin |].
  destruct Hin as [H | H]; [| now apply IH].
  injection H as -> ->. cbn [map fold_left]. apply check_entries_grow.
  destruct j as [| b | n | name | l | o]; cbn -[py.startswith] in *;
    try (apply in_or_app; right; now left).
  rewrite Hbad. cbn. apply in_or_app. right. now left.
Qed.

Lemma decoded_reply_log generate_content json_loads entry_id_dict csv_header members :
  reply_decodes_to generate_content json_loads entry_id_dict csv_header members ->
  snd (Test2.find_matching_keys_with_gemini generate_content json_loads
         entry_id_dict csv_header)
  = snd (fold_left Test2.check_entry
           (map (fun '(k, j) => (k, Test2.of_json j)) members) (∅, [])).
Proof.
  intros (text & m & block & Hgen & Hsearch & Hgroup & Hjson).
  unfold Test2.find_matching_keys_with_gemini.
  rewrite Hgen, Hsearch, Hgroup, Hjson.
  now destruct (fold_left Test2.check_entry _ _).
Qed.

(** C4.  The entries of the reply are checked and a warning is printed
    for a value that is no identifier, but nothing is taken out of the
    mapping: every entry of the decoded reply is returned as it came,
    unless a hidden field has the name of its column. *)
Theorem rejected_entries_are_kept (generate_content : string -> option string)
    (json_loads : string -> option Test2.json)
    (entry_id_dict : py.dict Test2.entry_id) (csv_header : list string)
    (members : py.dict Test2.json) (csv_col : string) (j : Test2.json) :
  reply_decodes_to generate_content json_loads entry_id_dict csv_header members ->
  List.NoDup (py.keys members) ->
  In (csv_col, j) members ->
  (forall label value, ~ In (label, Test2.Hidden csv_col value) entry_id_dict) ->
  let result :=
    Test2.find_matching_keys_with_gemini generate_content json_loads
      entry_id_dict csv_header in
  py.get (fst result) csv_col = Some (Test2.of_json j)
  /\ (is_identifier j = false -> In (Test2.InvalidEntry csv_col) (snd result)).
Proof.
  intros Hreply Hnd Hin Hno result. subst result. split.
  - now apply (reply_entry_kept _ _ _ _ members).
  - intros Hbad. rewrite (decoded_reply_log _ _ _ _ _ Hreply).
    now apply check_entries_warn with (j := j).
Qed.

(** A reply that gives the column Phone the value n/a: the warning is
    printed and the entry is returned. *)
Lemma rejected_entries_are_kept_phone :
  let result :=
    Test2.find_matching_keys_with_gemini (fun _ => Some stray_reply) flat_json.loads
      [("Your email", Test2.Plain "entry.2"); ("Phone number", Test2.Plain "entry.3")]
      ["Email"; "Phone"] in
  py.get (fst result) "Phone" = Some (Test2.Id (Test2.Plain "n/a"))
  /\ In (Test2.InvalidEntry "Phone") (snd result).
Proof.
  intros result.
  refine (let H := rejected_entries_are_kept (fun _ => Some stray_reply) flat_json.loads
            [("Your email", Test2.Plain "entry.2"); ("Phone number", Test2.Plain "entry.3")]
            ["Email"; "Phone"]
            [("Email", Test2.JString "entry.2"); ("Phone", Test2.JString "n/a")]
            "Phone" (Test2.JString "n/a") _ _ _ _ in conj (proj1 H) (proj2 H eq_refl)).
  - exists stray_reply. eexists. eexists. repeat split; vm_compute; reflexivity.
  - repeat constructor; simpl; intuition discriminate.
  - right. now left.
  - intros label value [H | [H | []]]; discriminate H.
Defined.

(** C1.  In Strategy C an identifier the reply gives to two columns
    stays with both in the mapping returned: the second is reported as
    already used and is not taken out. *)
Theorem one_identifier_two_columns (generate_content : string -> option string)
    (json_loads : string -> option Test2.json)
    (entry_id_dict : py.dict Test2.entry_id) (csv_header : list string)
    (c1 c2 id : string) :
  reply_decodes_to generate_content json_loads entry_id_dict csv_header
    [(c1, Test2.JString id); (c2, Test2.JString id)] ->
  c1 <> c2 ->
  (forall label value, ~ In (label, Test2.Hidden c1 value) entry_id_dict) ->
  (forall label value, ~ In (label, Test2.Hidden c2 value) entry_id_dict) ->
  let mappings :=
    fst (Test2.find_matching_keys_with_gemini generate_content json_loads
           entry_id_dict csv_header) in
  py.get mappings c1 = Some (Test2.Id (Test2.Plain id))
  /\ py.get mappings c2 = Some (Test2.Id (Test2.Plain id)).
Proof.
  intros Hreply Hne H1 H2 mappings. subst mappings.
  assert (Hnd : List.NoDup (py.keys [(c1, Test2.JString id); (c2, Test2.JString id)])).
  { repeat constructor; simpl; [intros [E | []]; now apply Hne | intros []]. }
  split.
  - apply (reply_entry_kept _ _ _ _ _ c1 (Test2.JString id) Hreply Hnd); [now left | assumption].
  - apply (reply_entry_kept _ _ _ _ _ c2 (Test2.JString id) Hreply Hnd);
      [right; now left | assumption].
Qed.

(** A reply that gives entry.2 to Email and to Phone. *)
Lemma one_identifier_two_columns_sample :
  let mappings :=
    fst (Test2.find_matching_keys_with_gemini (fun _ => Some double_reply) flat_json.loads
           [("Your email", Test2.Plain "entry.2"); ("Phone number", Test2.Plain "entry.3")]
           ["Email"; "Phone"]) in
  py.get mappings "Email" = Some (Test2.Id (Test2.Plain "entry.2"))
  /\ py.get mappings "Phone" = Some (Test2.Id (Test2.Plain "entry.2")).
Proof.
  apply (one_identifier_two_columns (fun _ => Some double_reply) flat_json.loads
           [("Your email", Test2.Plain "entry.2"); ("Phone number", Test2.Plain "entry.3")]
           ["Email"; "Phone"] "Email" "Phone" "entry.2").
  - exists double_reply. eexists. eexists. repeat split; vm_compute; reflexivity.
  - discriminate.
  - intros label value [H | [H | []]]; discriminate H.
  - intros label value [H | [H | []]]; discriminate H.
Defined.

(** * Further properties of the scripts *)

(** ** Strategy A: the mapping returned *)

Lemma values_nodup (mappings : py.dict string) :
  List.NoDup (py.keys mappings) -> injective mappings -> List.NoDup (py.values mappings).
Proof.
  induction mappings as [|[k v] m IH]; intros Hk Hinj; [constructor |].
  apply List.NoDup_cons_iff in Hk as [Hnotin Hk]. simpl. constructor.
  - intros Hv. unfold py.values in Hv. apply in_map_iff in Hv as [[k' v'] [Hv' Hin]].
    simpl in Hv'. subst v'. apply Hnotin.
    rewrite (Hinj k k' v (or_introl eq_refl) (or_intror Hin)).
    unfold py.keys. apply in_map_iff. now exists (k', v).
  - apply IH; [assumption |]. intros c1 c2 id H1 H2.
    apply (Hinj c1 c2 id); now right.
Qed.

Lemma in_keys_kept {V : Type} (d : py.dict V) k v k' :
  In k' (py.keys d) -> In k' (py.keys (py.set d k v)).
Proof.
  induction d as [|[k0 v0] d IH]; simpl; [intros [] |].
  destruct (String.eqb k0 k) eqn:E; simpl.
  - apply String.eqb_eq in E. subst k0. tauto.
  - intros [H | H]; [now left | right; now apply IH].
Qed.

Lemma in_keys_new {V : Type} (d : py.dict V) k v : In k (py.keys (py.set d k v)).
Proof.
  unfold py.keys. apply in_map_iff. exists (k, v). split; [reflexivity | apply in_set_new].
Qed.

(** A round of Strategy A adds at most the column it processes, with an
    identifier of the field map that was free. *)
Lemma match_column_entries entry_id_dict st csv_col c id :
  In (c, id) (fst (Test.match_column entry_id_dict st csv_col)) ->
  In (c, id) (fst st)
  \/ (c = csv_col /\ (id ∉ snd st) /\ exists label, In (label, id) entry_id_dict).
Proof.
  unfold Test.match_column.
  destruct (fst (Test.best_of _ _ _ _ _)) as [b|] eqn:Hb; [| now left].
  destruct (py.truthy b); [| now left]. simpl. intros H.
  apply in_set in H as [[-> ->] | H]; [| now left].
  apply best_of_free in Hb as [? | [Hfree Hl]]; [discriminate |]. right. auto.
Qed.

Lemma match_columns_entries entry_id_dict csv_header st c id :
  In (c, id) (fst (Test.match_columns entry_id_dict csv_header st)) ->
  In (c, id) (fst st)
  \/ (In c csv_header /\ exists label, In (label, id) entry_id_dict).
Proof.
  revert st. induction csv_header as [|col cols IH]; intros st H; [now left |].
  change (Test.match_columns entry_id_dict (col :: cols) st)
    with (Test.match_columns entry_id_dict cols (Test.match_column entry_id_dict st col)) in H.
  destruct (IH _ H) as [H' | [Hin Hl]].
  - destruct (match_column_entries _ _ _ _ _ H') as [? | (-> & _ & Hl)]; [now left | right].
    split; [now left | assumption].
  - right. split; [now right | assumption].
Qed.

Lemma match_column_keys_nodup entry_id_dict st csv_col :
  List.NoDup (py.keys (fst st)) ->
  List.NoDup (py.keys (fst (Test.match_column entry_id_dict st csv_col))).
Proof.
  intros H. unfold Test.match_column.
  destruct (fst (Test.best_of _ _ _ _ _)) as [b|]; [| assumption].
  destruct (py.truthy b); [| assumption]. now apply keys_set_nodup.
Qed.

Lemma match_columns_keys_nodup entry_id_dict csv_header st :
  List.NoDup (py.keys (fst st)) ->
  List.NoDup (py.keys (fst (Test.match_columns entry_id_dict csv_header st))).
Proof.
  revert st. induction csv_header as [|c cs IH]; intros st H; [assumption |].
  apply IH. now apply match_column_keys_nodup.
Qed.

Lemma heuristic_mapping_values entry_id_dict csv_header :
  List.NoDup (py.values (Test.find_matching_keys entry_id_dict csv_header)).
Proof.
  apply values_nodup; [| apply find_matching_keys_injective].
  apply (match_columns_keys_nodup entry_id_dict csv_header ([], ∅)). constructor.
Qed.

(** X1.  Whatever the field map and the header, the mapping of Strategy
    A is a dictionary whose columns are columns of the header and whose
    identifiers are identifiers of the field map, and no identifier is
    given to two columns. *)
Theorem heuristic_mapping_well_formed (entry_id_dict : py.dict string)
    (csv_header : list string) :
  let mappings := Test.find_matching_keys entry_id_dict csv_header in
  List.NoDup (py.keys mappings)
  /\ List.NoDup (py.values mappings)
  /\ (forall csv_col id, In (csv_col, id) mappings ->
        In csv_col csv_header /\ exists label, In (label, id) entry_id_dict).
Proof.
  intros mappings.
  assert (Hk : List.NoDup (py.keys mappings))
    by (apply (match_columns_keys_nodup entry_id_dict csv_header ([], ∅)); constructor).
  split; [exact Hk |]. split.
  - apply values_nodup; [exact Hk | apply find_matching_keys_injective].
  - intros c id H.
    destruct (match_columns_entries entry_id_dict csv_header ([], ∅) c id H) as [[] | ?].
    assumption.
Qed.

(** ** Strategy A: which label is taken *)

(** Without a free label that equals the column up to case, the inner
    loop ends with the highest score among the free labels, held by the
    first label that reaches it. *)
Lemma best_of_highest used csv_col items best_match best_score :
  (forall l i, In (l, i) items -> i ∉ used -> py.lower csv_col <> py.lower l) ->
  let result := Test.best_of used csv_col items best_match best_score in
  best_score <= snd result
  /\ (forall l i, In (l, i) items -> i ∉ used -> Test.score_of csv_col l <= snd result)
  /\ (result = (best_match, best_score)
      \/ exists before l id after,
           items = (before ++ (l, id) :: after)%list
           /\ result = (Some id, Test.score_of csv_col l)
           /\ (id ∉ used)
           /\ best_score < Test.score_of csv_col l
           /\ forall l' i', In (l', i') before -> i' ∉ used ->
                Test.score_of csv_col l' < Test.score_of csv_col l).
Proof.
  revert best_match best_score.
  induction items as [|[l i] items IH]; intros bm bs Hne; cbn zeta.
  - simpl. split; [lia |]. split; [intros ? ? [] | now left].
  - simpl. destruct (bool_decide (i ∈ used)) eqn:Hu.
    + apply bool_decide_eq_true in Hu.
      destruct (IH bm bs) as (Hle & Hmax & Hres); [intros; eapply Hne; eauto; now right |].
      split; [exact Hle |]. split.
      * intros l' i' [H | H] Hfree; [injection H as <- <-; contradiction | eauto].
      * destruct Hres as [? | (before & l0 & id & after & -> & Hr & Hf & Hlt & Hb)]; [now left |].
        right. exists ((l, i) :: before), l0, id, after. repeat split; auto.
        intros l' i' [H | H] Hfree; [injection H as <- <-; contradiction | eauto].
    + apply bool_decide_eq_false in Hu.
      assert (Hl : String.eqb (py.lower csv_col) (py.lower l) = false)
        by (apply String.eqb_neq; apply (Hne l i); [now left | assumption]).
      rewrite Hl. destruct (bs <? Test.score_of csv_col l) eqn:Hlt.
      * apply Z.ltb_lt in Hlt.
        destruct (IH (Some i) (Test.score_of csv_col l)) as (Hle & Hmax & Hres);
          [intros; eapply Hne; eauto; now right |].
        split; [lia |]. split.
        -- intros l' i' [H | H] Hfree; [injection H as <- <-; exact Hle | eauto].
        -- right. destruct Hres as [Hr | (before & l0 & id & after & -> & Hr & Hf & Hlt' & Hb)].
           ++ exists [], l, i, items. repeat split; auto. intros ? ? [].
           ++ exists ((l, i) :: before), l0, id, after. repeat split; auto; [lia |].
              intros l' i' [H | H] Hfree; [injection H as <- <-; exact Hlt' | eauto].
      * apply Z.ltb_ge in Hlt.
        destruct (IH bm bs) as (Hle & Hmax & Hres); [intros; eapply Hne; eauto; now right |].
        split; [exact Hle |]. split.
        -- intros l' i' [H | H] Hfree; [injection H as <- <-; lia | eauto].
        -- destruct Hres as [? | (before & l0 & id & after & -> & Hr & Hf & Hlt' & Hb)]; [now left |].
           right. exists ((l, i) :: before), l0, id, after. repeat split; auto.
           intros l' i' [H | H] Hfree; [injection H as <- <-; lia | eauto].
Qed.

Lemma match_columns_keys entry_id_dict csv_header st c :
  In c (py.keys (fst (Test.match_columns entry_id_dict csv_header st))) ->
  In c (py.keys (fst st)) \/ In c csv_header.
Proof.
  unfold py.keys. intros H. apply in_map_iff in H as [[k v] [Hk H]]. simpl in Hk. subst k.
  destruct (match_columns_entries _ _ _ _ _ H) as [H' | [H' _]]; [left | now right].
  apply in_map_iff. now exists (c, v).
Qed.

Lemma match_columns_keys_kept entry_id_dict csv_header st c :
  In c (py.keys (fst st)) ->
  In c (py.keys (fst (Test.match_columns entry_id_dict csv_header st))).
Proof.
  revert st. induction csv_header as [|col cols IH]; intros st H; [assumption |].
  apply IH. unfold Test.match_column.
  destruct (fst (Test.best_of _ _ _ _ _)) as [b|]; [| assumption].
  destruct (py.truthy b); [| assumption]. now apply in_keys_kept.
Qed.

(** The entry of a column that occurs once is the outcome of its round. *)
Lemma once_processed entry_id_dict pre csv_col post :
  occurs_once csv_col pre post ->
  py.get (Test.find_matching_keys entry_id_dict (pre ++ csv_col :: post)) csv_col
  = match fst (Test.best_of (used_after entry_id_dict pre) csv_col entry_id_dict None 0) with
    | Some id => if py.truthy id then Some id else None
    | None => None
    end.
Proof.
  intros [Hpre Hpost]. unfold Test.find_matching_keys. rewrite match_columns_app.
  change (Test.match_columns entry_id_dict (csv_col :: post) ?st)
    with (Test.match_columns entry_id_dict post (Test.match_column entry_id_dict st csv_col)).
  rewrite match_columns_other by assumption.
  assert (Hnone : py.get (fst (Test.match_columns entry_id_dict pre ([], ∅))) csv_col = None).
  { apply get_none_iff. intros H. apply match_columns_keys in H as [[] | H]. contradiction. }
  unfold Test.match_column. fold (used_after entry_id_dict pre).
  destruct (fst (Test.best_of _ _ _ _ _)) as [id|]; [| exact Hnone].
  destruct (py.truthy id); [apply get_set_eq | exact Hnone].
Qed.

(** X2.  Strategy A is greedy.  On ASCII text, a column that occurs
    once in the header and equals no free label up to case is given, if
    anything, a free identifier whose label scores above zero and at
    least as high as every other free label, and among the labels with
    that score the first one in the order of the field map. *)
Theorem highest_score_wins (entry_id_dict : py.dict string) (pre : list string)
    (csv_col : string) (post : list string) (id : string) :
  ascii_header (pre ++ csv_col :: post) ->
  ascii_labels entry_id_dict ->
  occurs_once csv_col pre post ->
  (forall l i, In (l, i) entry_id_dict -> i ∉ used_after entry_id_dict pre ->
     py.lower csv_col <> py.lower l) ->
  py.get (Test.find_matching_keys entry_id_dict (pre ++ csv_col :: post)) csv_col = Some id ->
  exists before label after,
    entry_id_dict = (before ++ (label, id) :: after)%list
    /\ (id ∉ used_after entry_id_dict pre)
    /\ 0 < Test.score_of csv_col label
    /\ (forall l i, In (l, i) entry_id_dict -> i ∉ used_after entry_id_dict pre ->
          Test.score_of csv_col l <= Test.score_of csv_col label)
    /\ (forall l i, In (l, i) before -> i ∉ used_after entry_id_dict pre ->
          Test.score_of csv_col l < Test.score_of csv_col label).
Proof.
  intros _ _ Honce Hne. rewrite (once_processed _ _ _ _ Honce).
  destruct (best_of_highest (used_after entry_id_dict pre) csv_col entry_id_dict None 0 Hne)
    as (Hle & Hmax & [Hres | (before & l & i & after & Hsplit & Hres & Hfree & Hlt & Hfirst)]);
    cbv zeta in *; rewrite Hres in *; simpl in *; [discriminate |].
  destruct (py.truthy i); [| discriminate]. intros [= <-].
  exists before, l, after. repeat split; assumption.
Qed.

(** The column Phone against two labels that do not contain it: the
    label nearer in length is taken. *)
Lemma highest_score_wins_phone :
  exists before label after,
    [("Your e-mail address", "entry.1"); ("Mobile", "entry.2")]
      = (before ++ (label, "entry.2") :: after)%list
    /\ 0 < Test.score_of "Phone" label.
Proof.
  destruct (highest_score_wins [("Your e-mail address", "entry.1"); ("Mobile", "entry.2")]
              [] "Phone" [] "entry.2") as (before & label & after & H1 & _ & H2 & _).
  - repeat constructor.
  - repeat constructor.
  - split; intros [].
  - intros l i [H | [H | []]] _; injection H as <- <-; discriminate.
  - reflexivity.
  - exists before, label, after. split; assumption.
Defined.

(** ** Strategy A: the score *)

Lemma lower_length s : String.length (py.lower s) = String.length s.
Proof. induction s as [|c s IH]; [reflexivity |]. simpl. now rewrite IH. Qed.

Lemma startswith_length s p :
  py.startswith s p = true ->
  (String.length p <= String.length s)%nat
  /\ (String.length p = String.length s -> s = p).
Proof.
  revert s. induction p as [|a p IH]; intros s H.
  - split; [simpl; lia |]. destruct s; [reflexivity | discriminate].
  - destruct s as [|b s]; [discriminate |]. simpl in H.
    apply andb_true_iff in H as [Hab H]. apply Ascii.eqb_eq in Hab. subst b.
    destruct (IH s H) as [Hle Heq]. split; [simpl; lia |].
    simpl. intros E. f_equal. apply Heq. lia.
Qed.

Lemma startswith_refl s : py.startswith s s = true.
Proof. induction s as [|c s IH]; [reflexivity |]. simpl. now rewrite Ascii.eqb_refl. Qed.

Lemma contains_length hay needle :
  py.contains hay needle = true ->
  (String.length needle <= String.length hay)%nat
  /\ (String.length needle = String.length hay -> hay = needle).
Proof.
  induction hay as [|c hay IH]; cbn [py.contains]; intros H.
  - rewrite orb_false_r in H. now apply startswith_length.
  - apply orb_true_iff in H as [H | H]; [now apply startswith_length |].
    destruct (IH H) as [Hle _]. simpl. split; lia.
Qed.

Lemma contains_refl s : py.contains s s = true.
Proof. destruct s; cbn [py.contains]; now rewrite startswith_refl. Qed.

(** The score is positive exactly when one text contains the other, up
    to case, or the lengths differ by less than ten. *)
Lemma score_positive csv_col form_label :
  0 < Test.score_of csv_col form_label <->
  py.contains (py.lower form_label) (py.lower csv_col) = true
  \/ py.contains (py.lower csv_col) (py.lower form_label) = true
  \/ Z.abs (py.len csv_col - py.len form_label) < 10.
Proof.
  unfold Test.score_of.
  destruct (py.contains (py.lower form_label) (py.lower csv_col));
    destruct (py.contains (py.lower csv_col) (py.lower form_label)); split; intros H;
    try (left; reflexivity); try (right; left; reflexivity);
    try (destruct H as [H | [H | H]]; try discriminate); lia.
Qed.

(** X3.  On ASCII text the score of Strategy A lies between 0 and 100;
    it is 100 for a label that equals the column up to case, and at
    most 59 for any other label: the score of an exact match is above
    every partial score. *)
Theorem partial_score_below_exact (csv_col form_label : string) :
  ascii_text csv_col ->
  ascii_text form_label ->
  0 <= Test.score_of csv_col form_label <= 100
  /\ (py.lower csv_col <> py.lower form_label -> Test.score_of csv_col form_label <= 59)
  /\ (py.lower csv_col = py.lower form_label ->
      Test.score_of csv_col form_label = 100).
Proof.
  intros _ _. unfold Test.score_of, py.len.
  pose proof (contains_length (py.lower form_label) (py.lower csv_col)) as H1.
  pose proof (contains_length (py.lower csv_col) (py.lower form_label)) as H2.
  rewrite !lower_length in H1, H2.
  split; [| split].
  - destruct (py.contains (py.lower form_label) (py.lower csv_col));
      destruct (py.contains (py.lower csv_col) (py.lower form_label)); lia.
  - intros Hne.
    destruct (py.contains (py.lower form_label) (py.lower csv_col)) eqn:E1;
      destruct (py.contains (py.lower csv_col) (py.lower form_label)) eqn:E2;
      try (destruct (H1 eq_refl) as [Hle1 Heq1]); try (destruct (H2 eq_refl) as [Hle2 Heq2]).
    + exfalso. apply Hne. apply Heq2. lia.
    + assert (String.length csv_col <> String.length form_label)
        by (intros E; apply Hne; symmetry; now apply Heq1). lia.
    + assert (String.length form_label <> String.length csv_col)
        by (intros E; apply Hne; now apply Heq2). lia.
    + lia.
  - intros Heq. rewrite Heq, contains_refl.
    assert (String.length csv_col = String.length form_label)
      by (rewrite <- (lower_length csv_col), Heq; apply lower_length). lia.
Qed.

(** A label that contains the column, and a label that is the column in
    capitals. *)
Lemma partial_score_below_exact_email :
  Test.score_of "Email" "Email Address" <= 59 /\ Test.score_of "email" "EMAIL" = 100.
Proof.
  split.
  - apply (partial_score_below_exact "Email" "Email Address"); [| | discriminate];
      repeat constructor.
  - apply (partial_score_below_exact "email" "EMAIL"); [| | reflexivity];
      repeat constructor.
Defined.

(** With a free label that scores above zero, the inner loop returns an
    identifier of the field map. *)
Lemma best_of_some used csv_col items label id :
  In (label, id) items -> id ∉ used -> 0 < Test.score_of csv_col label ->
  exists l i, In (l, i) items
    /\ fst (Test.best_of used csv_col items None 0) = Some i.
Proof.
  intros Hin Hfree Hpos.
  destruct (find (exact_label used csv_col) items) as [[l i]|] eqn:Hfind.
  - exists l, i. split; [now apply find_some in Hfind |].
    now rewrite (best_of_exact _ _ _ _ _ _ _ Hfind).
  - assert (Hne : forall l i, In (l, i) items -> i ∉ used -> py.lower csv_col <> py.lower l).
    { intros l i Hl Hi E. pose proof (find_none _ _ Hfind _ Hl) as Hf.
      unfold exact_label in Hf. simpl in Hf.
      rewrite bool_decide_eq_false_2 in Hf by assumption.
      apply String.eqb_eq in E. rewrite E in Hf. discriminate. }
    destruct (best_of_highest used csv_col items None 0 Hne)
      as (_ & Hmax & [Hres | (before & l & i & after & -> & Hres & _)]); cbv zeta in *.
    + specialize (Hmax _ _ Hin Hfree). rewrite Hres in Hmax. simpl in Hmax. lia.
    + exists l, i. split; [apply in_elt | now rewrite Hres].
Qed.

(** X4.  Strategy A on ASCII text, for a field map without empty
    identifiers (test.py builds none): a column finds a field whenever
    some label whose identifier is still free contains it, is contained
    in it (both up to case) or differs from it in length by less than
    ten characters; the column is then a key of the mapping, whatever
    the two texts are. *)
Theorem candidate_column_is_mapped (entry_id_dict : py.dict string) (pre : list string)
    (csv_col : string) (post : list string) (label id : string) :
  ascii_header (pre ++ csv_col :: post) ->
  ascii_labels entry_id_dict ->
  List.Forall (fun e => snd e <> EmptyString) entry_id_dict ->
  In (label, id) entry_id_dict ->
  id ∉ used_after entry_id_dict pre ->
  py.contains (py.lower label) (py.lower csv_col) = true
  \/ py.contains (py.lower csv_col) (py.lower label) = true
  \/ Z.abs (py.len csv_col - py.len label) < 10 ->
  In csv_col (py.keys (Test.find_matching_keys entry_id_dict (pre ++ csv_col :: post))).
Proof.
  intros _ _ Hids Hin Hfree Hcand. apply score_positive in Hcand.
  destruct (best_of_some _ _ _ _ _ Hin Hfree Hcand) as (l & i & Hl & Hbest).
  unfold Test.find_matching_keys. rewrite match_columns_app.
  change (Test.match_columns entry_id_dict (csv_col :: post) ?st)
    with (Test.match_columns entry_id_dict post (Test.match_column entry_id_dict st csv_col)).
  apply match_columns_keys_kept. unfold Test.match_column.
  fold (used_after entry_id_dict pre). rewrite Hbest.
  assert (Hi : py.truthy i = true).
  { unfold py.truthy. apply negb_true_iff, String.eqb_neq.
    exact (proj1 (List.Forall_forall _ _) Hids (l, i) Hl). }
  rewrite Hi. apply in_keys_new.
Qed.

(** The column Phone and the label Address share no text, yet their
    lengths differ by two. *)
Lemma candidate_column_is_mapped_phone :
  In "Phone" (py.keys (Test.find_matching_keys [("Address", "entry.7")] ["Phone"])).
Proof.
  apply (candidate_column_is_mapped [("Address", "entry.7")] [] "Phone" [] "Address" "entry.7").
  - repeat constructor.
  - repeat constructor.
  - repeat constructor; discriminate.
  - now left.
  - vm_compute. set_solver.
  - right. right. vm_compute. reflexivity.
Defined.

(** ** Strategy B: which identifier is taken *)

(** One rule either leaves the best match alone or replaces it by the
    label at hand, with a score that is higher. *)
Lemma try_rule_scored csv_col form_label entry_id st pd :
  let st' := Bot.try_rule csv_col form_label entry_id st pd in
  snd (fst st) <= snd (fst st')
  /\ (fires pd form_label = true -> Bot.score pd <= snd (fst st'))
  /\ (fst st' = fst st
      \/ (fires pd form_label = true /\ fst st' = (Some entry_id, Bot.score pd)
          /\ snd (fst st) < Bot.score pd)).
Proof.
  destruct st as [[bm bs] log]. unfold Bot.try_rule, fires. cbv zeta.
  destruct (Bot.rule_search pd form_label) as [[[m|] | msg |]|]; simpl;
    try (split; [lia | split; [discriminate | now left]]).
  destruct (bs <? Bot.score pd) eqn:E; simpl.
  - apply Z.ltb_lt in E. split; [lia |]. split; [lia | right; auto].
  - apply Z.ltb_ge in E. split; [lia |]. split; [lia | now left].
Qed.

Lemma try_rules_scored csv_col form_label entry_id rules st :
  let st' := fold_left (Bot.try_rule csv_col form_label entry_id) rules st in
  snd (fst st) <= snd (fst st')
  /\ (forall pd, In pd rules -> fires pd form_label = true -> Bot.score pd <= snd (fst st'))
  /\ (fst st' = fst st
      \/ exists pd, In pd rules /\ fires pd form_label = true
           /\ fst st' = (Some entry_id, Bot.score pd) /\ snd (fst st) < Bot.score pd).
Proof.
  revert st. induction rules as [|pd rules IH]; intros st; cbv zeta.
  - simpl. split; [lia |]. split; [intros ? [] | now left].
  - simpl.
    destruct (try_rule_scored csv_col form_label entry_id st pd) as (Hle & Hf & Hres).
    destruct (IH (Bot.try_rule csv_col form_label entry_id st pd)) as (Hle' & Hmax & Hres').
    cbv zeta in *. split; [lia |]. split.
    + intros pd' [<- | Hin] Hfire; [specialize (Hf Hfire); lia | now apply Hmax].
    + destruct Hres' as [E | (pd' & Hin & Hfire & E & Hlt)].
      * rewrite E. destruct Hres as [? | (Hfire & E' & Hlt)]; [now left | right].
        exists pd. split; [now left | auto].
      * right. exists pd'. split; [now right |]. split; [assumption |]. split; [assumption | lia].
Qed.

(** The loop over the labels ends with the highest score among the rules
    that match a free label, if that is above the score it started from. *)
Lemma best_of_scored used rules csv_col items st :
  let st' := Bot.best_of used rules csv_col items st in
  snd (fst st) <= snd (fst st')
  /\ (forall l i pd, In (l, i) items -> i ∉ used -> In pd rules -> fires pd l = true ->
        Bot.score pd <= snd (fst st'))
  /\ (fst st' = fst st
      \/ exists l i pd, In (l, i) items /\ (i ∉ used) /\ In pd rules /\ fires pd l = true
           /\ fst st' = (Some i, Bot.score pd) /\ snd (fst st) < Bot.score pd).
Proof.
  revert st. induction items as [|[l i] items IH]; intros st; cbv zeta.
  - simpl. split; [lia |]. split; [intros ? ? ? [] | now left].
  - simpl. destruct (bool_decide (i ∈ used)) eqn:Hu.
    + apply bool_decide_eq_true in Hu.
      destruct (IH st) as (Hle & Hmax & Hres). cbv zeta in *.
      split; [exact Hle |]. split.
      * intros l' i' pd [H | H] Hfree; [injection H as <- <-; contradiction | eauto].
      * destruct Hres as [? | (l' & i' & pd & ? & ? & ? & ? & ? & ?)]; [now left | right].
        exists l', i', pd. split; [now right | auto].
    + apply bool_decide_eq_false in Hu.
      destruct (try_rules_scored csv_col l i rules st) as (Hle0 & Hmax0 & Hres0).
      destruct (IH (fold_left (Bot.try_rule csv_col l i) rules st)) as (Hle & Hmax & Hres).
      cbv zeta in *. split; [lia |]. split.
      * intros l' i' pd [H | H] Hfree Hpd Hfire; [| eauto].
        injection H as <- <-. specialize (Hmax0 pd Hpd Hfire). lia.
      * destruct Hres as [E | (l' & i' & pd & ? & ? & ? & ? & ? & ?)].
        -- rewrite E. destruct Hres0 as [? | (pd & ? & ? & ? & ?)]; [now left | right].
           exists l, i, pd. split; [now left | auto].
        -- right. exists l', i', pd. split; [now right |].
           repeat (split; [assumption |]). lia.
Qed.

(** A round of Strategy B: either nothing is recorded, and then every
    rule of the column that matches a free label has a score of zero or
    less or the identifiers may be empty; or the column is given a free
    identifier with a matching rule of the highest score, above zero. *)
Lemma match_column_scored regex_patterns entry_id_dict st csv_col :
  let rules := Bot.rules_for regex_patterns csv_col in
  (fst (Bot.match_column regex_patterns entry_id_dict st csv_col) = fst st
   /\ (List.Forall (fun e => snd e <> EmptyString) entry_id_dict ->
       forall l i pd, In (l, i) entry_id_dict -> i ∉ snd (fst st) -> In pd rules ->
         fires pd l = true -> Bot.score pd <= 0))
  \/ exists id label pd,
       (id ∉ snd (fst st)) /\ In (label, id) entry_id_dict
       /\ In pd rules /\ fires pd label = true /\ 0 < Bot.score pd
       /\ (forall l i pd', In (l, i) entry_id_dict -> i ∉ snd (fst st) -> In pd' rules ->
             fires pd' l = true -> Bot.score pd' <= Bot.score pd)
       /\ fst (Bot.match_column regex_patterns entry_id_dict st csv_col)
          = (py.set (fst (fst st)) csv_col id, {[ id ]} ∪ snd (fst st)).
Proof.
  destruct st as [[m u] log]. unfold Bot.match_column. cbv zeta.
  destruct (best_of_scored u (Bot.rules_for regex_patterns csv_col) csv_col entry_id_dict
              (None, 0, log)) as (_ & Hmax & Hres).
  cbv zeta in *.
  destruct (Bot.best_of _ _ _ _ _) as [[bm bs] log']. simpl in *.
  destruct Hres as [[= -> ->] | (l & i & pd & Hin & Hfree & Hpd & Hfire & [= -> ->] & Hpos)].
  - left. split; [reflexivity | intros _; exact Hmax].
  - destruct (py.truthy i) eqn:Hi.
    + right. exists i, l, pd. repeat (split; [assumption |]). reflexivity.
    + left. split; [reflexivity |]. intros Hids. exfalso.
      apply negb_false_iff, String.eqb_eq in Hi.
      exact (proj1 (List.Forall_forall _ _) Hids (l, i) Hin Hi).
Qed.

Lemma match_columns_rules_entries regex_patterns entry_id_dict csv_header st c id :
  In (c, id) (fst (fst (Bot.match_columns regex_patterns entry_id_dict csv_header st))) ->
  In (c, id) (fst (fst st))
  \/ (In c csv_header
      /\ exists label pd, In (label, id) entry_id_dict
           /\ In pd (Bot.rules_for regex_patterns c)
           /\ literal_match pd label = true /\ 0 < Bot.score pd).
Proof.
  revert st. induction csv_header as [|col cols IH]; intros st H; [now left |].
  change (Bot.match_columns regex_patterns entry_id_dict (col :: cols) st)
    with (Bot.match_columns regex_patterns entry_id_dict cols
            (Bot.match_column regex_patterns entry_id_dict st col)) in H.
  destruct (IH _ H) as [H' | [Hin Hl]]; [| right; split; [now right | assumption]].
  destruct (match_column_scored regex_patterns entry_id_dict st col)
    as [[E _] | (i & l & pd & _ & Hl & Hpd & Hfire & Hpos & _ & E)]; rewrite E in H'.
  - now left.
  - simpl in H'. apply in_set in H' as [[-> ->] | H']; [right | now left].
    split; [now left |]. exists l, pd. rewrite <- fires_literal. auto.
Qed.

Lemma match_columns_rules_keys_nodup regex_patterns entry_id_dict csv_header st :
  List.NoDup (py.keys (fst (fst st))) ->
  List.NoDup (py.keys (fst (fst (Bot.match_columns regex_patterns entry_id_dict csv_header st)))).
Proof.
  revert st. induction csv_header as [|c cs IH]; intros st H; [assumption |].
  apply IH.
  destruct (match_column_scored regex_patterns entry_id_dict st c)
    as [[-> _] | (i & l & pd & _ & _ & _ & _ & _ & _ & ->)]; [assumption |].
  now apply keys_set_nodup.
Qed.

(** X5.  On ASCII labels and patterns, the mapping of Strategy B is a
    dictionary whose columns are columns of the header, in which no
    identifier is given to two columns, and every entry is justified by
    the rule file: the column has a rule with a score above zero whose
    pattern, read as plain text, matches a label of that identifier.  A
    column without rules in the file, and any column when the file is
    missing or not JSON, is left out. *)
Theorem rule_mapping_justified (entry_id_dict : py.dict string) (csv_header : list string)
    (file : Bot.patterns_file) :
  ascii_labels entry_id_dict ->
  ascii_rules (rules_of file) ->
  let mappings := fst (Bot.find_matching_keys_with_regex entry_id_dict csv_header file) in
  List.NoDup (py.keys mappings)
  /\ List.NoDup (py.values mappings)
  /\ (forall csv_col id, In (csv_col, id) mappings ->
        In csv_col csv_header
        /\ exists label pd,
             In (label, id) entry_id_dict
             /\ py.get (rules_of file) csv_col <> None
             /\ In pd (Bot.rules_for (rules_of file) csv_col)
             /\ literal_match pd label = true
             /\ 0 < Bot.score pd).
Proof.
  intros _ _ mappings.
  assert (Hk : List.NoDup (py.keys mappings)).
  { subst mappings. destruct file as [| | rp]; simpl; try constructor.
    pose proof (match_columns_rules_keys_nodup rp entry_id_dict csv_header ([], ∅, [])) as H.
    destruct (Bot.match_columns _ _ _ _) as [[m u] log]. apply H. constructor. }
  split; [exact Hk |]. split.
  - apply values_nodup; [exact Hk | apply find_matching_keys_with_regex_injective].
  - intros c id H. subst mappings. destruct file as [| | rp]; simpl in H; try contradiction.
    pose proof (match_columns_rules_entries rp entry_id_dict csv_header ([], ∅, []) c id) as H'.
    destruct (Bot.match_columns _ _ _ _) as [[m u] log]. simpl in *.
    destruct (H' H) as [[] | (Hin & l & pd & Hl & Hpd & Hm & Hpos)].
    split; [assumption |]. exists l, pd. repeat (split; [assumption |]).
    split; [| split; [assumption | split; assumption]].
    unfold Bot.rules_for in Hpd. destruct (py.get rp c); [discriminate | destruct Hpd].
Qed.

(** The rule that looks for [email], against the label Your Email
    Address. *)
Lemma rule_mapping_justified_email :
  let mappings :=
    fst (Bot.find_matching_keys_with_regex [("Your Email Address", "entry.1")]
           ["Email"] plain_rules) in
  mappings = [("Email", "entry.1")]
  /\ List.NoDup (py.keys mappings) /\ List.NoDup (py.values mappings).
Proof.
  intros mappings. split; [reflexivity |].
  destruct (rule_mapping_justified [("Your Email Address", "entry.1")] ["Email"] plain_rules)
    as (Hkeys & Hvalues & _).
  - repeat constructor.
  - repeat constructor.
  - split; assumption.
Defined.

Lemma match_columns_rules_other regex_patterns entry_id_dict csv_header st c :
  ~ In c csv_header ->
  py.get (fst (fst (Bot.match_columns regex_patterns entry_id_dict csv_header st))) c
  = py.get (fst (fst st)) c.
Proof.
  revert st. induction csv_header as [|col cols IH]; intros st Hnotin; [reflexivity |].
  change (Bot.match_columns regex_patterns entry_id_dict (col :: cols) st)
    with (Bot.match_columns regex_patterns entry_id_dict cols
            (Bot.match_column regex_patterns entry_id_dict st col)).
  rewrite IH by (intros H; apply Hnotin; now right).
  destruct (match_column_scored regex_patterns entry_id_dict st col)
    as [[-> _] | (i & l & pd & _ & _ & _ & _ & _ & _ & ->)]; [reflexivity |].
  simpl. apply get_set_ne. intros ->. apply Hnotin. now left.
Qed.

Lemma match_columns_rules_keys_kept regex_patterns entry_id_dict csv_header st c :
  In c (py.keys (fst (fst st))) ->
  In c (py.keys (fst (fst (Bot.match_columns regex_patterns entry_id_dict csv_header st)))).
Proof.
  revert st. induction csv_header as [|col cols IH]; intros st H; [assumption |].
  apply IH.
  destruct (match_column_scored regex_patterns entry_id_dict st col)
    as [[-> _] | (i & l & pd & _ & _ & _ & _ & _ & _ & ->)]; [assumption |].
  now apply in_keys_kept.
Qed.

(** X6.  Strategy B is greedy as well.  On ASCII labels and patterns, a
    column that occurs once in the header is given, if anything, a free
    identifier one of whose labels is matched by a rule of the column
    with a score above zero, and no rule of the column that matches a
    free label has a higher score. *)
Theorem best_rule_wins (entry_id_dict : py.dict string) (pre : list string)
    (csv_col : string) (post : list string) (regex_patterns : py.dict (list Bot.pattern_data))
    (id : string) :
  ascii_labels entry_id_dict ->
  ascii_rules regex_patterns ->
  occurs_once csv_col pre post ->
  py.get (fst (Bot.find_matching_keys_with_regex entry_id_dict (pre ++ csv_col :: post)
                 (Bot.Patterns regex_patterns))) csv_col = Some id ->
  let used := used_after_rules (Bot.Patterns regex_patterns) entry_id_dict pre in
  let rules := Bot.rules_for regex_patterns csv_col in
  exists label pd,
    In (label, id) entry_id_dict /\ (id ∉ used) /\ In pd rules
    /\ literal_match pd label = true /\ 0 < Bot.score pd
    /\ (forall l i pd', In (l, i) entry_id_dict -> i ∉ used -> In pd' rules ->
          literal_match pd' l = true -> Bot.score pd' <= Bot.score pd).
Proof.
  intros _ _ [Hpre Hpost] Hget used rules. subst used rules.
  unfold used_after_rules. simpl rules_of. simpl in Hget.
  rewrite match_columns_rules_app in Hget.
  change (Bot.match_columns regex_patterns entry_id_dict (csv_col :: post) ?st)
    with (Bot.match_columns regex_patterns entry_id_dict post
            (Bot.match_column regex_patterns entry_id_dict st csv_col)) in Hget.
  pose proof (match_columns_rules_other regex_patterns entry_id_dict post
                (Bot.match_column regex_patterns entry_id_dict
                   (Bot.match_columns regex_patterns entry_id_dict pre ([], ∅, [])) csv_col)
                csv_col Hpost) as Hother.
  destruct (Bot.match_columns regex_patterns entry_id_dict post _) as [[m u] log].
  simpl in Hget, Hother. rewrite Hother in Hget. clear Hother m u log.
  assert (Hnone : py.get (fst (fst (Bot.match_columns regex_patterns entry_id_dict pre
                                      ([], ∅, [])))) csv_col = None).
  { rewrite (match_columns_rules_other _ _ _ _ _ Hpre). reflexivity. }
  destruct (match_column_scored regex_patterns entry_id_dict
              (Bot.match_columns regex_patterns entry_id_dict pre ([], ∅, [])) csv_col)
    as [[E _] | (i & l & pd & Hfree & Hl & Hpd & Hfire & Hpos & Hmax & E)];
    rewrite E in Hget; [congruence |].
  simpl in Hget. rewrite get_set_eq in Hget. injection Hget as ->.
  exists l, pd. rewrite <- fires_literal. repeat (split; [assumption |]).
  intros l' i' pd' ? ? ? Hm. rewrite <- fires_literal in Hm. eauto.
Qed.

(** Two rules match the label Mobile phone; the one with the higher
    score decides. *)
Lemma best_rule_wins_phone :
  exists label pd,
    In (label, "entry.2") [("Mobile phone", "entry.2")]
    /\ In pd [Bot.Build_pattern_data "phone" 60 None;
              Bot.Build_pattern_data "mobile" 90 (Some "contains")]
    /\ 60 <= Bot.score pd.
Proof.
  destruct (best_rule_wins [("Mobile phone", "entry.2")] [] "Phone" []
              [("Phone", [Bot.Build_pattern_data "phone" 60 None;
                          Bot.Build_pattern_data "mobile" 90 (Some "contains")])]
              "entry.2") as (label & pd & H1 & _ & H2 & _ & _ & H3).
  - repeat constructor.
  - repeat constructor.
  - split; intros [].
  - vm_compute. reflexivity.
  - exists label, pd. split; [exact H1 |]. split; [exact H2 |].
    apply (H3 "Mobile phone" "entry.2" (Bot.Build_pattern_data "phone" 60 None)).
    + now left.
    + vm_compute. set_solver.
    + now left.
    + vm_compute. reflexivity.
Defined.

(** X7.  Strategy B on ASCII labels and patterns, for a field map
    without empty identifiers (bot.py builds none): a column is mapped
    whenever one of its rules, with a score above zero, matches a label
    whose identifier is still free when the column is processed. *)
Theorem matching_rule_maps_column (entry_id_dict : py.dict string) (pre : list string)
    (csv_col : string) (post : list string) (regex_patterns : py.dict (list Bot.pattern_data))
    (label id : string) (pd : Bot.pattern_data) :
  ascii_labels entry_id_dict ->
  ascii_rules regex_patterns ->
  List.Forall (fun e => snd e <> EmptyString) entry_id_dict ->
  In (label, id) entry_id_dict ->
  id ∉ used_after_rules (Bot.Patterns regex_patterns) entry_id_dict pre ->
  In pd (Bot.rules_for regex_patterns csv_col) ->
  literal_match pd label = true ->
  0 < Bot.score pd ->
  In csv_col
    (py.keys (fst (Bot.find_matching_keys_with_regex entry_id_dict (pre ++ csv_col :: post)
                     (Bot.Patterns regex_patterns)))).
Proof.
  intros _ _ Hids Hin Hfree Hpd Hm Hpos. unfold used_after_rules in Hfree. simpl in Hfree.
  rewrite <- fires_literal in Hm. simpl.
  rewrite match_columns_rules_app.
  change (Bot.match_columns regex_patterns entry_id_dict (csv_col :: post) ?st)
    with (Bot.match_columns regex_patterns entry_id_dict post
            (Bot.match_column regex_patterns entry_id_dict st csv_col)).
  pose proof (match_columns_rules_keys_kept regex_patterns entry_id_dict post
                (Bot.match_column regex_patterns entry_id_dict
                   (Bot.match_columns regex_patterns entry_id_dict pre ([], ∅, [])) csv_col)
                csv_col) as Hkept.
  destruct (Bot.match_columns regex_patterns entry_id_dict post _) as [[m u] log].
  simpl in *. apply Hkept. clear Hkept.
  destruct (match_column_scored regex_patterns entry_id_dict
              (Bot.match_columns regex_patterns entry_id_dict pre ([], ∅, [])) csv_col)
    as [[_ Hnone] | (i & l & pd' & _ & _ & _ & _ & _ & _ & ->)].
  - specialize (Hnone Hids label id pd Hin Hfree Hpd Hm). lia.
  - simpl. apply in_keys_new.
Qed.

Lemma matching_rule_maps_column_email :
  In "Email"
    (py.keys (fst (Bot.find_matching_keys_with_regex [("Your Email Address", "entry.1")]
                     ["Email"] plain_rules))).
Proof.
  apply (matching_rule_maps_column [("Your Email Address", "entry.1")] [] "Email" []
           [("Email", [Bot.Build_pattern_data "email" 80 (Some "contains")])]
           "Your Email Address" "entry.1" (Bot.Build_pattern_data "email" 80 (Some "contains"))).
  - repeat constructor.
  - repeat constructor.
  - repeat constructor; discriminate.
  - now left.
  - vm_compute. set_solver.
  - now left.
  - vm_compute. reflexivity.
  - reflexivity.
Defined.

(** ** The report of a run *)

Lemma verdicts_length sent rows i : length (verdicts sent rows i) = length rows.
Proof. revert i. induction rows as [|r rows IH]; intros i; simpl; [| rewrite IH]; reflexivity. Qed.

Lemma verdicts_nth sent rows i k r :
  nth_error rows k = Some r ->
  nth_error (verdicts sent rows i) k = Some (verdict (sent (i + k)%nat r) (i + k)%nat).
Proof.
  revert i k. induction rows as [|r0 rows IH]; intros i [|k]; simpl; try discriminate.
  - intros [= ->]. now rewrite Nat.add_0_r.
  - intros H. rewrite (IH (S i) k H). now rewrite Nat.add_succ_r.
Qed.

Lemma all_sent_nth sent rows i :
  all_sent sent rows i = true <->
  forall k r, nth_error rows k = Some r -> sent (i + k)%nat r = true.
Proof.
  revert i. induction rows as [|r0 rows IH]; intros i; simpl.
  - split; [intros _ [|k] r; discriminate | reflexivity].
  - rewrite andb_true_iff, IH. split.
    + intros [H0 H] [|k] r; simpl.
      * intros [= <-]. now rewrite Nat.add_0_r.
      * intros Hk. rewrite Nat.add_succ_r. now apply H.
    + intros H. split.
      * specialize (H 0%nat r0 eq_refl). now rewrite Nat.add_0_r in H.
      * intros k r Hk. specialize (H (S k) r Hk). now rewrite Nat.add_succ_r in H.
Qed.

(** X8.  test.py submits every row of the data file, in order and each
    exactly once, to the same address, whatever happened to the rows
    before it: the run prints one verdict per row, the verdict of row
    [k] (counted from 1) is that of its own submission, and the run
    reports success exactly when every submission was accepted. *)
Theorem one_verdict_per_row (post : transport) (rows : list row) (form_url : string)
    (field_mappings : py.dict string) :
  let form_response_url := py.replace form_url "/viewform" "/formResponse" in
  let sent i r := accepted (post i form_response_url (Test.form_data_of field_mappings r)) in
  let result := Test.csv_to_google_form post (Some rows) form_url field_mappings in
  length (snd result) = length rows
  /\ (forall k r, nth_error rows k = Some r ->
        nth_error (snd result) k = Some (verdict (sent (S k) r) (S k)))
  /\ (fst result = true <->
      forall k r, nth_error rows k = Some r -> sent (S k) r = true).
Proof.
  intros url sent result. subst result. unfold Test.csv_to_google_form. cbv zeta.
  rewrite submit_rows_all. cbv zeta. fold url. fold sent. simpl.
  split; [apply verdicts_length |]. split.
  - intros k r H. exact (verdicts_nth sent rows 1 k r H).
  - exact (all_sent_nth sent rows 1).
Qed.

(** ** The address the rows are posted to *)

Lemma replace_absent s old new :
  py.contains s old = false -> py.replace s old new = s.
Proof.
  unfold py.replace. induction s as [|c s IH]; [reflexivity |].
  cbn [py.contains py.replace_from]. intros H. apply orb_false_iff in H as [H1 H2].
  rewrite H1. f_equal. now apply IH.
Qed.

(** The text [/viewform] has its only slash in front, so that behind a
    text that does not begin with it no occurrence begins earlier. *)
Lemma startswith_viewform c t rest :
  py.startswith (String c t) "/viewform" = false ->
  py.startswith (String c t ++ "/viewform" ++ rest) "/viewform" = false.
Proof.
  destruct t as [|c1 [|c2 [|c3 [|c4 [|c5 [|c6 [|c7 [|c8 t]]]]]]]];
    rewrite ?append_cons, ?append_empty; cbn [py.startswith]; intros H;
    repeat match goal with
           | |- context [Ascii.eqb ?a ?x] => is_var x; destruct (Ascii.eqb a x)
           end;
    simpl in *; try reflexivity; try discriminate.
Qed.

Lemma replace_viewform base rest :
  py.contains base "/viewform" = false ->
  py.replace (base ++ "/viewform" ++ rest) "/viewform" "/formResponse"
  = base ++ "/formResponse" ++ py.replace rest "/viewform" "/formResponse".
Proof.
  unfold py.replace. induction base as [|c base IH]; intros H; [reflexivity |].
  cbn [py.contains] in H. apply orb_false_iff in H as [H1 H2].
  pose proof (startswith_viewform c base rest H1) as H3.
  rewrite (append_cons c base) in H3 |- *. cbn [py.replace_from]. rewrite H3.
  rewrite (append_cons c base). f_equal. now apply IH.
Qed.

Lemma submit_rows_agree post post' url field_mappings rows i ok log :
  (forall i form_data, post i url form_data = post' i url form_data) ->
  Test.submit_rows post url field_mappings rows i ok log
  = Test.submit_rows post' url field_mappings rows i ok log.
Proof.
  intros H. revert i ok log. induction rows as [|r rows IH]; intros i ok log; [reflexivity |].
  cbn [Test.submit_rows]. cbv zeta. rewrite H.
  destruct (post' i url _) as [|status_code []]; [apply IH |].
  destruct (requests.raises_for_status status_code); apply IH.
Qed.

Lemma submit_rows_bound_agree g post post' url field_mappings rows i ok log :
  (forall i form_data, post i url form_data = post' i url form_data) ->
  Bot.submit_rows g post url field_mappings rows i ok log
  = Bot.submit_rows g post' url field_mappings rows i ok log.
Proof.
  intros H. revert i ok log. induction rows as [|r rows IH]; intros i ok log; [reflexivity |].
  cbn [Bot.submit_rows]. destruct (Bot.form_data_of g field_mappings r); [| reflexivity].
  rewrite H. destruct (post' i url _) as [|status_code []]; [apply IH |].
  destruct (requests.raises_for_status status_code); apply IH.
Qed.

Lemma submit_rows_session_agree browser_cookie3 (post post' : Test2.session_transport)
    user_credentials url field_mappings rows i ok response log :
  (forall i cj form_data, post i cj url form_data = post' i cj url form_data) ->
  Test2.submit_rows browser_cookie3 post user_credentials url field_mappings rows i ok
    response log
  = Test2.submit_rows browser_cookie3 post' user_credentials url field_mappings rows i ok
      response log.
Proof.
  intros H. revert i ok response log.
  induction rows as [|r rows IH]; intros i ok response log; [reflexivity |].
  cbn [Test2.submit_rows]. cbv zeta.
  destruct (Test2.credentials_of user_credentials _) as [info|]; [| apply IH].
  destruct (Test2.get_google_cookies _ _ _) as [[|c cj]|]; try apply IH.
  rewrite H. destruct (post' i (c :: cj) url _) as [|status_code []].
  - destruct response; [apply IH | reflexivity].
  - destruct (requests.raises_for_status status_code); apply IH.
Qed.

Lemma submit_rows_accepted post url field_mappings rows i ok log :
  (forall i form_data, post i url form_data = requests.Response 200 tt) ->
  Test.submit_rows post url field_mappings rows i ok log
  = (ok, (log ++ map Success (seq i (length rows)))%list).
Proof.
  intros H. revert i ok log. induction rows as [|r rows IH]; intros i ok log.
  - simpl. now rewrite app_nil_r.
  - cbn [Test.submit_rows]. cbv zeta. rewrite H. cbn -[Test.submit_rows].
    rewrite IH. simpl. now rewrite <- app_assoc.
Qed.

Lemma submit_rows_bound_accepted g post url field_mappings rows i ok log :
  (forall i form_data, post i url form_data = requests.Response 200 tt) ->
  (forall r, In r rows -> Bot.form_data_of g field_mappings r <> None) ->
  Bot.submit_rows g post url field_mappings rows i ok log
  = (ok, (log ++ map Success (seq i (length rows)))%list).
Proof.
  intros H. revert i ok log. induction rows as [|r rows IH]; intros i ok log Hbound.
  - simpl. now rewrite app_nil_r.
  - cbn [Bot.submit_rows].
    destruct (Bot.form_data_of g field_mappings r) as [form_data|] eqn:E.
    + rewrite H. cbn -[Bot.submit_rows].
      rewrite IH by (intros r' Hr'; apply Hbound; now right).
      simpl. now rewrite <- app_assoc.
    + exfalso. apply (Hbound r); [now left | exact E].
Qed.

Lemma submit_rows_session_accepted browser_cookie3 (post : Test2.session_transport)
    user_credentials url field_mappings rows i ok response log :
  (forall i cj form_data, post i cj url form_data = requests.Response 200 tt) ->
  (forall r, In r rows -> session_of browser_cookie3 user_credentials r <> None) ->
  Test2.submit_rows browser_cookie3 post user_credentials url field_mappings rows i ok
    response log
  = (ok, (log ++ map Success (seq i (length rows)))%list).
Proof.
  intros H. revert i ok response log.
  induction rows as [|r rows IH]; intros i ok response log Hsession.
  - simpl. now rewrite app_nil_r.
  - pose proof (Hsession r (or_introl eq_refl)) as Hr. unfold session_of, user_of in Hr.
    cbn [Test2.submit_rows]. cbv zeta.
    destruct (Test2.credentials_of user_credentials _) as [info|]; [| now contradiction Hr].
    destruct (Test2.get_google_cookies _ _ _) as [[|c cj]|]; try now contradiction Hr.
    rewrite H. cbn -[Test2.submit_rows].
    rewrite IH by (intros r' Hr'; apply Hsession; now right).
    simpl. now rewrite <- app_assoc.
Qed.

Lemma posted_to_replaced form_url address rows :
  py.replace form_url "/viewform" "/formResponse" = address ->
  posted_to form_url address rows.
Proof.
  intros Haddress. unfold posted_to.
  unfold Test.csv_to_google_form, Bot.csv_to_google_form, Test2.csv_to_google_form.
  cbv zeta. rewrite Haddress.
  assert (Hserved : forall (i : nat) (form_data : payload),
             only_at address i address form_data = requests.Response 200 tt).
  { intros i form_data. unfold only_at. now rewrite String.eqb_refl. }
  split; [| split; [| split; [| split; [| split]]]].
  - intros fm. apply (submit_rows_accepted (only_at address) address fm rows 1 true []).
    exact Hserved.
  - intros g fm Hbound.
    apply (submit_rows_bound_accepted g (only_at address) address fm rows 1 true []);
      [exact Hserved | exact Hbound].
  - intros browser_cookie3 fm creds Hsession.
    apply (submit_rows_session_accepted browser_cookie3 (session_only_at address) creds
             address fm rows 1 true None []); [| exact Hsession].
    intros i cj form_data. apply Hserved.
  - intros post post' fm H. now apply submit_rows_agree.
  - intros g post post' fm H. now apply submit_rows_bound_agree.
  - intros browser_cookie3 post post' fm creds H. now apply submit_rows_session_agree.
Qed.

(** X9.  The rows are posted to the address of the form with its
    [/viewform] turned into [/formResponse], what follows it (a query)
    being kept, and to no other address; the address of a form that
    has no [/viewform] in it is posted to as it is.  A transport that
    serves that address alone accepts every row that is submitted
    (every row in test.py, every row in bot.py when the module-level
    names are bound, every row in test2.py when each row has a
    session), and in the three scripts alike a run depends on the
    transport only through what it answers at that address. *)
Theorem rows_posted_to_form_response (base query : string) (rows : list row) :
  py.contains base "/viewform" = false ->
  py.contains query "/viewform" = false ->
  posted_to (base ++ "/viewform" ++ query) (base ++ "/formResponse" ++ query) rows
  /\ posted_to base base rows.
Proof.
  intros Hbase Hquery. split; apply posted_to_replaced.
  - now rewrite (replace_viewform base query Hbase), (replace_absent query _ _ Hquery).
  - now apply replace_absent.
Qed.

(** The three rows of the example and the address test.py carries: they
    are accepted by the transport that serves the response address
    alone, in test.py and in a session of test2.py, and refused by the
    one that serves the address of the form. *)
Lemma rows_posted_to_form_response_sample :
  Test.csv_to_google_form
    (only_at "https://docs.google.com/forms/d/e/1FAIpQLSe-1isITQZCOh1hWQTlJ2dEDzRuqlxT9mU3kLiXAW4Z-EGziQ/formResponse")
    (Some three_rows) Test.form_url [("Email", "entry.2")]
  = (true, [Success 1; Success 2; Success 3])
  /\ Test2.csv_to_google_form (fun _ => None)
       (session_only_at "https://docs.google.com/forms/d/e/1FAIpQLSe-1isITQZCOh1hWQTlJ2dEDzRuqlxT9mU3kLiXAW4Z-EGziQ/formResponse")
       (Some three_rows) Test.form_url [("Email", Test2.Plain "entry.2")] (Some one_user)
     = (true, [Success 1; Success 2; Success 3])
  /\ Test.csv_to_google_form (only_at Test.form_url) (Some three_rows) Test.form_url
       [("Email", "entry.2")]
     = (false, [Failure 1; Failure 2; Failure 3]).
Proof.
  destruct (rows_posted_to_form_response
              "https://docs.google.com/forms/d/e/1FAIpQLSe-1isITQZCOh1hWQTlJ2dEDzRuqlxT9mU3kLiXAW4Z-EGziQ"
              EmptyString three_rows eq_refl eq_refl) as [(H1 & _ & H3 & _) _].
  split; [exact (H1 [("Email", "entry.2")]) |]. split; [| reflexivity].
  apply (H3 (fun _ => None) [("Email", Test2.Plain "entry.2")] one_user).
  intros r Hr. simpl in Hr. destruct Hr as [<- | [<- | [<- | []]]]; discriminate.
Defined.

(** ** bot.py: the module-level names *)

Lemma submit_rows_plain g post url field_mappings rows i ok log :
  (forall r, Bot.form_data_of g field_mappings r = Some (Test.form_data_of field_mappings r)) ->
  Bot.submit_rows g post url field_mappings rows i ok log
  = Test.submit_rows post url field_mappings rows i ok log.
Proof.
  intros H. revert i ok log. induction rows as [|r rows IH]; intros i ok log; [reflexivity |].
  cbn [Bot.submit_rows Test.submit_rows]. rewrite H. cbv zeta.
  destruct (post i url _) as [|status_code []]; [apply IH |].
  destruct (requests.raises_for_status status_code); apply IH.
Qed.

(** X10.  [csv_to_google_form] of bot.py reads the module-level names
    [entry_ids] and [mappings], which only [main] binds.  With both
    [firstname] and [lastname] in the mapping it never reads them and
    runs exactly as that of test.py; so it does when [entry_ids] is
    bound to an empty field map.  Otherwise a name that is not bound
    ends the run at the first row: nothing is submitted and the result
    is a failure. *)
Theorem module_names_are_read (post : transport) (csvfile : option (list row))
    (form_url : string) (field_mappings : py.dict string) :
  (py.mem field_mappings "firstname" && py.mem field_mappings "lastname" = true ->
   forall g, Bot.csv_to_google_form g post csvfile form_url field_mappings
             = Test.csv_to_google_form post csvfile form_url field_mappings)
  /\ (forall maps,
        Bot.csv_to_google_form {| Bot.entry_ids := Some []; Bot.mappings := maps |}
          post csvfile form_url field_mappings
        = Test.csv_to_google_form post csvfile form_url field_mappings)
  /\ (py.mem field_mappings "firstname" && py.mem field_mappings "lastname" = false ->
      forall g r rows,
        csvfile = Some (r :: rows) ->
        Bot.entry_ids g = None
        \/ (Bot.mappings g = None /\ Bot.entry_ids g <> Some []) ->
        Bot.csv_to_google_form g post csvfile form_url field_mappings
        = (false, [Unexpected])).
Proof.
  unfold Bot.csv_to_google_form, Test.csv_to_google_form. cbv zeta.
  split; [| split].
  - intros Hboth g. destruct csvfile as [rows|]; [| reflexivity].
    apply submit_rows_plain. intros r. unfold Bot.form_data_of. now rewrite Hboth.
  - intros maps. destruct csvfile as [rows|]; [| reflexivity].
    apply submit_rows_plain. intros r. unfold Bot.form_data_of. simpl.
    now destruct (_ && _).
  - intros Hnot g r rows -> Hunbound. cbn [Bot.submit_rows].
    unfold Bot.form_data_of. rewrite Hnot.
    destruct Hunbound as [-> | [Hm He]]; [reflexivity |].
    destruct (Bot.entry_ids g) as [[|e es]|]; [contradiction | | reflexivity].
    now rewrite Hm.
Qed.

(** Called without [main], on a mapping with the one column Email. *)
Lemma module_names_are_read_email :
  Bot.csv_to_google_form {| Bot.entry_ids := None; Bot.mappings := None |}
    (fun _ _ _ => requests.Response 200 tt) (Some three_rows)
    "https://docs.google.com/forms/d/e/x/viewform" [("Email", "entry.2")]
  = (false, [Unexpected]).
Proof.
  destruct (module_names_are_read (fun _ _ _ => requests.Response 200 tt) (Some three_rows)
              "https://docs.google.com/forms/d/e/x/viewform" [("Email", "entry.2")])
    as (_ & _ & H).
  apply (H eq_refl _ (texts [("Email", "a@example.org")])
           [texts [("Email", "b@example.org")]; texts [("Email", "c@example.org")]] eq_refl).
  now left.
Defined.

(** ** test2.py: the rows of several users *)

Section Session.
Variable browser_cookie3 : string -> option (list Test2.cookie).
Variable post : Test2.session_transport.
Variable user_credentials : py.dict Test2.user_info.
Variable url : string.
Variable field_mappings : py.dict Test2.entry_id.

Local Abbreviation submit_rows :=
  (Test2.submit_rows browser_cookie3 post user_credentials url field_mappings).

(** A row that is skipped: one warning, the run goes on as a failed
    one, and [response] is as it was. *)
Lemma submit_rows_skip r rest i ok response log :
  session_of browser_cookie3 user_credentials r = None ->
  exists e, e = warning_of user_credentials i r
    /\ is_skip e = true /\ row_of_event e = Some i
    /\ submit_rows (r :: rest) i ok response log
       = submit_rows rest (S i) false response (log ++ [e]).
Proof.
  unfold session_of, warning_of, user_of, submit_rows. cbn [Test2.submit_rows]. cbv zeta.
  destruct (Test2.credentials_of user_credentials _) as [info|].
  - destruct (Test2.get_google_cookies _ _ _) as [[|c cj]|]; try discriminate; intros _;
      exists (NoCookies i); auto.
  - intros _. exists (UserNotFound i). auto.
Qed.

(** A row that is answered: its verdict is that of its own response,
    which is then the last one received. *)
Lemma submit_rows_answered r rest i ok response log cj status_code :
  session_of browser_cookie3 user_credentials r = Some cj ->
  post i cj url (Test2.form_data_of field_mappings r) = requests.Response status_code tt ->
  submit_rows (r :: rest) i ok response log
  = submit_rows rest (S i) (ok && negb (requests.raises_for_status status_code))
      (Some status_code)
      (log ++ [verdict (negb (requests.raises_for_status status_code)) i]).
Proof.
  unfold session_of, user_of, submit_rows. cbn [Test2.submit_rows]. cbv zeta.
  destruct (Test2.credentials_of user_credentials _) as [info|]; [| discriminate].
  destruct (Test2.get_google_cookies _ _ _) as [[|c cj']|]; try discriminate.
  intros [= <-] ->. unfold requests.raises_for_status.
  destruct (400 <=? status_code) eqn:E; simpl.
  - destruct (status_code <? 600); simpl; [| now rewrite andb_true_r].
    apply Z.leb_le in E. replace (status_code =? 302) with false by (symmetry; apply Z.eqb_neq; lia).
    now rewrite andb_false_r.
  - now rewrite andb_true_r.
Qed.

(** A row whose submission raises after a response has been received. *)
Lemma submit_rows_raised r rest i ok status_code log cj :
  session_of browser_cookie3 user_credentials r = Some cj ->
  post i cj url (Test2.form_data_of field_mappings r) = requests.Failed ->
  submit_rows (r :: rest) i ok (Some status_code) log
  = submit_rows rest (S i) false (Some status_code)
      (log ++ Failure i :: if status_code =? 302 then [SignInIssue] else []).
Proof.
  unfold session_of, user_of, submit_rows. cbn [Test2.submit_rows]. cbv zeta.
  destruct (Test2.credentials_of user_credentials _) as [info|]; [| discriminate].
  destruct (Test2.get_google_cookies _ _ _) as [[|c cj']|]; try discriminate.
  now intros [= <-] ->.
Qed.

Lemma reply_cases (reply : requests.reply unit) :
  reply = requests.Failed \/ exists status_code, reply = requests.Response status_code tt.
Proof. destruct reply as [|s []]; [now left | right; now exists s]. Qed.

(** Once a response has been received the loop reaches the end of the
    file: every row gets one line of its own, in order. *)
Lemma submit_rows_bound rows i ok status_code log :
  exists new,
    snd (submit_rows rows i ok (Some status_code) log) = (log ++ new)%list
    /\ reported_rows new = seq i (length rows)
    /\ ~ In Unexpected new.
Proof.
  revert i ok status_code log. induction rows as [|r rows IH]; intros i ok s log.
  - exists []. simpl. rewrite app_nil_r. auto.
  - destruct (session_of browser_cookie3 user_credentials r) as [cj|] eqn:Hs.
    + destruct (reply_cases (post i cj url (Test2.form_data_of field_mappings r)))
        as [Hp | [s' Hp]].
      * rewrite (submit_rows_raised _ _ _ _ _ _ _ Hs Hp).
        destruct (IH (S i) false s
                    (log ++ Failure i :: if s =? 302 then [SignInIssue] else [])%list)
          as (new & -> & Hrows & Hno).
        exists ((Failure i :: if s =? 302 then [SignInIssue] else []) ++ new)%list.
        split; [now rewrite app_assoc |]. split.
        -- destruct (s =? 302); simpl; now rewrite Hrows.
        -- intros H. apply in_app_or in H as [H | H]; [| contradiction].
           destruct (s =? 302); simpl in H; intuition discriminate.
      * rewrite (submit_rows_answered _ _ _ _ _ _ _ _ Hs Hp).
        destruct (IH (S i) (ok && negb (requests.raises_for_status s')) s'
                    (log ++ [verdict (negb (requests.raises_for_status s')) i])%list)
          as (new & -> & Hrows & Hno).
        exists (verdict (negb (requests.raises_for_status s')) i :: new).
        split; [now rewrite <- app_assoc |]. split.
        -- destruct (requests.raises_for_status s'); simpl; now rewrite Hrows.
        -- intros [H | H]; [| contradiction].
           destruct (requests.raises_for_status s'); discriminate.
    + destruct (submit_rows_skip r rows i ok (Some s) log Hs) as (e & _ & Hskip & Hrow & ->).
      destruct (IH (S i) false s (log ++ [e])%list) as (new & -> & Hrows & Hno).
      exists (e :: new). split; [now rewrite <- app_assoc |]. split.
      * simpl. now rewrite Hrow, Hrows.
      * intros [-> | H]; [discriminate | contradiction].
Qed.

(** Rows that are skipped: no submission is made for them. *)
Lemma submit_rows_skipped skipped rest i ok response log :
  List.Forall (fun r => session_of browser_cookie3 user_credentials r = None) skipped ->
  submit_rows (skipped ++ rest) i ok response log
  = submit_rows rest (i + length skipped)
      (ok && match skipped with [] => true | _ => false end) response
      (log ++ warnings user_credentials skipped i).
Proof.
  intros H. revert i ok log. induction H as [|r rows Hr _ IH]; intros i ok log.
  - simpl. now rewrite app_nil_r, andb_true_r, Nat.add_0_r.
  - rewrite <- app_comm_cons.
    destruct (submit_rows_skip r (rows ++ rest) i ok response log Hr)
      as (e & -> & _ & _ & ->).
    rewrite IH, andb_false_r. simpl. now rewrite <- app_assoc, Nat.add_succ_r.
Qed.

(** A row whose submission raises before any response was received:
    the handler fails on the name [response], and the run ends. *)
Lemma submit_rows_unbound r rest i ok log cj :
  session_of browser_cookie3 user_credentials r = Some cj ->
  post i cj url (Test2.form_data_of field_mappings r) = requests.Failed ->
  submit_rows (r :: rest) i ok None log = (false, (log ++ [Failure i; Unexpected])%list).
Proof.
  unfold session_of, user_of, submit_rows. cbn [Test2.submit_rows]. cbv zeta.
  destruct (Test2.credentials_of user_credentials _) as [info|]; [| discriminate].
  destruct (Test2.get_google_cookies _ _ _) as [[|c cj']|]; try discriminate.
  now intros [= <-] ->.
Qed.

(** The hint at a sign-in issue needs a response with status 302 and,
    after it, a submission that raises. *)
Lemma submit_rows_hint rows i ok response log :
  (response <> Some 302
   /\ forall i cj form_data, post i cj url form_data <> requests.Response 302 tt)
  \/ (forall i cj form_data, post i cj url form_data <> requests.Failed) ->
  exists new,
    snd (submit_rows rows i ok response log) = (log ++ new)%list
    /\ ~ In SignInIssue new.
Proof.
  revert i ok response log. induction rows as [|r rows IH]; intros i ok response log H.
  - exists []. simpl. rewrite app_nil_r. auto.
  - destruct (session_of browser_cookie3 user_credentials r) as [cj|] eqn:Hs.
    + destruct (reply_cases (post i cj url (Test2.form_data_of field_mappings r)))
        as [Hp | [s' Hp]].
      * destruct H as [[Hr Hno] | Hno]; [| now apply Hno in Hp].
        destruct response as [s|].
        -- rewrite (submit_rows_raised _ _ _ _ _ _ _ Hs Hp).
           assert (E : (s =? 302) = false) by (apply Z.eqb_neq; congruence).
           rewrite E.
           destruct (IH (S i) false (Some s) (log ++ [Failure i])%list) as (new & -> & Hn);
             [left; auto |].
           exists (Failure i :: new). split; [now rewrite <- app_assoc |].
           intros [? | ?]; [discriminate | contradiction].
        -- rewrite (submit_rows_unbound _ _ _ _ _ _ Hs Hp).
           exists [Failure i; Unexpected]. split; [reflexivity |].
           intros [? | [? | []]]; discriminate.
      * rewrite (submit_rows_answered _ _ _ _ _ _ _ _ Hs Hp).
        destruct (IH (S i) (ok && negb (requests.raises_for_status s')) (Some s')
                    (log ++ [verdict (negb (requests.raises_for_status s')) i])%list)
          as (new & -> & Hn).
        { destruct H as [[Hr Hno] | Hno]; [left | now right].
          split; [| assumption]. intros [= ->]. now apply Hno in Hp. }
        exists (verdict (negb (requests.raises_for_status s')) i :: new).
        split; [now rewrite <- app_assoc |].
        intros [? | ?]; [| contradiction].
        destruct (requests.raises_for_status s'); discriminate.
    + destruct (submit_rows_skip r rows i ok response log Hs) as (e & _ & Hskip & Hrow & ->).
      destruct (IH (S i) false response (log ++ [e])%list H) as (new & -> & Hn).
      exists (e :: new). split; [now rewrite <- app_assoc |].
      intros [-> | ?]; [discriminate | contradiction].
Qed.

(** Without a submission that raises, the loop reaches the end of the
    file whether a response has been received or not. *)
Lemma submit_rows_answered_all rows i ok response log :
  (forall i cj form_data, post i cj url form_data <> requests.Failed) ->
  exists new,
    snd (submit_rows rows i ok response log) = (log ++ new)%list
    /\ reported_rows new = seq i (length rows)
    /\ ~ In Unexpected new.
Proof.
  intros Hno. revert i ok response log.
  induction rows as [|r rows IH]; intros i ok response log.
  - exists []. simpl. rewrite app_nil_r. auto.
  - destruct (session_of browser_cookie3 user_credentials r) as [cj|] eqn:Hs.
    + destruct (reply_cases (post i cj url (Test2.form_data_of field_mappings r)))
        as [Hp | [s' Hp]]; [now apply Hno in Hp |].
      rewrite (submit_rows_answered _ _ _ _ _ _ _ _ Hs Hp).
      destruct (submit_rows_bound rows (S i) (ok && negb (requests.raises_for_status s')) s'
                  (log ++ [verdict (negb (requests.raises_for_status s')) i])%list)
        as (new & -> & Hrows & Hn).
      exists (verdict (negb (requests.raises_for_status s')) i :: new).
      split; [now rewrite <- app_assoc |]. split.
      * destruct (requests.raises_for_status s'); simpl; now rewrite Hrows.
      * intros [H | H]; [| contradiction].
        destruct (requests.raises_for_status s'); discriminate.
    + destruct (submit_rows_skip r rows i ok response log Hs) as (e & _ & Hskip & Hrow & ->).
      destruct (IH (S i) false response (log ++ [e])%list) as (new & -> & Hrows & Hn).
      exists (e :: new). split; [now rewrite <- app_assoc |]. split.
      * simpl. now rewrite Hrow, Hrows.
      * intros [-> | H]; [discriminate | contradiction].
Qed.

End Session.

Lemma warnings_rows user_credentials rows i :
  reported_rows (warnings user_credentials rows i) = seq i (length rows)
  /\ List.Forall (fun e => is_skip e = true) (warnings user_credentials rows i).
Proof.
  revert i. induction rows as [|r rows IH]; intros i; simpl; [split; constructor |].
  destruct (IH (S i)) as [Hrows Hall].
  assert (Hw : is_skip (warning_of user_credentials i r) = true
               /\ row_of_event (warning_of user_credentials i r) = Some i)
    by (unfold warning_of; destruct (Test2.credentials_of user_credentials (user_of r));
        split; reflexivity).
  destruct Hw as [Hw1 Hw2]. rewrite Hw2, Hrows. split; [reflexivity | now constructor].
Qed.

(** X11.  In test2.py a row is skipped when its user is not in the
    credential file or no cookie can be had for that user: nothing is
    sent for it, and the run is a failed one.  When every row of the
    file is skipped the transport is never used: the report has one
    warning per row, in order, and nothing else. *)
Theorem skipped_rows_are_not_submitted
    (browser_cookie3 : string -> option (list Test2.cookie))
    (post : Test2.session_transport)
    (user_credentials : py.dict Test2.user_info) (rows : list row) (form_url : string)
    (field_mappings : py.dict Test2.entry_id) :
  List.Forall (fun r => session_of browser_cookie3 user_credentials r = None) rows ->
  let log := warnings user_credentials rows 1 in
  Test2.csv_to_google_form browser_cookie3 post (Some rows) form_url field_mappings
    (Some user_credentials)
  = (match rows with [] => true | _ => false end, log)
  /\ reported_rows log = seq 1 (length rows)
  /\ List.Forall (fun e => is_skip e = true) log.
Proof.
  intros Hskip log. split; [| apply warnings_rows].
  unfold Test2.csv_to_google_form. cbv zeta.
  pose proof (submit_rows_skipped browser_cookie3 post user_credentials
                (py.replace form_url "/viewform" "/formResponse")
                field_mappings rows [] 1 true None [] Hskip) as E.
  rewrite app_nil_r in E. rewrite E. reflexivity.
Qed.

(** Two rows of a user the credential file does not have. *)
Lemma skipped_rows_are_not_submitted_unknown_user :
  Test2.csv_to_google_form (fun _ => None) (fun _ _ _ _ => requests.Response 200 tt)
    (Some [texts [("User", "eve"); ("Email", "a@example.org")];
           texts [("User", "eve"); ("Email", "b@example.org")]])
    "https://docs.google.com/forms/d/e/x/viewform" [("Email", Test2.Plain "entry.2")]
    (Some one_user)
  = (false, [UserNotFound 1; UserNotFound 2]).
Proof.
  refine (proj1 (skipped_rows_are_not_submitted (fun _ => None)
                   (fun _ _ _ _ => requests.Response 200 tt) one_user
                   [texts [("User", "eve"); ("Email", "a@example.org")];
                    (texts [("User", "eve"); ("Email", "b@example.org")])]
                   "https://docs.google.com/forms/d/e/x/viewform"
                   [("Email", Test2.Plain "entry.2")] _)).
  repeat constructor.
Defined.

(** X12.  In test2.py the run reaches the end of the data file once a
    submission has been answered: if the first row that is not skipped
    gets a response, whatever its status, then every row of the file
    has one line of its own in the report, in order, and the run is
    not cut short by an unexpected error. *)
Theorem run_completes_after_first_response
    (browser_cookie3 : string -> option (list Test2.cookie))
    (post : Test2.session_transport)
    (user_credentials : py.dict Test2.user_info) (form_url : string)
    (field_mappings : py.dict Test2.entry_id)
    (skipped : list row) (r : row) (rest : list row) (cj : list Test2.cookie)
    (status_code : Z) :
  List.Forall (fun r => session_of browser_cookie3 user_credentials r = None) skipped ->
  session_of browser_cookie3 user_credentials r = Some cj ->
  post (S (length skipped)) cj (py.replace form_url "/viewform" "/formResponse")
    (Test2.form_data_of field_mappings r) = requests.Response status_code tt ->
  let log := snd (Test2.csv_to_google_form browser_cookie3 post
                    (Some (skipped ++ r :: rest)%list) form_url field_mappings
                    (Some user_credentials)) in
  reported_rows log = seq 1 (length (skipped ++ r :: rest)%list) /\ ~ In Unexpected log.
Proof.
  intros Hskip Hs Hp log. subst log. unfold Test2.csv_to_google_form. cbv zeta.
  rewrite (submit_rows_skipped _ _ _ _ _ _ _ _ _ _ _ Hskip).
  rewrite (submit_rows_answered _ _ _ _ _ _ _ _ _ _ _ _ _ Hs Hp).
  destruct (submit_rows_bound browser_cookie3 post user_credentials
              (py.replace form_url "/viewform" "/formResponse") field_mappings rest
              (S (S (length skipped)))
              (true && match skipped with [] => true | _ => false end
               && negb (requests.raises_for_status status_code)) status_code
              (([] ++ warnings user_credentials skipped 1)
               ++ [verdict (negb (requests.raises_for_status status_code))
                     (S (length skipped))])%list)
    as (new & -> & Hrows & Hn).
  destruct (warnings_rows user_credentials skipped 1) as [Hw Hall].
  assert (Happ : forall a b, reported_rows (a ++ b) = (reported_rows a ++ reported_rows b)%list).
  { intros a b. induction a as [|e a IH]; [reflexivity |]. simpl.
    destruct (row_of_event e); simpl; now rewrite IH. }
  split.
  - rewrite !Happ, Hw, Hrows, length_app. simpl length.
    replace (length skipped + S (length rest))%nat
      with (length skipped + 1 + length rest)%nat by lia.
    rewrite !seq_app. simpl.
    destruct (requests.raises_for_status status_code); simpl;
      now rewrite Nat.add_1_r.
  - simpl. intros H. apply in_app_or in H as [H | H]; [| contradiction].
    apply in_app_or in H as [H | [H | []]].
    + apply (proj1 (List.Forall_forall _ _) Hall) in H. discriminate.
    + destruct (requests.raises_for_status status_code); discriminate.
Qed.

(** The first of three rows is answered, the second raises. *)
Lemma run_completes_after_first_response_three_rows :
  let log := snd (Test2.csv_to_google_form (fun _ => None) (fun i _ _ _ => second_fails i)
                    (Some three_rows) "https://docs.google.com/forms/d/e/x/viewform"
                    [("Email", Test2.Plain "entry.2")] (Some one_user)) in
  reported_rows log = [1; 2; 3]%nat /\ ~ In Unexpected log.
Proof.
  eapply (run_completes_after_first_response (fun _ => None) (fun i _ _ _ => second_fails i)
            one_user "https://docs.google.com/forms/d/e/x/viewform"
            [("Email", Test2.Plain "entry.2")] [] (texts [("Email", "a@example.org")])
            [texts [("Email", "b@example.org")]; texts [("Email", "c@example.org")]] _ 200).
  - constructor.
  - reflexivity.
  - reflexivity.
Defined.

(** X13.  The hint at a sign-in issue in test2.py is never about the
    response of the row it is printed for: it is printed only when a
    submission raises after an earlier one was answered with status
    302.  Without an answer of status 302 the report has no such hint;
    and when no submission raises it has none either, every row has its
    line, and the run is not cut short. *)
Theorem sign_in_hint_is_about_an_earlier_row
    (browser_cookie3 : string -> option (list Test2.cookie))
    (post : Test2.session_transport)
    (user_credentials : py.dict Test2.user_info) (rows : list row) (form_url : string)
    (field_mappings : py.dict Test2.entry_id) :
  let form_response_url := py.replace form_url "/viewform" "/formResponse" in
  let log := snd (Test2.csv_to_google_form browser_cookie3 post (Some rows) form_url
                    field_mappings (Some user_credentials)) in
  ((forall i cj form_data,
      post i cj form_response_url form_data <> requests.Response 302 tt) ->
   ~ In SignInIssue log)
  /\ ((forall i cj form_data, post i cj form_response_url form_data <> requests.Failed) ->
      ~ In SignInIssue log /\ ~ In Unexpected log
      /\ reported_rows log = seq 1 (length rows)).
Proof.
  intros url log. subst log. unfold Test2.csv_to_google_form. cbv zeta. fold url. split.
  - intros Hno.
    destruct (submit_rows_hint browser_cookie3 post user_credentials url field_mappings
                rows 1 true None []) as (new & -> & Hn); [left; split; [discriminate | exact Hno] |].
    exact Hn.
  - intros Hno. split.
    + destruct (submit_rows_hint browser_cookie3 post user_credentials url field_mappings
                  rows 1 true None []) as (new & -> & Hn); [now right |].
      exact Hn.
    + destruct (submit_rows_answered_all browser_cookie3 post user_credentials url
                  field_mappings rows 1 true None [] Hno) as (new & -> & Hrows & Hn).
      split; assumption.
Qed.

(** A row answered with status 302 counts as submitted; the hint comes
    with the next row, whose submission raises. *)
Lemma sign_in_hint_is_about_an_earlier_row_sample :
  Test2.csv_to_google_form (fun _ => None)
    (fun i _ _ _ => if (i =? 1)%nat then requests.Response 302 tt else requests.Failed)
    (Some three_rows) "https://docs.google.com/forms/d/e/x/viewform"
    [("Email", Test2.Plain "entry.2")] (Some one_user)
  = (false, [Success 1; Failure 2; SignInIssue; Failure 3; SignInIssue])
  /\ ~ In SignInIssue
       (snd (Test2.csv_to_google_form (fun _ => None) (fun i _ _ _ => second_fails i)
               (Some three_rows) "https://docs.google.com/forms/d/e/x/viewform"
               [("Email", Test2.Plain "entry.2")] (Some one_user))).
Proof.
  split; [reflexivity |].
  apply (proj1 (sign_in_hint_is_about_an_earlier_row (fun _ => None)
                  (fun i _ _ _ => second_fails i)
                  one_user three_rows "https://docs.google.com/forms/d/e/x/viewform"
                  [("Email", Test2.Plain "entry.2")])).
  intros i cj form_data H. unfold second_fails in H.
  destruct (i =? 2)%nat; discriminate H.
Defined.

(** ** test2.py: the cookies of a user *)

Lemma set_cookies_nonempty ds cj :
  (ds <> [] \/ cj <> []) ->
  fold_left (fun cj d => Test2.set_cookie cj (Test2.create_cookie d)) ds cj <> [].
Proof.
  revert cj. induction ds as [|d ds IH]; intros cj H; simpl.
  - destruct H as [H | H]; [contradiction | assumption].
  - apply IH. right. unfold Test2.set_cookie. intros E.
    apply app_eq_nil in E as [_ E]. discriminate.
Qed.

(** X14.  [get_google_cookies] gives [None] or a jar with a cookie in
    it, never an empty jar.  A non-empty list of cookies in the
    credential file always gives a jar, and the browser is not asked;
    without such a list (none, or an empty one) the jar is the
    browser's, and it is returned only if it holds a cookie whose name
    begins with S and contains SID. *)
Theorem cookie_jar_never_empty (browser_cookie3 : string -> option (list Test2.cookie))
    (browser_name : string) (cookies : option (list Test2.cookie_data)) :
  let result := Test2.get_google_cookies browser_cookie3 browser_name cookies in
  result <> Some []
  /\ (forall d ds, cookies = Some (d :: ds) ->
        result <> None
        /\ forall browser_cookie3' browser_name',
             Test2.get_google_cookies browser_cookie3' browser_name' cookies = result)
  /\ (cookies = None \/ cookies = Some [] ->
      forall cj, result = Some cj ->
        browser_cookie3 browser_name = Some cj
        /\ exists c, In c cj /\ py.startswith (Test2.c_name c) "S" = true
                     /\ py.contains (Test2.c_name c) "SID" = true).
Proof.
  intros result. subst result.
  assert (Hbrowser : forall cj,
            match browser_cookie3 browser_name with
            | Some cj =>
                if existsb (fun c => py.startswith (Test2.c_name c) "S"
                                     && py.contains (Test2.c_name c) "SID") cj
                then Some cj else None
            | None => None
            end = Some cj ->
            browser_cookie3 browser_name = Some cj
            /\ exists c, In c cj /\ py.startswith (Test2.c_name c) "S" = true
                         /\ py.contains (Test2.c_name c) "SID" = true).
  { intros cj. destruct (browser_cookie3 browser_name) as [cj'|]; [| discriminate].
    destruct (existsb _ cj') eqn:E; [| discriminate]. intros [= ->]. split; [reflexivity |].
    apply existsb_exists in E as (c & Hin & Hc). apply andb_true_iff in Hc. now exists c. }
  split; [| split].
  - destruct cookies as [[|d ds]|]; unfold Test2.get_google_cookies.
    + intros H. destruct (Hbrowser _ H) as (_ & c & [] & _).
    + intros [= H]. revert H. apply (set_cookies_nonempty (d :: ds) []). left. discriminate.
    + intros H. destruct (Hbrowser _ H) as (_ & c & [] & _).
  - intros d ds ->. split; [discriminate | reflexivity].
  - intros [-> | ->] cj; exact (Hbrowser cj).
Qed.

(** ** test2.py: the texts put into the prompt *)

Lemma replace_char a b s :
  py.replace s (String a EmptyString) (String b EmptyString)
  = map_chars (fun c => if Ascii.eqb a c then b else c) s.
Proof.
  unfold py.replace. induction s as [|c s IH]; [reflexivity |].
  cbn [py.replace_from py.startswith map_chars String.length Nat.sub].
  destruct (Ascii.eqb a c); cbn [andb]; rewrite <- IH.
  - destruct s; reflexivity.
  - destruct s; reflexivity.
Qed.

Lemma map_chars_compose f g s : map_chars g (map_chars f s) = map_chars (fun c => g (f c)) s.
Proof. induction s as [|c s IH]; [reflexivity |]. simpl. now rewrite IH. Qed.

Lemma map_chars_ext f g s : (forall c, f c = g c) -> map_chars f s = map_chars g s.
Proof. intros H. induction s as [|c s IH]; [reflexivity |]. simpl. now rewrite H, IH. Qed.

(** Deleting the matches of a negated set keeps the characters of the
    set. *)
Lemma delete_negated_set items s p :
  re.delete_from false (re.Seq (re.CharSet true items) re.Empty) O s p
  = keep (fun c => existsb (re.item_matches false c) items) s.
Proof.
  revert p. induction s as [|c s IH]; intros p; [reflexivity |].
  cbn [re.delete_from re.run re.one_char keep].
  destruct (existsb (re.item_matches false c) items); cbn [xorb negb].
  - now rewrite IH.
  - replace (p <? S p)%nat with true by (symmetry; apply Nat.ltb_lt; lia).
    replace (S p - p - 1)%nat with O by lia. apply IH.
Qed.

Lemma keep_ext f g s : (forall c, f c = g c) -> keep f s = keep g s.
Proof. intros H. induction s as [|c s IH]; [reflexivity |]. simpl. now rewrite H, IH. Qed.

Lemma sanitize_for_prompt_eq text :
  Test2.sanitize_for_prompt text = keep allowed (map_chars blank text).
Proof.
  unfold Test2.sanitize_for_prompt. cbv zeta.
  unfold Test2.newline, Test2.tab. rewrite !replace_char, map_chars_compose.
  change (re.delete Test2.unwanted ?t)
    with (re.Returned (re.delete_from false
            (re.Seq (re.CharSet true
               [re.SClass false re.Word; re.SClass false re.Space;
                re.SChar "."; re.SChar ","; re.SChar ";"; re.SChar ":";
                re.SChar "-"; re.SChar "!"; re.SChar "?"; re.SChar "034"])
               re.Empty) O t O)).
  rewrite delete_negated_set.
  rewrite (map_chars_ext _ blank).
  - apply keep_ext. intros c. unfold allowed. simpl.
    now rewrite !orb_false_r, <- !orb_assoc.
  - intros c. unfold blank.
    destruct (Ascii.eqb "010" c) eqn:E; [reflexivity |]. reflexivity.
Qed.

Lemma keep_chars ok s c :
  In c (list_ascii_of_string (keep ok s)) -> ok c = true /\ In c (list_ascii_of_string s).
Proof.
  induction s as [|a s IH]; simpl; [intros [] |].
  destruct (ok a) eqn:E; simpl.
  - intros [<- | H]; [auto | destruct (IH H); auto].
  - intros H. destruct (IH H). auto.
Qed.

Lemma keep_all ok s :
  (forall c, In c (list_ascii_of_string s) -> ok c = true) -> keep ok s = s.
Proof.
  induction s as [|a s IH]; intros H; [reflexivity |]. simpl.
  rewrite (H a (or_introl eq_refl)). f_equal. apply IH. intros c Hc. apply H. now right.
Qed.

Lemma blank_char a : blank a <> "010"%char /\ blank a <> "009"%char.
Proof.
  unfold blank. destruct (Ascii.eqb "010" a) eqn:E1; cbn [orb].
  - split; apply Ascii.eqb_neq; reflexivity.
  - destruct (Ascii.eqb "009" a) eqn:E2.
    + split; apply Ascii.eqb_neq; reflexivity.
    + apply Ascii.eqb_neq in E1, E2. split; congruence.
Qed.

Lemma blank_chars s c :
  In c (list_ascii_of_string (map_chars blank s)) -> c <> "010"%char /\ c <> "009"%char.
Proof.
  induction s as [|a s IH]; simpl; [intros [] |].
  intros [H | H]; [subst c; apply blank_char | auto].
Qed.

Lemma blank_none s :
  (forall c, In c (list_ascii_of_string s) -> c <> "010"%char /\ c <> "009"%char) ->
  map_chars blank s = s.
Proof.
  induction s as [|a s IH]; intros H; [reflexivity |]. simpl.
  destruct (H a (or_introl eq_refl)) as [H1 H2].
  unfold blank at 1. apply not_eq_sym, Ascii.eqb_neq in H1, H2. rewrite H1, H2. simpl.
  f_equal. apply IH. intros c Hc. apply H. now right.
Qed.

(** X15.  [sanitize_for_prompt] turns line feeds and tabulators into
    spaces and then drops every character that is not a letter, a
    digit, an underscore, white space or one of [.,;:-!?] and the
    double quote.  Its result is made of such characters only and has
    no line feed and no tabulator in it, so that a sanitized label
    stays on its line of the prompt; a text that is already so is
    returned as it is, and sanitizing twice changes nothing more. *)
Theorem sanitized_text_is_clean (text : string) :
  ascii_text text ->
  let clean s := forall c, In c (list_ascii_of_string s) ->
                   allowed c = true /\ c <> "010"%char /\ c <> "009"%char in
  Test2.sanitize_for_prompt text = keep allowed (map_chars blank text)
  /\ clean (Test2.sanitize_for_prompt text)
  /\ (clean text -> Test2.sanitize_for_prompt text = text)
  /\ Test2.sanitize_for_prompt (Test2.sanitize_for_prompt text)
     = Test2.sanitize_for_prompt text.
Proof.
  intros _ clean.
  assert (Hclean : forall t, clean (Test2.sanitize_for_prompt t)).
  { intros t c. rewrite sanitize_for_prompt_eq. intros H.
    apply keep_chars in H as [Hok H]. split; [exact Hok | now apply blank_chars in H]. }
  assert (Hid : forall t, clean t -> Test2.sanitize_for_prompt t = t).
  { intros t Ht. rewrite sanitize_for_prompt_eq.
    rewrite blank_none by (intros c Hc; now apply Ht).
    apply keep_all. intros c Hc. now apply Ht. }
  split; [apply sanitize_for_prompt_eq |]. split; [apply Hclean |].
  split; [apply Hid | apply Hid, Hclean].
Qed.

(** A label with markup and a line break. *)
Lemma sanitized_text_is_clean_label :
  Test2.sanitize_for_prompt ("<b>Your" ++ Test2.newline ++ "e-mail</b> (required) *")
  = "bYour e-mailb required ".
Proof.
  rewrite (proj1 (sanitized_text_is_clean
                    ("<b>Your" ++ Test2.newline ++ "e-mail</b> (required) *")
                    ltac:(repeat constructor))).
  reflexivity.
Defined.

(** ** The field map read from the page *)

Section EntryNumber.
Import re.

(** A greedy repetition of [\d] before a continuation that cannot fail
    takes all the digits there are. *)
Lemma rounds_digits body (k : cont) fuel s p g :
  (forall s p g k, body s p g k = one_char py.isdigit s p g k) ->
  (forall s p g, k s p g <> None) ->
  (String.length s <= fuel)%nat ->
  rounds true body k fuel s p g
  = k (skip_digits s) (p + String.length (leading_digits s))%nat g.
Proof.
  intros Hbody Hk. revert s p g. induction fuel as [|fuel IH]; intros s p g Hlen.
  - destruct s; [| simpl in Hlen; lia]. simpl. now rewrite Nat.add_0_r.
  - cbn [rounds]. rewrite Hbody. destruct s as [|c s]; cbn [one_char].
    + simpl. now rewrite Nat.add_0_r.
    + cbn [skip_digits leading_digits].
      destruct (py.isdigit c).
      * replace (p <? S p)%nat with true by (symmetry; apply Nat.ltb_lt; lia).
        rewrite IH by (simpl in Hlen; lia).
        cbn [String.length]. rewrite Nat.add_succ_r.
        change (S (p + String.length (leading_digits s)))
          with (S p + String.length (leading_digits s))%nat.
        destruct (k (skip_digits s) (S p + String.length (leading_digits s))%nat g) eqn:E;
          [reflexivity | now apply Hk in E].
      * simpl. now rewrite Nat.add_0_r.
Qed.

Lemma run_entry s p :
  run false entry_pattern s p [] (fun _ p' g' => Some ((O, (p, p')) :: g'))
  = match number_at s with
    | Some digits =>
        Some [(O, (p, p + 2 + String.length digits)%nat);
              (1%nat, (p + 2, p + 2 + String.length digits)%nat)]
    | None => None
    end.
Proof.
  unfold number_at, entry_pattern.
  destruct s as [|c1 [|c2 rest]]; cbn [run one_char py.startswith char_eq].
  - reflexivity.
  - destruct (Ascii.eqb "[" c1); reflexivity.
  - destruct (Ascii.eqb "[" c1); [| reflexivity].
    destruct (Ascii.eqb "[" c2); [| reflexivity]. cbn [andb].
    destruct rest as [|c0 rest]; [reflexivity |].
    cbn [leading_digits in_category xorb one_char]. destruct (py.isdigit c0); [| reflexivity].
    rewrite rounds_digits; [| reflexivity | discriminate | lia].
    cbn [String.length].
    replace (p + 2 + S (String.length (leading_digits rest)))%nat
      with (S (S (S p)) + String.length (leading_digits rest))%nat by lia.
    replace (p + 2)%nat with (S (S p)) by lia. reflexivity.
Qed.

Lemma substring_leading s :
  String.substring 0 (String.length (leading_digits s)) s = leading_digits s.
Proof.
  induction s as [|c s IH]; [reflexivity |]. simpl.
  destruct (py.isdigit c); [simpl; now rewrite IH | reflexivity].
Qed.

Lemma number_at_substring s digits :
  number_at s = Some digits -> String.substring 2 (String.length digits) s = digits.
Proof.
  unfold number_at. destruct (py.startswith s "[["); [| discriminate].
  destruct s as [|c1 [|c2 rest]]; try discriminate.
  destruct (leading_digits rest) eqn:E; [discriminate |]. intros [= <-].
  rewrite <- E. simpl. apply substring_leading.
Qed.

(** The search of line 88 finds the first number after two opening
    brackets, and its group 1 is that number. *)
Lemma search_entry s p :
  match entry_number s with
  | Some digits =>
      exists off,
        search_from false entry_pattern s p
        = Some [(O, (p + off, p + off + 2 + String.length digits)%nat);
                (1%nat, (p + off + 2, p + off + 2 + String.length digits)%nat)]
        /\ String.substring (off + 2) (String.length digits) s = digits
  | None => search_from false entry_pattern s p = None
  end.
Proof.
  revert p. induction s as [|c s IH]; intros p; cbn [entry_number search_from];
    rewrite run_entry.
  - reflexivity.
  - destruct (number_at (String c s)) as [digits|] eqn:E.
    + exists O. rewrite Nat.add_0_r. split; [reflexivity |]. now apply number_at_substring.
    + specialize (IH (S p)). destruct (entry_number s) as [digits|]; [| exact IH].
      destruct IH as (off & -> & Hsub). exists (S off).
      replace (p + S off)%nat with (S p + off)%nat by lia.
      split; [reflexivity | exact Hsub].
Qed.

Lemma search_entry_group data_params :
  match entry_number data_params with
  | Some digits =>
      exists m, search "\[\[(\d+)" data_params false = Returned (Some m)
                /\ group data_params m 1 = Some digits
  | None => search "\[\[(\d+)" data_params false = Returned None
  end.
Proof.
  change (search "\[\[(\d+)" data_params false)
    with (Returned (search_from false entry_pattern data_params O)).
  pose proof (search_entry data_params O) as H.
  destruct (entry_number data_params) as [digits|]; [| now rewrite H].
  destruct H as (off & -> & Hsub). eexists. split; [reflexivity |].
  unfold group. simpl.
  replace (off + 2 + String.length digits - (off + 2))%nat with (String.length digits) by lia.
  now rewrite Hsub.
Qed.

End EntryNumber.
Lemma scan_items_fields list_items entry_ids :
  Test.scan_items list_items entry_ids
  = Some (fold_left (fun d kv => py.set d (fst kv) (snd kv)) (fields_of list_items) entry_ids).
Proof.
  revert entry_ids. induction list_items as [|item rest IH]; intros d; [reflexivity |].
  cbn [Test.scan_items fields_of]. unfold field_of.
  destruct (Test.question_span item) as [span|]; [| apply IH].
  destruct (Test.parent_div item) as [data_params|]; [| apply IH].
  pose proof (search_entry_group data_params) as H.
  destruct (py.truthy data_params) eqn:Ht; cbn [negb].
  - destruct (entry_number data_params) as [digits|].
    + destruct H as (m & -> & ->). apply IH.
    + rewrite H. apply IH.
  - apply negb_false_iff, String.eqb_eq in Ht. subst data_params. apply IH.
Qed.

Lemma leading_digits_all s : only_digits (leading_digits s).
Proof.
  unfold only_digits. induction s as [|c s IH]; simpl; [constructor |].
  destruct (py.isdigit c) eqn:E; simpl; now constructor.
Qed.

Lemma entry_number_digits s digits :
  entry_number s = Some digits -> digits <> EmptyString /\ only_digits digits.
Proof.
  induction s as [|c s IH]; cbn [entry_number].
  - unfold number_at. simpl. discriminate.
  - destruct (number_at (String c s)) as [d|] eqn:E; [| exact IH].
    intros [= ->]. unfold number_at in E.
    destruct (py.startswith (String c s) "[["); [| discriminate].
    destruct s as [|c2 rest]; [discriminate |].
    pose proof (leading_digits_all rest) as Hall.
    destruct (leading_digits rest); [discriminate |].
    injection E as <-. split; [discriminate | exact Hall].
Qed.

Lemma in_fields_of list_items label id :
  In (label, id) (fields_of list_items) ->
  exists item, In item list_items /\ field_of item = Some (label, id).
Proof.
  induction list_items as [|item rest IH]; simpl; [intros [] |].
  destruct (field_of item) as [f|] eqn:E.
  - intros [-> | H]; [exists item; auto |].
    destruct (IH H) as (i & ? & ?). exists i. auto.
  - intros H. destruct (IH H) as (i & ? & ?). exists i. auto.
Qed.

Lemma of_items_facts {V : Type} (l : list (string * V)) (d : py.dict V) :
  List.NoDup (py.keys d) ->
  let result := fold_left (fun d kv => py.set d (fst kv) (snd kv)) l d in
  List.NoDup (py.keys result)
  /\ (forall k v, In (k, v) result -> In (k, v) d \/ In (k, v) l)
  /\ (forall k, In k (py.keys d) \/ In k (map fst l) -> In k (py.keys result)).
Proof.
  revert d. induction l as [|[k0 v0] l IH]; intros d Hd; cbv zeta.
  - simpl. split; [assumption |]. split; [auto | intros k [H | []]; assumption].
  - simpl. destruct (IH (py.set d k0 v0) (keys_set_nodup _ _ _ Hd)) as (Hnd & Hin & Hkeys).
    cbv zeta in *. split; [assumption |]. split.
    + intros k v H. destruct (Hin k v H) as [H' | H']; [| right; now right].
      apply in_set in H' as [[-> ->] | H']; [right; now left | now left].
    + intros k H. apply Hkeys. destruct H as [H | [<- | H]].
      * left. now apply in_keys_kept.
      * left. apply in_keys_new.
      * now right.
Qed.

(** X16.  The field map of test.py and bot.py, which read the page in
    the same way.  A page that was fetched gives the dictionary built
    from its list items in order: the stripped text of the first span
    of an item, bound to [entry.] followed by the first number after
    two opening brackets in the item's [data-params]; an item that
    lacks one of them is left out, and no item makes the function
    fail.  So a field map that is returned is not empty, and each of
    its identifiers is [entry.] followed by one or more digits. *)
Theorem field_map_of_page (page : requests.reply (list Test.listitem)) :
  Bot.get_form_entry_ids page = Test.get_form_entry_ids page
  /\ Test.get_form_entry_ids page
     = match page with
       | requests.Failed => None
       | requests.Response status_code list_items =>
           if requests.raises_for_status status_code then None
           else match py.of_items (fields_of list_items) with
                | [] => None
                | entry_ids => Some entry_ids
                end
       end
  /\ forall entry_ids,
       Test.get_form_entry_ids page = Some entry_ids ->
       entry_ids <> []
       /\ List.NoDup (py.keys entry_ids)
       /\ forall label id, In (label, id) entry_ids ->
            exists digits,
              id = "entry." ++ digits /\ digits <> EmptyString /\ only_digits digits.
Proof.
  split; [reflexivity |].
  assert (Heq : Test.get_form_entry_ids page
                = match page with
                  | requests.Failed => None
                  | requests.Response status_code list_items =>
                      if requests.raises_for_status status_code then None
                      else match py.of_items (fields_of list_items) with
                           | [] => None
                           | entry_ids => Some entry_ids
                           end
                  end).
  { unfold Test.get_form_entry_ids. destruct page as [|status_code list_items]; [reflexivity |].
    rewrite scan_items_fields. unfold py.of_items.
    destruct (requests.raises_for_status status_code); [reflexivity |].
    now destruct (fold_left _ _ _). }
  split; [exact Heq |]. rewrite Heq. clear Heq.
  destruct page as [|status_code list_items]; [discriminate |].
  destruct (requests.raises_for_status status_code); [discriminate |].
  intros entry_ids H.
  destruct (of_items_facts (fields_of list_items) [] (List.NoDup_nil _)) as (Hnd & Hin & _).
  cbv zeta in *. fold (py.of_items (fields_of list_items)) in *.
  destruct (py.of_items (fields_of list_items)) as [|e es]; [discriminate |].
  injection H as <-. split; [discriminate |]. split; [exact Hnd |].
  intros label id Hl. destruct (Hin label id Hl) as [[] | Hf].
  apply in_fields_of in Hf as (item & _ & Hf). unfold field_of in Hf.
  destruct (Test.question_span item); [| discriminate].
  destruct (Test.parent_div item) as [data_params|]; [| discriminate].
  destruct (entry_number data_params) as [digits|] eqn:E; [| discriminate].
  injection Hf as _ <-. exists digits. split; [reflexivity |].
  exact (entry_number_digits _ _ E).
Qed.

(** ** test2.py: the field map read from the page *)

Lemma record_field_named c name entry_ids :
  well_named entry_ids -> well_named (Test2.record_field c name entry_ids).
Proof.
  intros Hd. unfold Test2.record_field.
  destruct name as [field_name|]; [| assumption].
  destruct (py.truthy field_name) eqn:Ht; [| assumption].
  destruct (py.startswith field_name "entry.") eqn:Hs; [| assumption]. cbn [andb].
  intros label e H. apply in_set in H as [[-> ->] | H]; [| now apply Hd].
  split; [| exact Hs].
  apply negb_true_iff, String.eqb_neq in Ht.
  destruct (Test2._extract_label c) as [l|]; [| assumption].
  destruct (py.truthy l) eqn:Hl; [| assumption].
  now apply negb_true_iff, String.eqb_neq in Hl.
Qed.

Lemma scan_containers_named cs entry_ids :
  well_named entry_ids -> well_named (fold_left Test2.scan_container cs entry_ids).
Proof.
  revert entry_ids. induction cs as [|c cs IH]; intros d Hd; [assumption |].
  simpl. apply IH. unfold Test2.scan_container.
  destruct (Test2.input_field c) as [i|], (Test2.textarea_field c) as [t|];
    repeat apply record_field_named; assumption.
Qed.

Lemma scan_hidden_named hs entry_ids :
  well_named entry_ids ->
  well_named (fold_left Test2.scan_hidden hs entry_ids)
  /\ (forall label name value,
        In (label, Test2.Hidden name value) (fold_left Test2.scan_hidden hs entry_ids) ->
        In (label, Test2.Hidden name value) entry_ids
        \/ exists h, In h hs /\ Test2.hidden_name h = Some name
             /\ value = match Test2.hidden_value h with Some v => v | None => EmptyString end).
Proof.
  revert entry_ids. induction hs as [|h hs IH]; intros d Hd; [split; [assumption | auto] |].
  simpl.
  assert (Hstep : well_named (Test2.scan_hidden d h)).
  { unfold Test2.scan_hidden. destruct (Test2.hidden_name h) as [name|]; [| assumption].
    destruct (py.truthy name) eqn:Ht; [| assumption].
    intros label e H. apply in_set in H as [[-> ->] | H]; [| now apply Hd].
    split; [| reflexivity]. now apply negb_true_iff, String.eqb_neq in Ht. }
  destruct (IH _ Hstep) as [Hnamed Hfrom]. split; [assumption |].
  intros label name value H. destruct (Hfrom _ _ _ H) as [H' | (h' & ? & ? & ?)].
  - unfold Test2.scan_hidden in H'. destruct (Test2.hidden_name h) as [n|] eqn:En; [| now left].
    destruct (py.truthy n); [| now left].
    apply in_set in H' as [[-> E] | H']; [| now left].
    injection E as <- ->. right. exists h. auto.
  - right. exists h'. auto.
Qed.

Lemma scan_hidden_kept hs entry_ids name :
  (exists value, py.get entry_ids name = Some (Test2.Hidden name value)) ->
  exists value, py.get (fold_left Test2.scan_hidden hs entry_ids) name
                = Some (Test2.Hidden name value).
Proof.
  revert entry_ids. induction hs as [|h hs IH]; intros d Hd; [assumption |].
  simpl. apply IH. unfold Test2.scan_hidden.
  destruct (Test2.hidden_name h) as [n|]; [| assumption].
  destruct (py.truthy n); [| assumption].
  destruct (String.eqb n name) eqn:E.
  - apply String.eqb_eq in E. subst n. eexists. apply get_set_eq.
  - apply String.eqb_neq in E. destruct Hd as [v Hv]. exists v. now rewrite get_set_ne.
Qed.

Lemma scan_hidden_present hs entry_ids h name :
  In h hs -> Test2.hidden_name h = Some name -> name <> EmptyString ->
  exists value, py.get (fold_left Test2.scan_hidden hs entry_ids) name
                = Some (Test2.Hidden name value).
Proof.
  revert entry_ids. induction hs as [|h0 hs IH]; intros d Hin Hname Hne; [destruct Hin |].
  destruct Hin as [-> | Hin].
  - simpl. apply scan_hidden_kept. unfold Test2.scan_hidden. rewrite Hname.
    replace (py.truthy name) with true
      by (symmetry; now apply negb_true_iff, String.eqb_neq).
    eexists. apply get_set_eq.
  - simpl. now apply IH.
Qed.

(** X17.  The field map of test2.py.  A visible field is recorded only
    under a name that begins with [entry.], and under a label that is
    not empty (the name itself when the page gives no label); a hidden
    field is recorded under its own name, with the value of one of the
    hidden inputs of that name, or the empty text when that input has
    no value.  Every hidden input with a name is in the field map,
    even when a visible field had that name as its label. *)
Theorem extended_field_map_well_formed (status_code : Z) (doc : Test2.soup)
    (entry_ids : py.dict Test2.entry_id) :
  Test2.get_form_entry_ids (requests.Response status_code doc) = Some entry_ids ->
  (forall label name, In (label, Test2.Plain name) entry_ids ->
     label <> EmptyString /\ py.startswith name "entry." = true)
  /\ (forall label name value, In (label, Test2.Hidden name value) entry_ids ->
        label = name /\ name <> EmptyString
        /\ exists h, In h (Test2.hidden_inputs doc) /\ Test2.hidden_name h = Some name
             /\ value = match Test2.hidden_value h with Some v => v | None => EmptyString end)
  /\ (forall h name, In h (Test2.hidden_inputs doc) -> Test2.hidden_name h = Some name ->
        name <> EmptyString ->
        exists value, py.get entry_ids name = Some (Test2.Hidden name value)).
Proof.
  unfold Test2.get_form_entry_ids.
  destruct (requests.raises_for_status status_code); [discriminate |]. intros [= <-].
  assert (Hvisible : well_named (fold_left Test2.scan_container (Test2.containers doc) []))
    by (apply scan_containers_named; intros ? ? []).
  destruct (scan_hidden_named (Test2.hidden_inputs doc) _ Hvisible) as [Hnamed Hfrom].
  split; [| split].
  - intros label name H. exact (Hnamed _ _ H).
  - intros label name value H. destruct (Hnamed _ _ H) as [Hne ->].
    split; [reflexivity |]. split; [assumption |].
    destruct (Hfrom _ _ _ H) as [H' | H']; [| exact H'].
    destruct (scan_containers_plain (Test2.containers doc) []) as [_ Hplain];
      [constructor | intros ? ? ? [] |].
    now apply Hplain in H'.
  - intros h name Hin Hname Hne. now apply (scan_hidden_present _ _ h).
Qed.

(** A page with one visible field without a label and one hidden
    input. *)
Lemma extended_field_map_well_formed_sample :
  let doc :=
    {| Test2.containers :=
         [{| Test2.input_field :=
               Some {| Test2.input_name := Some "entry.5"; Test2.aria_labelledby := None |};
             Test2.textarea_field := None;
             Test2.element_by_id := fun _ => None;
             Test2.first_span := None;
             Test2.heading := None |}];
       Test2.hidden_inputs :=
         [{| Test2.hidden_name := Some "fbzx"; Test2.hidden_value := None |}] |} in
  Test2.get_form_entry_ids (requests.Response 200 doc)
  = Some [("entry.5", Test2.Plain "entry.5"); ("fbzx", Test2.Hidden "fbzx" EmptyString)]
  /\ exists value,
       py.get [("entry.5", Test2.Plain "entry.5"); ("fbzx", Test2.Hidden "fbzx" EmptyString)]
         "fbzx" = Some (Test2.Hidden "fbzx" value).
Proof.
  intros doc. split; [reflexivity |].
  destruct (extended_field_map_well_formed 200 doc
              [("entry.5", Test2.Plain "entry.5"); ("fbzx", Test2.Hidden "fbzx" EmptyString)]
              eq_refl) as (_ & _ & H).
  apply (H {| Test2.hidden_name := Some "fbzx"; Test2.hidden_value := None |});
    [now left | reflexivity | discriminate].
Defined.

(** ** Strategy C: the mapping returned *)

(** X18.  The mapping of Strategy C, key by key, when the reply of the
    model decodes to an object: under the name of a hidden field it
    holds that field's pair, whatever the model said about that key;
    under any other key it holds what the model's object gives for it,
    checked or not; and it holds nothing else. *)
Theorem delegated_mapping_entries (generate_content : string -> option string)
    (json_loads : string -> option Test2.json)
    (entry_id_dict : py.dict Test2.entry_id) (csv_header : list string)
    (members : py.dict Test2.json) (key : string) :
  field_map entry_id_dict ->
  reply_decodes_to generate_content json_loads entry_id_dict csv_header members ->
  py.get (fst (Test2.find_matching_keys_with_gemini generate_content json_loads
                 entry_id_dict csv_header)) key
  = match py.get entry_id_dict key with
    | Some (Test2.Hidden name value) => Some (Test2.Id (Test2.Hidden name value))
    | _ => option_map Test2.of_json (py.get members key)
    end.
Proof.
  intros [Hnd Hown] Hreply. rewrite (decoded_reply _ _ _ _ _ Hreply).
  assert (Hother : (forall name value, py.get entry_id_dict key <> Some (Test2.Hidden name value)) ->
                   py.get (Test2.add_hidden entry_id_dict
                             (map (fun '(k, j) => (k, Test2.of_json j)) members)) key
                   = option_map Test2.of_json (py.get members key)).
  { intros Hno. rewrite add_hidden_other; [apply get_of_json |].
    intros label value H. pose proof (Hown _ _ _ H) as ->.
    apply (Hno key value). now apply in_get. }
  destruct (py.get entry_id_dict key) as [[name | name value]|] eqn:E.
  - apply Hother. discriminate.
  - apply get_some_in in E. pose proof (Hown _ _ _ E) as ->.
    apply (add_hidden_name _ _ name); [now right |].
    intros label' value' H. pose proof (Hown _ _ _ H) as ->.
    pose proof (in_get _ _ _ Hnd H) as H1. pose proof (in_get _ _ _ Hnd E) as H2.
    congruence.
  - apply Hother. discriminate.
Qed.

(** The reply maps Email to entry.2, and the form has a hidden field. *)
Lemma delegated_mapping_entries_hidden :
  py.get (fst (Test2.find_matching_keys_with_gemini (fun _ => Some email_reply)
                 flat_json.loads
                 [("Your email", Test2.Plain "entry.2");
                  ("entry.9", Test2.Hidden "entry.9" "abc")]
                 ["Email"])) "entry.9"
  = Some (Test2.Id (Test2.Hidden "entry.9" "abc")).
Proof.
  apply (delegated_mapping_entries (fun _ => Some email_reply) flat_json.loads
           [("Your email", Test2.Plain "entry.2"); ("entry.9", Test2.Hidden "entry.9" "abc")]
           ["Email"] [("Email", Test2.JString "entry.2")] "entry.9").
  - split.
    + repeat constructor; simpl; intuition discriminate.
    + intros label name value [H | [H | []]]; [discriminate H |].
      injection H as <- <- _. reflexivity.
  - exists email_reply. eexists. eexists. repeat split; vm_compute; reflexivity.
Defined.

(** ** Strategy C: replies that give no mapping *)

Lemma lower_backquote c :
  re.char_eq true "`" c = true -> c = "`"%char.
Proof.
  destruct c as [[] [] [] [] [] [] [] []]; vm_compute; intros H;
    try discriminate H; reflexivity.
Qed.

(** A pattern that begins with a backquote is not found in a text
    without one. *)
Lemma search_from_no_backquote r s p :
  ~ In "`"%char (list_ascii_of_string s) ->
  re.search_from true (re.Seq (re.Lit "`") r) s p = None.
Proof.
  revert p. induction s as [|c s IH]; intros p Hno; [reflexivity |].
  cbn [re.search_from re.run re.one_char].
  destruct (re.char_eq true "`" c) eqn:E.
  - apply lower_backquote in E. subst c. exfalso. apply Hno. now left.
  - apply IH. intros H. apply Hno. now right.
Qed.

Lemma search_no_backquote text :
  ~ In "`"%char (list_ascii_of_string text) ->
  re.search Test2.json_block text true = re.Returned None.
Proof.
  intros Hno. unfold re.search.
  destruct (re.compile Test2.json_block) as [r | msg |] eqn:E; vm_compute in E;
    try discriminate E.
  injection E as <-. now rewrite search_from_no_backquote.
Qed.

(** X19.  Strategy C returns the empty mapping, without the hidden
    fields of the form, whenever it gets no usable reply: the call of
    the model fails, the reply has no backquote in it (so a reply that
    is bare JSON, without a fence, is not read), or the text between
    the fences is not JSON. *)
Theorem unusable_reply_gives_empty_mapping (generate_content : string -> option string)
    (json_loads : string -> option Test2.json)
    (entry_id_dict : py.dict Test2.entry_id) (csv_header : list string) :
  let result := Test2.find_matching_keys_with_gemini generate_content json_loads
                  entry_id_dict csv_header in
  let reply := generate_content (Test2.prompt_of entry_id_dict csv_header) in
  (reply = None -> result = ([], []))
  /\ (forall text, reply = Some text -> ~ In "`"%char (list_ascii_of_string text) ->
        result = ([], []))
  /\ (forall text m block, reply = Some text ->
        re.search Test2.json_block text true = re.Returned (Some m) ->
        re.group text m 1 = Some block ->
        json_loads (py.strip block) = None ->
        result = ([], [])).
Proof.
  intros result reply. subst result reply. unfold Test2.find_matching_keys_with_gemini.
  split; [| split].
  - now intros ->.
  - intros text -> Hno. now rewrite search_no_backquote.
  - intros text m block -> -> -> ->. reflexivity.
Qed.

(** A reply that is the JSON object itself, for a form with a hidden
    field. *)
Lemma unusable_reply_gives_empty_mapping_bare_json :
  Test2.find_matching_keys_with_gemini
    (fun _ => Some ("{" ++ member "Email" "entry.2" ++ "}")) flat_json.loads
    [("Your email", Test2.Plain "entry.2"); ("entry.9", Test2.Hidden "entry.9" "abc")]
    ["Email"]
  = ([], []).
Proof.
  apply (proj1 (proj2 (unusable_reply_gives_empty_mapping
                         (fun _ => Some ("{" ++ member "Email" "entry.2" ++ "}"))
                         flat_json.loads
                         [("Your email", Test2.Plain "entry.2");
                          ("entry.9", Test2.Hidden "entry.9" "abc")]
                         ["Email"]))
           ("{" ++ member "Email" "entry.2" ++ "}") eq_refl).
  vm_compute. intuition discriminate.
Defined.

(** ** Strategy C: the warnings *)

Lemma check_entries_quiet (members : py.dict Test2.json) (used : gset string)
    (log : list Test2.warning) :
  snd (fold_left Test2.check_entry (map (fun '(k, j) => (k, Test2.of_json j)) members)
         (used, log)) = []
  <-> log = []
      /\ (forall col j, In (col, j) members -> is_identifier j = true /\ text_of j ∉ used)
      /\ List.NoDup (map (fun kv => text_of (snd kv)) members).
Proof.
  revert used log. induction members as [|[k j] members IH]; intros used log.
  - simpl. split; [| now intros [-> _]].
    intros ->. split; [reflexivity |]. split; [intros ? ? [] | constructor].
  - assert (Hbad : forall w,
              is_identifier j = false \/ text_of j ∈ used ->
              snd (fold_left Test2.check_entry
                     (map (fun '(k, j) => (k, Test2.of_json j)) members)
                     (used, (log ++ [w])%list)) = []
              <-> log = []
                  /\ (forall col j', In (col, j') ((k, j) :: members) ->
                        is_identifier j' = true /\ text_of j' ∉ used)
                  /\ List.NoDup (map (fun kv => text_of (snd kv)) ((k, j) :: members))).
    { intros w Hj. split.
      - intros H. exfalso.
        pose proof (check_entries_grow (map (fun '(k, j) => (k, Test2.of_json j)) members)
                      (used, (log ++ [w])%list) w) as Hin.
        rewrite H in Hin. apply Hin. simpl. apply in_or_app. right. now left.
      - intros (_ & Hall & _). exfalso.
        destruct (Hall k j (or_introl eq_refl)) as [H1 H2].
        destruct Hj as [Hj | Hj]; [congruence | contradiction]. }
    cbn [map fold_left].
    destruct j as [| b | n | name | l | o];
      try (apply Hbad; now left).
    cbn -[py.startswith]. destruct (py.startswith name "entry.") eqn:Hs; cbn [negb].
    + destruct (bool_decide (name ∈ used)) eqn:Hu.
      * apply bool_decide_eq_true in Hu. apply Hbad. now right.
      * apply bool_decide_eq_false in Hu. rewrite IH. cbn [map snd text_of].
        split.
        -- intros (-> & Hall & Hnd). split; [reflexivity |]. split.
           ++ intros col j' [H | H].
              ** injection H as <- <-. split; [exact Hs | exact Hu].
              ** destruct (Hall col j' H) as [H1 H2]. split; [exact H1 |].
                 intros Hin. apply H2, elem_of_union. now right.
           ++ constructor; [| exact Hnd]. intros H. apply in_map_iff in H as [[c j'] [E H]].
              simpl in E. destruct (Hall c j' H) as [_ H2].
              apply H2, elem_of_union. left. now apply elem_of_singleton.
        -- intros (-> & Hall & Hnd). apply List.NoDup_cons_iff in Hnd as [Hnotin Hnd].
           split; [reflexivity |]. split; [| exact Hnd].
           intros col j' H. destruct (Hall col j' (or_intror H)) as [H1 H2].
           split; [exact H1 |]. intros Hin. apply elem_of_union in Hin as [Hin | Hin];
             [| contradiction].
           apply elem_of_singleton in Hin. apply Hnotin. apply in_map_iff.
           exists (col, j'). split; [simpl; congruence | exact H].
    + apply Hbad. left. simpl. exact Hs.
Qed.

(** X20.  Strategy C prints a warning exactly when the object the model
    sent is not a one-to-one assignment of identifiers: there is no
    warning if and only if every value of the object is a text that
    begins with [entry.] and no two columns have the same value. *)
Theorem warnings_iff_reply_not_one_to_one (generate_content : string -> option string)
    (json_loads : string -> option Test2.json)
    (entry_id_dict : py.dict Test2.entry_id) (csv_header : list string)
    (members : py.dict Test2.json) :
  reply_decodes_to generate_content json_loads entry_id_dict csv_header members ->
  snd (Test2.find_matching_keys_with_gemini generate_content json_loads
         entry_id_dict csv_header) = []
  <-> (forall col j, In (col, j) members -> is_identifier j = true)
      /\ List.NoDup (map (fun kv => text_of (snd kv)) members).
Proof.
  intros Hreply. rewrite (decoded_reply_log _ _ _ _ _ Hreply), check_entries_quiet.
  split.
  - intros (_ & Hall & Hnd). split; [| exact Hnd]. intros col j H. now apply (Hall col j).
  - intros [Hall Hnd]. split; [reflexivity |]. split; [| exact Hnd].
    intros col j H. split; [now apply (Hall col j) | set_solver].
Qed.

(** The reply that gives entry.2 to two columns is not one-to-one. *)
Lemma warnings_iff_reply_not_one_to_one_double :
  snd (Test2.find_matching_keys_with_gemini (fun _ => Some double_reply) flat_json.loads
         [("Your email", Test2.Plain "entry.2"); ("Phone number", Test2.Plain "entry.3")]
         ["Email"; "Phone"]) <> [].
Proof.
  intros H.
  apply (warnings_iff_reply_not_one_to_one (fun _ => Some double_reply) flat_json.loads
           [("Your email", Test2.Plain "entry.2"); ("Phone number", Test2.Plain "entry.3")]
           ["Email"; "Phone"]
           [("Email", Test2.JString "entry.2"); ("Phone", Test2.JString "entry.2")]) in H.
  - destruct H as [_ Hnd]. simpl in Hnd. apply List.NoDup_cons_iff in Hnd as [Hnotin _].
    apply Hnotin. now left.
  - exists double_reply. eexists. eexists. repeat split; vm_compute; reflexivity.
Defined.

(** ** The scripts from end to end *)

Lemma verdicts_ext sent sent' rows i :
  (forall i r, In r rows -> sent i r = sent' i r) ->
  verdicts sent rows i = verdicts sent' rows i
  /\ all_sent sent rows i = all_sent sent' rows i.
Proof.
  revert i. induction rows as [|r rows IH]; intros i H; [split; reflexivity |].
  simpl. rewrite (H i r (or_introl eq_refl)).
  destruct (IH (S i)) as [-> ->]; [intros; apply H; now right |]. split; reflexivity.
Qed.

Lemma verdicts_rows sent rows i :
  reported_rows (verdicts sent rows i) = seq i (length rows)
  /\ ~ In Unexpected (verdicts sent rows i)
  /\ (all_sent sent rows i = true <->
      List.Forall (fun e => is_success e = true) (verdicts sent rows i)).
Proof.
  revert i. induction rows as [|r rows IH]; intros i; simpl.
  - split; [reflexivity |]. split; [intros [] |]. split; [constructor | reflexivity].
  - destruct (IH (S i)) as (Hrows & Hno & Hall). split; [| split].
    + destruct (sent i r); simpl; now rewrite Hrows.
    + intros [H | H]; [destruct (sent i r); discriminate | contradiction].
    + rewrite andb_true_iff, Hall. split.
      * intros [-> H]. now constructor.
      * intros H. apply List.Forall_cons_iff in H as [H1 H2].
        split; [destruct (sent i r); [reflexivity | discriminate] | exact H2].
Qed.

Lemma get_form_entry_ids_nonempty page : Test.get_form_entry_ids page <> Some [].
Proof.
  unfold Test.get_form_entry_ids. destruct page as [|status_code list_items]; [discriminate |].
  destruct (requests.raises_for_status status_code); [discriminate |].
  destruct (Test.scan_items list_items []) as [[|e es]|]; discriminate.
Qed.

(** X21.  test.py from end to end, on a data file with a header: when
    the page gives a field map and Strategy A maps at least one column,
    the rows are posted in order to the response address of the form,
    the payload of a row holding, for each mapped column and under the
    identifier it is mapped to, the value of the row; the report has
    the verdict of each row, and the run succeeds when all rows were
    accepted.  Without a field map or without a mapped column nothing
    is posted. *)
Theorem test_main_end_to_end (page : requests.reply (list Test.listitem))
    (post : transport) (header : list string) (rows : list row) :
  Test.main page post (Table header rows)
  = match Test.get_form_entry_ids page with
    | None => ExtractionFailed
    | Some entry_ids =>
        match Test.find_matching_keys entry_ids header with
        | [] => NoMappings
        | field_mappings =>
            let sent i r :=
              accepted
                (post i
                   "https://docs.google.com/forms/d/e/1FAIpQLSe-1isITQZCOh1hWQTlJ2dEDzRuqlxT9mU3kLiXAW4Z-EGziQ/formResponse"
                   (raw_payload field_mappings r)) in
            Ran (all_sent sent rows 1) (verdicts sent rows 1)
        end
    end.
Proof.
  unfold Test.main. pose proof (get_form_entry_ids_nonempty page) as Hne.
  destruct (Test.get_form_entry_ids page) as [[|e es]|]; [contradiction | | reflexivity].
  cbn [header_of rows_of].
  pose proof (heuristic_mapping_values (e :: es) header) as Hnd.
  destruct (Test.find_matching_keys (e :: es) header) as [|m ms]; [reflexivity |].
  unfold Test.csv_to_google_form. cbv zeta. rewrite submit_rows_all. cbv zeta.
  change (py.replace Test.form_url "/viewform" "/formResponse")
    with "https://docs.google.com/forms/d/e/1FAIpQLSe-1isITQZCOh1hWQTlJ2dEDzRuqlxT9mU3kLiXAW4Z-EGziQ/formResponse".
  cbn [andb app].
  match goal with
  | |- Ran (all_sent ?s _ _) _ = Ran (all_sent ?s' _ _) _ =>
      destruct (verdicts_ext s s' rows 1) as [-> ->]; [| reflexivity]
  end.
  intros i r _. change (Test.form_data_of (m :: ms) r) with (Bot.fill_all (m :: ms) r []).
  now rewrite (fill_all_fresh (m :: ms) r [] Hnd).
Qed.

(** X22.  bot.py run through [main]: the two module-level names are
    bound before the rows are submitted, so the run is never cut short
    by an unexpected error.  When [main] gets to submit, the file had a
    header, the rule file was read, and the report has exactly one
    verdict for each row of the file, in order; the run succeeds when
    every verdict is a success.  With a rule file that is missing or
    not JSON nothing is submitted. *)
Theorem bot_main_report (page : requests.reply (list Test.listitem)) (post : transport)
    (csvfile : csv_file) (regex_patterns_file : Bot.patterns_file)
    (success : bool) (log : list event) :
  Bot.main page post csvfile regex_patterns_file = Ran success log ->
  (exists header rows regex_patterns,
     csvfile = Table header rows /\ regex_patterns_file = Bot.Patterns regex_patterns
     /\ reported_rows log = seq 1 (length rows))
  /\ ~ In Unexpected log
  /\ (success = true <-> List.Forall (fun e => is_success e = true) log).
Proof.
  unfold Bot.main.
  destruct (Bot.get_form_entry_ids page) as [[|e es]|]; try discriminate.
  destruct csvfile as [| | header rows]; try discriminate. cbn [header_of rows_of].
  destruct regex_patterns_file as [| | regex_patterns]; try discriminate.
  destruct (fst (Bot.find_matching_keys_with_regex (e :: es) header (Bot.Patterns regex_patterns)))
    as [|m ms]; [discriminate |].
  unfold Bot.csv_to_google_form. cbv zeta.
  rewrite (submit_rows_all_bound
             {| Bot.entry_ids := Some (e :: es); Bot.mappings := Some (m :: ms) |}
             _ _ _ _ _ _ _ (e :: es) (m :: ms) eq_refl eq_refl).
  cbv zeta. cbn [andb app]. intros [= <- <-].
  match goal with
  | |- context [verdicts ?s rows 1%nat] =>
      destruct (verdicts_rows s rows 1) as (Hrows & Hno & Hall)
  end.
  split; [exists header, rows, regex_patterns; auto |]. split; assumption.
Qed.

(** One row for the form of one field, with the rule that looks for
    [email] in the label. *)
Lemma bot_main_report_email :
  Bot.main email_page (fun _ _ _ => requests.Response 200 tt)
    (Table ["Email"] [texts [("Email", "a@example.org")]]) plain_rules
  = Ran true [Success 1]
  /\ ~ In Unexpected [Success 1].
Proof.
  split; [reflexivity |].
  exact (proj1 (proj2 (bot_main_report email_page (fun _ _ _ => requests.Response 200 tt)
                         (Table ["Email"] [texts [("Email", "a@example.org")]]) plain_rules
                         true [Success 1] eq_refl))).
Defined.

Lemma filter_twice {A : Type} (f : A -> bool) (l : list A) :
  List.filter f (List.filter f l) = List.filter f l.
Proof.
  induction l as [|a l IH]; [reflexivity |]. simpl.
  destruct (f a) eqn:E; simpl; [rewrite E; f_equal |]; exact IH.
Qed.

(** X23.  test2.py run through [main].  Without the API key nothing is
    fetched or sent.  A page on which no field is found ends the run as
    a failed extraction, as a page that cannot be fetched does.  The
    column User is taken out of the header before the model is asked,
    so the run is the same as on the header without it.  And when the
    model gives no reply the run ends without a mapping: nothing is
    submitted, even if the form has hidden fields. *)
Theorem session_main_outcomes (generate_content : string -> option string)
    (json_loads : string -> option Test2.json)
    (browser_cookie3 : string -> option (list Test2.cookie))
    (page : requests.reply Test2.soup) (post : Test2.session_transport)
    (user_credentials_file : option (py.dict Test2.user_info)) :
  (forall csvfile,
     Test2.main None generate_content json_loads browser_cookie3 page post csvfile
       user_credentials_file = NoApiKey)
  /\ (forall key csvfile,
        Test2.get_form_entry_ids page = Some [] ->
        Test2.main (Some key) generate_content json_loads browser_cookie3 page post csvfile
          user_credentials_file = ExtractionFailed)
  /\ (forall key header rows,
        Test2.main key generate_content json_loads browser_cookie3 page post
          (Table header rows) user_credentials_file
        = Test2.main key generate_content json_loads browser_cookie3 page post
            (Table (List.filter (fun col => negb (String.eqb col "User")) header) rows)
            user_credentials_file)
  /\ (forall key header rows e es,
        Test2.get_form_entry_ids page = Some (e :: es) ->
        (forall prompt, generate_content prompt = None) ->
        Test2.main (Some key) generate_content json_loads browser_cookie3 page post
          (Table header rows) user_credentials_file = NoMappings).
Proof.
  split; [reflexivity |]. split; [| split].
  - intros key csvfile H. unfold Test2.main. now rewrite H.
  - intros key header rows. unfold Test2.main. cbn [header_of rows_of].
    now rewrite filter_twice.
  - intros key header rows e es H Hgen. unfold Test2.main. rewrite H.
    cbn [header_of]. cbv zeta. unfold Test2.find_matching_keys_with_gemini.
    now rewrite Hgen.
Qed.

(** A form with one hidden field and a model that does not answer. *)
Lemma session_main_outcomes_no_reply :
  Test2.main (Some "key") (fun _ => None) flat_json.loads (fun _ => None)
    (requests.Response 200
       {| Test2.containers := [];
          Test2.hidden_inputs :=
            [{| Test2.hidden_name := Some "fbzx"; Test2.hidden_value := Some "7" |}] |})
    (fun _ _ _ _ => requests.Response 200 tt)
    (Table ["User"; "Email"] [texts [("User", "default"); ("Email", "a@example.org")]])
    (Some one_user)
  = NoMappings.
Proof.
  destruct (session_main_outcomes (fun _ => None) flat_json.loads (fun _ => None)
              (requests.Response 200
                 {| Test2.containers := [];
                    Test2.hidden_inputs :=
                      [{| Test2.hidden_name := Some "fbzx";
                          Test2.hidden_value := Some "7" |}] |})
              (fun _ _ _ _ => requests.Response 200 tt) (Some one_user))
    as (_ & _ & _ & H).
  apply (H "key" ["User"; "Email"] [texts [("User", "default"); ("Email", "a@example.org")]]
           ("fbzx", Test2.Hidden "fbzx" "7") []); reflexivity.
Defined.
